(** * GenAIDocumentAssistant: ingestion, lexical retrieval and prompt assembly

    A shallow embedding of [genai_document_assistant.py] (class
    [GenAIDocumentAssistant]) and of the part of [DataExtractor.py] it calls,
    with the properties of the ingestion pipeline, the retriever and the
    answer composer.

    Conventions of the embedding.
    - A Python [str] is a [string]; one [ascii] stands for one code point of
      the range U+0000..U+00FF, on which [lower], [isspace] and [len] are
      written out exactly.
    - A Python [int] that can go negative (the character budget, the
      remaining room, [str.find] results) is a [Z]; lengths and counts are
      [nat].
    - A [dict] is an association list in insertion order (Python dictionaries
      iterate in insertion order, and the fallback sample and the ranking
      depend on it); [d[k] = v] is [dict_set].
    - What the program obtains from its collaborators (object store,
      extraction backends, clock, language model) is an explicit argument.
    - [print] calls are left out: nothing observable by the caller depends
      on them. *)

From Stdlib Require Import Bool Arith ZArith Lia List Ascii String.
From Stdlib Require Import Sorting.Sorted Sorting.Permutation.
Import ListNotations.

Local Open Scope string_scope.
Local Open Scope nat_scope.
Local Open Scope list_scope.

(* ------------------------------------------------------------------ *)
(** * Python strings *)
(* ------------------------------------------------------------------ *)

Module PyStr.

(** The newline character and the one-character string made of it. *)
Definition nl_char : ascii := ascii_of_nat 10.
Definition nl : string := String nl_char EmptyString.

(** [c.isspace()] for a code point below U+0100: the controls 9..13 and
    28..31, the space, U+0085 and U+00A0. *)
Definition isspace (c : ascii) : bool :=
  let n := nat_of_ascii c in
  (((9 <=? n) && (n <=? 13)) || ((28 <=? n) && (n <=? 32))
   || (n =? 133) || (n =? 160))%nat.

(** [c.lower()] for a code point below U+0100: A..Z, and the accented
    capitals U+00C0..U+00DE except the multiplication sign U+00D7. *)
Definition lower_char (c : ascii) : ascii :=
  let n := nat_of_ascii c in
  if (((65 <=? n) && (n <=? 90))
      || ((192 <=? n) && (n <=? 222) && negb (n =? 215)))%nat
  then ascii_of_nat (n + 32) else c.

(** [s.lower()] *)
Fixpoint lower (s : string) : string :=
  match s with
  | EmptyString => EmptyString
  | String c s' => String (lower_char c) (lower s')
  end.

(** [s.lstrip()], [s.rstrip()], [s.strip()] *)
Fixpoint lstrip (s : string) : string :=
  match s with
  | EmptyString => EmptyString
  | String c s' => if isspace c then lstrip s' else s
  end.

Fixpoint rstrip (s : string) : string :=
  match s with
  | EmptyString => EmptyString
  | String c s' =>
      match rstrip s' with
      | EmptyString => if isspace c then EmptyString else String c EmptyString
      | r => String c r
      end
  end.

Definition strip (s : string) : string := rstrip (lstrip s).

(** Truth value of a string in a condition: [if s:]. *)
Definition truthy (s : string) : bool :=
  match s with EmptyString => false | String _ _ => true end.

(** [s.split()] with no argument: the maximal runs of non-whitespace
    characters, in order; never an empty string. *)
Definition push_word (w : string) (ws : list string) : list string :=
  match w with EmptyString => ws | String _ _ => w :: ws end.

Fixpoint split_go (s : string) : string * list string :=
  match s with
  | EmptyString => (EmptyString, [])
  | String c s' =>
      let (w, ws) := split_go s' in
      if isspace c then (EmptyString, push_word w ws) else (String c w, ws)
  end.

Definition split (s : string) : list string :=
  let (w, ws) := split_go s in push_word w ws.

(** A word: at least one character and no whitespace. *)
Definition is_word (w : string) : bool :=
  truthy w && forallb (fun c => negb (isspace c)) (list_ascii_of_string w).

(** [s.split(sep)[-1]] for a one-character separator: what follows the last
    separator, the whole string when there is none. *)
Fixpoint after_last (sep : ascii) (s : string) : string :=
  match s with
  | EmptyString => EmptyString
  | String c s' =>
      if Ascii.eqb c sep then after_last sep s'
      else if existsb (Ascii.eqb sep) (list_ascii_of_string s')
           then after_last sep s' else s
  end.

(** [t in s]: [t] occurs in [s] as a contiguous substring. *)
Fixpoint contains (t s : string) : bool :=
  prefix t s
  || match s with
     | EmptyString => false
     | String _ s' => contains t s'
     end.

(** [s.find(t)]: the offset of the first occurrence, [-1] when none. *)
Fixpoint find (t s : string) : Z :=
  if prefix t s then 0%Z
  else match s with
       | EmptyString => (-1)%Z
       | String _ s' =>
           let i := find t s' in
           if (i <? 0)%Z then (-1)%Z else (i + 1)%Z
       end.

(** [s[:n]] for a non-negative [n]. *)
Fixpoint take (n : nat) (s : string) : string :=
  match n, s with
  | S n', String c s' => String c (take n' s')
  | _, _ => EmptyString
  end.

(** [s[n:]] for a non-negative [n]. *)
Fixpoint drop (n : nat) (s : string) : string :=
  match n, s with
  | S n', String _ s' => drop n' s'
  | _, _ => s
  end.

(** A slice bound as Python resolves it: a negative bound counts from the
    end, and the result is clamped to [0 .. len]. *)
Definition clamp (len : nat) (i : Z) : nat :=
  let j := if (i <? 0)%Z then (Z.of_nat len + i)%Z else i in
  Nat.min len (Z.to_nat j).

(** [s[:stop]] *)
Definition slice_to (s : string) (stop : Z) : string :=
  take (clamp (String.length s) stop) s.

(** [s[start:stop]] *)
Definition slice (s : string) (start stop : Z) : string :=
  let a := clamp (String.length s) start in
  let b := clamp (String.length s) stop in
  take (b - a) (drop a s).

(** [sep.join(parts)] *)
Definition join (sep : string) (parts : list string) : string :=
  String.concat sep parts.

(** The documents-as-propositions reading of [t in s]. *)
Definition Substring (t s : string) : Prop :=
  exists pre post : string, s = (pre ++ t ++ post)%string.

End PyStr.


(* ------------------------------------------------------------------ *)
(** * Exceptions and dictionaries *)
(* ------------------------------------------------------------------ *)

(** A call either raises (an exception, kept as its [str(exc)] text) or
    returns a value. *)
Inductive outcome (A : Type) : Type :=
| Raises (detail : string)
| Returns (value : A).
Arguments Raises {A} detail.
Arguments Returns {A} value.

Definition bind {A B : Type} (m : outcome A) (k : A -> outcome B) : outcome B :=
  match m with
  | Raises e => Raises e
  | Returns a => k a
  end.

Notation "x <- m ;; k" := (bind m (fun x => k))
  (at level 61, m at next level, right associativity).

(** [[f(x) for x in xs]] where [f] may raise: the first failure aborts. *)
Fixpoint map_outcome {A B : Type} (f : A -> outcome B) (xs : list A)
  : outcome (list B) :=
  match xs with
  | [] => Returns []
  | x :: xs' => y <- f x ;; ys <- map_outcome f xs' ;; Returns (y :: ys)
  end.

(** [x in {...}] for a set literal (or a list) of strings. *)
Definition in_set (x : string) (s : list string) : bool :=
  existsb (String.eqb x) s.

(** No string occurs twice. *)
Fixpoint distinct (ks : list string) : bool :=
  match ks with
  | [] => true
  | k :: rest => negb (in_set k rest) && distinct rest
  end.

Section Dict.
Context {V : Type}.

(** A [dict] keyed by strings, in insertion order. *)
Definition dict : Type := list (string * V).

(** [d.get(k)]; [d[k]] is this with [None] read as [KeyError]. *)
Fixpoint dict_get (k : string) (d : dict) : option V :=
  match d with
  | [] => None
  | (k', v) :: d' => if String.eqb k' k then Some v else dict_get k d'
  end.

(** [d[k] = v]: an existing key keeps its place and takes the new value,
    a new key goes to the end. *)
Fixpoint dict_set (k : string) (v : V) (d : dict) : dict :=
  match d with
  | [] => [(k, v)]
  | (k', v') :: d' =>
      if String.eqb k' k then (k', v) :: d' else (k', v') :: dict_set k v d'
  end.

(** [list(d.keys())] *)
Definition dict_keys (d : dict) : list string := map fst d.

(** [list(d.values())] *)
Definition dict_values (d : dict) : list V := map snd d.

(** [k in d] *)
Definition dict_mem (k : string) (d : dict) : bool :=
  in_set k (dict_keys d).

(** The association list is a dictionary: no key twice. *)
Definition is_dict (d : dict) : Prop := distinct (dict_keys d) = true.
End Dict.
Arguments dict V : clear implicits.

(** The text of the [KeyError] raised by [d[k]]; Python shows [repr(k)],
    whose escaping is not modelled (no code path reads this text). *)
Definition key_error (k : string) : string := "'" ++ k ++ "'".

(** [d[k]] *)
Definition dict_item {V : Type} (k : string) (d : dict V) : outcome V :=
  match dict_get k d with
  | Some v => Returns v
  | None => Raises (key_error k)
  end.

(* ------------------------------------------------------------------ *)
(** * DataExtractor: the extraction adapter *)
(* ------------------------------------------------------------------ *)

Module DataExtractor.

(** [xs[0]], which raises [IndexError] on an empty list. *)
Definition first {A : Type} (xs : list A) : outcome A :=
  match xs with
  | [] => Raises "list index out of range"
  | x :: _ => Returns x
  end.

(** [try: body except Exception: return ""] *)
Definition or_empty (body : outcome string) : string :=
  match body with
  | Raises _ => ""
  | Returns text => text
  end.

(** [extract_from_audio]. [recognize] is what
    [speech_client.recognize(...)] does: it raises, or returns the results,
    each with the transcripts of its alternatives. *)
Definition extract_from_audio (recognize : outcome (list (list string))) : string :=
  or_empty
    (results <- recognize ;;
     transcripts <- map_outcome first results ;;
     Returns (PyStr.strip (PyStr.join " " transcripts))).

(** [extract_from_video]. [annotate] is what [annotate_video(...)] followed
    by [operation.result(timeout=300)] does: it raises (a time-out too), or
    returns the annotation results, each with its speech transcriptions, each
    with the transcripts of its alternatives. *)
Definition extract_from_video
    (annotate : outcome (list (list (list string)))) : string :=
  or_empty
    (annotation_results <- annotate ;;
     transcripts <- map_outcome first (List.concat annotation_results) ;;
     Returns (PyStr.strip (PyStr.join " " transcripts))).

(** [extract_from_pdf]. [pdf_extract_text] is the parser's result. *)
Definition extract_from_pdf (pdf_extract_text : outcome string) : string :=
  or_empty (text <- pdf_extract_text ;; Returns (PyStr.strip text)).

(** [extract_from_docx]. [document] is [docx.Document(path)]: it raises, or
    gives the texts of the paragraphs. *)
Definition extract_from_docx (document : outcome (list string)) : string :=
  or_empty
    (paragraph_texts <- document ;;
     let paragraphs :=
       filter (fun p => PyStr.truthy (PyStr.strip p)) paragraph_texts in
     Returns (PyStr.strip (PyStr.join PyStr.nl paragraphs))).

(** [extract_from_pptx]. [presentation] is [Presentation(path)]: it raises,
    or gives the slides, each with its shapes; a shape is [Some text] when it
    has a [text] attribute. *)
Definition extract_from_pptx
    (presentation : outcome (list (list (option string)))) : string :=
  or_empty
    (slides <- presentation ;;
     let texts :=
       flat_map
         (fun shapes =>
            flat_map
              (fun shape =>
                 match shape with
                 | Some text =>
                     if PyStr.truthy (PyStr.strip text)
                     then [PyStr.strip text] else []
                 | None => []
                 end) shapes) slides in
     Returns (PyStr.strip (PyStr.join PyStr.nl texts))).

(** [extract_from_txt]. [read] is opening and reading the file as UTF-8. *)
Definition extract_from_txt (read : outcome string) : string :=
  or_empty (text <- read ;; Returns (PyStr.strip text)).

End DataExtractor.

(* ------------------------------------------------------------------ *)
(** * The assistant's state *)
(* ------------------------------------------------------------------ *)

(** A value of [document_metadata]. *)
Module Meta.
Record t : Type := {
  type : string;
  size_chars : nat;
  gcs_path : string;
  processed_at : string
}.
End Meta.

(** The two in-memory stores of a [GenAIDocumentAssistant]. *)
Record assistant : Type := {
  document_contents : dict string;
  document_metadata : dict Meta.t
}.

(** The stores as [__init__] leaves them. *)
Definition init : assistant :=
  {| document_contents := []; document_metadata := [] |}.

(* ------------------------------------------------------------------ *)
(** * Ingestion: [load_documents_from_gcs] *)
(* ------------------------------------------------------------------ *)

(** One turn of [for blob in blobs], as the environment determines it:
    the object's name, what the extractor call of its branch does (for pdf,
    docx, pptx and txt together with the temporary file and the download
    before it), and the clock reading [datetime.utcnow().isoformat()].
    The extraction is consulted only when the extension is a supported one. *)
Record blob_visit : Type := {
  blob_name : string;
  extraction : outcome string;
  utcnow : string
}.

(** The [if / elif] chain on [file_ext]: the [content_type] of the branch
    taken, [None] when no branch is (no extractor is called then). *)
Definition content_type_of (file_ext : string) : option string :=
  if in_set file_ext ["wav"; "mp3"; "flac"; "m4a"] then Some "Audio Transcript"
  else if in_set file_ext ["mp4"; "avi"; "mov"; "mkv"] then Some "Video Transcript"
  else if in_set file_ext ["pdf"; "docx"; "pptx"; "txt"] then
    if String.eqb file_ext "pdf" then Some "PDF Document"
    else if String.eqb file_ext "docx" then Some "Word Document"
    else if String.eqb file_ext "pptx" then Some "PowerPoint Presentation"
    else if String.eqb file_ext "txt" then Some "Plain Text"
    else None
  else None.

(** [blob.name.split(".")[-1].lower()] *)
Definition file_ext_of (blob_name : string) : string :=
  PyStr.lower (PyStr.after_last "." blob_name).

(** [os.path.basename(blob.name)] *)
Definition basename (path : string) : string := PyStr.after_last "/" path.

(** The first half of the loop body: [text_content] and [content_type], or
    the exception that leaves the [try] block. *)
Definition extract_step (v : blob_visit) : outcome (string * string) :=
  match content_type_of (file_ext_of (blob_name v)) with
  | Some content_type =>
      text_content <- extraction v ;; Returns (text_content, content_type)
  | None => Returns ("", "Unknown")
  end.

(** The dictionary literal stored in [document_metadata]. *)
Definition new_metadata (bucket_name : string) (v : blob_visit)
    (text_content content_type : string) : Meta.t :=
  {| Meta.type := content_type;
     Meta.size_chars := String.length text_content;
     Meta.gcs_path := "gs://" ++ bucket_name ++ "/" ++ blob_name v;
     Meta.processed_at := utcnow v ++ "Z" |}.

(** The two assignments of the [if text_content.strip():] branch. *)
Definition commit (bucket_name : string) (v : blob_visit)
    (text_content content_type : string) (self : assistant) : assistant :=
  let file_name := basename (blob_name v) in
  {| document_contents := dict_set file_name text_content (document_contents self);
     document_metadata :=
       dict_set file_name
         (new_metadata bucket_name v text_content content_type)
         (document_metadata self) |}.

(** The loop body with its [try / except Exception]. *)
Definition process_blob (bucket_name : string) (self : assistant)
    (v : blob_visit) : assistant :=
  match extract_step v with
  | Raises _ => self
  | Returns (text_content, content_type) =>
      if PyStr.truthy (PyStr.strip text_content)
      then commit bucket_name v text_content content_type self
      else self
  end.

(** [load_documents_from_gcs]: the new state and the returned [total].
    [visits] are the objects listed under the prefix [extracted/], in listing
    order. *)
Definition load_documents_from_gcs (bucket_name : string)
    (visits : list blob_visit) (self : assistant) : assistant * nat :=
  let self' := fold_left (process_blob bucket_name) visits self in
  (self', List.length (document_contents self')).

(* ------------------------------------------------------------------ *)
(** * Retrieval: [create_context_from_documents] *)
(* ------------------------------------------------------------------ *)

(** An element of [ranked]. *)
Module Cand.
Record t : Type := {
  name : string;
  content : string;
  score : nat;
  type : string
}.
End Cand.

(** [set(query.lower().split())]: the distinct terms. The iteration order of
    a Python set is unspecified; only membership and the count are used. *)
Definition query_terms (query : string) : list string :=
  nodup string_dec (PyStr.split (PyStr.lower query)).

(** [sum(1 for term in query_terms if term in content_lower)] *)
Definition score_of (terms : list string) (content : string) : nat :=
  let content_lower := PyStr.lower content in
  list_sum
    (map (fun _ : string => 1)
       (filter (fun term => PyStr.contains term content_lower) terms)).

(** [self.document_metadata[doc_name]["type"]] *)
Definition metadata_type (self : assistant) (doc_name : string) : outcome string :=
  meta <- dict_item doc_name (document_metadata self) ;; Returns (Meta.type meta).

(** The scoring loop over [self.document_contents.items()]. *)
Fixpoint score_documents (self : assistant) (terms : list string)
    (items : list (string * string)) : outcome (list Cand.t) :=
  match items with
  | [] => Returns []
  | (doc_name, content) :: rest =>
      let score := score_of terms content in
      if 0 <? score then
        ty <- metadata_type self doc_name ;;
        ranked <- score_documents self terms rest ;;
        Returns ({| Cand.name := doc_name; Cand.content := content;
                    Cand.score := score; Cand.type := ty |} :: ranked)
      else score_documents self terms rest
  end.

(** The fallback comprehension over [list(items)[:2]]. *)
Definition fallback (self : assistant) : outcome (list Cand.t) :=
  let sample := firstn 2 (document_contents self) in
  map_outcome
    (fun '(n, c) =>
       ty <- metadata_type self n ;;
       Returns {| Cand.name := n; Cand.content := c;
                  Cand.score := 0; Cand.type := ty |})
    sample.

(** [ranked.sort(key=lambda d: d["score"], reverse=True)]. Python's sort is
    stable, also with [reverse=True]: candidates come out by decreasing
    score, and candidates of equal score keep their relative order. The
    insertion below puts a candidate in front of the first one whose score
    is not larger. *)
Fixpoint insert_by_score (d : Cand.t) (sorted : list Cand.t) : list Cand.t :=
  match sorted with
  | [] => [d]
  | e :: rest =>
      if Cand.score d <? Cand.score e
      then e :: insert_by_score d rest
      else d :: sorted
  end.

Definition sort_by_score (ranked : list Cand.t) : list Cand.t :=
  fold_right insert_by_score [] ranked.

(** [ranked] as it stands when the assembly loop starts. *)
Definition rank_documents (self : assistant) (query : string)
  : outcome (list Cand.t) :=
  let terms := query_terms query in
  ranked <- score_documents self terms (document_contents self) ;;
  ranked <- match ranked with
            | [] => fallback self
            | _ :: _ => Returns ranked
            end ;;
  Returns (sort_by_score ranked).

(** [f"=== {doc['name']} ({doc['type']}) ===\n"] *)
Definition header (doc : Cand.t) : string :=
  "=== " ++ Cand.name doc ++ " (" ++ Cand.type doc ++ ") ===" ++ PyStr.nl.

(** [max_context_len - current_len - len(header) - 100], where [current_len]
    is [len(context)] at every turn of the loop. *)
Definition remaining_for (max_context_len : Z) (context : string)
    (doc : Cand.t) : Z :=
  max_context_len - Z.of_nat (String.length context)
  - Z.of_nat (String.length (header doc)) - 100.

(** What one turn appends to [context]. *)
Definition entry (doc : Cand.t) (remaining : Z) : string :=
  header doc ++ PyStr.slice_to (Cand.content doc) remaining
  ++ PyStr.nl ++ PyStr.nl.

(** The assembly loop [for doc in ranked], with its [break]. *)
Fixpoint assemble (max_context_len : Z) (ranked : list Cand.t)
    (context : string) : string :=
  match ranked with
  | [] => context
  | doc :: rest =>
      let remaining := remaining_for max_context_len context doc in
      if (remaining <=? 0)%Z then context
      else assemble max_context_len rest (context ++ entry doc remaining)
  end.

(** The turns of the assembly loop that append: each appended candidate with
    the value of [remaining] at its turn. It follows [assemble] and is used
    to speak about what [assemble] included. *)
Fixpoint included (max_context_len : Z) (ranked : list Cand.t)
    (context : string) : list (Cand.t * Z) :=
  match ranked with
  | [] => []
  | doc :: rest =>
      let remaining := remaining_for max_context_len context doc in
      if (remaining <=? 0)%Z then []
      else (doc, remaining)
             :: included max_context_len rest (context ++ entry doc remaining)
  end.

Definition no_documents : string := "No documents loaded.".
Definition context_start : string := "DOCUMENT CONTENTS:" ++ PyStr.nl ++ PyStr.nl.

(** [create_context_from_documents(query, max_context_len)] *)
Definition create_context_from_documents (self : assistant) (query : string)
    (max_context_len : Z) : outcome string :=
  match document_contents self with
  | [] => Returns no_documents
  | _ :: _ =>
      ranked <- rank_documents self query ;;
      Returns (assemble max_context_len ranked context_start)
  end.

(* ------------------------------------------------------------------ *)
(** * Answering: [ask_question] and the helpers *)
(* ------------------------------------------------------------------ *)

(** The dictionary returned by [ask_question]; the two diagnostics are
    present on the success path only. *)
Module Answer.
Record t : Type := {
  answer : string;
  sources : list string;
  confidence : string;
  context_length : option nat;
  documents_used : option nat
}.
End Answer.

(** The language model: [generate] is [self.model.generate_content(prompt)]
    followed by [response.text]; it raises or gives the text. *)
Definition model : Type := string -> outcome string.

Definition question_prompt (question context : string) : string :=
  "You are an AI assistant that answers questions strictly using the" ++ PyStr.nl
  ++ "documents provided in the CONTEXT section below. Do NOT hallucinate." ++ PyStr.nl
  ++ "If the answer can't be found, explicitly say so and cite the relevant documents." ++ PyStr.nl
  ++ PyStr.nl
  ++ "QUESTION: " ++ question ++ PyStr.nl
  ++ PyStr.nl
  ++ "CONTEXT:" ++ PyStr.nl
  ++ context ++ PyStr.nl
  ++ PyStr.nl
  ++ "ANSWER:".

(** [ask_question(question)]. An exception of the context assembly, which
    is outside the [try], leaves the function. *)
Definition ask_question (self : assistant) (generate : model)
    (question : string) : outcome Answer.t :=
  match document_contents self with
  | [] =>
      Returns {| Answer.answer := "No documents are loaded. Please load documents first.";
                 Answer.sources := [];
                 Answer.confidence := "low";
                 Answer.context_length := None;
                 Answer.documents_used := None |}
  | _ :: _ =>
      context <- create_context_from_documents self question 8000 ;;
      let prompt := question_prompt question context in
      match generate prompt with
      | Returns text =>
          let answer_text := PyStr.strip text in
          let sources := dict_keys (document_contents self) in
          Returns {| Answer.answer := answer_text;
                     Answer.sources := sources;
                     Answer.confidence := "high";
                     Answer.context_length := Some (String.length context);
                     Answer.documents_used := Some (List.length sources) |}
      | Raises exc =>
          Returns {| Answer.answer := "Error generating response: " ++ exc;
                     Answer.sources := [];
                     Answer.confidence := "error";
                     Answer.context_length := None;
                     Answer.documents_used := None |}
      end
  end.

(** The dictionary returned by [get_document_summary]; only [summary] is
    present off the success path. [document_types] comes from a Python set:
    the distinct types, in an order Python leaves unspecified. *)
Module Summary.
Record t : Type := {
  summary : string;
  document_count : option nat;
  total_chars : option nat;
  document_types : option (list string)
}.
End Summary.

(** The two characters of the source text outside U+0000..U+00FF (a
    non-breaking hyphen and the bullet) stand here as their UTF-8 bytes; the
    prompt is only handed to the model. *)
Definition summary_prompt (summary_context : string) : string :=
  "Please provide a concise, bullet‑point summary of the following" ++ PyStr.nl
  ++ "documents. Include for each document:" ++ PyStr.nl
  ++ "• Title / file name" ++ PyStr.nl
  ++ "• Main topics covered" ++ PyStr.nl
  ++ "• Any especially important fact or figure" ++ PyStr.nl
  ++ PyStr.nl
  ++ "CONTENTS:" ++ PyStr.nl
  ++ summary_context ++ PyStr.nl
  ++ PyStr.nl
  ++ "SUMMARY:".

(** [get_document_summary()] *)
Definition get_document_summary (self : assistant) (generate : model)
  : outcome Summary.t :=
  match document_contents self with
  | [] =>
      Returns {| Summary.summary := "No documents loaded";
                 Summary.document_count := None;
                 Summary.total_chars := None;
                 Summary.document_types := None |}
  | _ :: _ =>
      summary_context <-
        create_context_from_documents self "summary overview" 12000 ;;
      match generate (summary_prompt summary_context) with
      | Returns text =>
          Returns
            {| Summary.summary := PyStr.strip text;
               Summary.document_count :=
                 Some (List.length (document_contents self));
               Summary.total_chars :=
                 Some (list_sum (map String.length
                                   (dict_values (document_contents self))));
               Summary.document_types :=
                 Some (nodup string_dec
                         (map Meta.type (dict_values (document_metadata self)))) |}
      | Raises exc =>
          Returns {| Summary.summary := "Error generating summary: " ++ exc;
                     Summary.document_count := None;
                     Summary.total_chars := None;
                     Summary.document_types := None |}
      end
  end.

(** An element of the list returned by [list_documents]. *)
Module Info.
Record t : Type := {
  name : string;
  type : string;
  size_chars : nat;
  processed_at : string;
  gcs_path : string
}.
End Info.

(** [list_documents()]: every value of [document_metadata] is built by
    [commit] with its four keys, so the four lookups are record fields. *)
Definition list_documents (self : assistant) : list Info.t :=
  map (fun '(name, meta) =>
         {| Info.name := name;
            Info.type := Meta.type meta;
            Info.size_chars := Meta.size_chars meta;
            Info.processed_at := Meta.processed_at meta;
            Info.gcs_path := Meta.gcs_path meta |})
      (document_metadata self).

(** An element of the list returned by [search_documents]. *)
Module Hit.
Record t : Type := {
  document : string;
  type : string;
  snippet : string;
  position : Z
}.
End Hit.

(** The loop of [search_documents]. *)
Fixpoint search_items (self : assistant) (term : string)
    (items : list (string * string)) : outcome (list Hit.t) :=
  match items with
  | [] => Returns []
  | (name, content) :: rest =>
      let term_lc := PyStr.lower term in
      let content_lc := PyStr.lower content in
      let idx := PyStr.find term_lc content_lc in
      if (idx =? -1)%Z then search_items self term rest
      else
        let start := Z.max 0 (idx - 120) in
        let stop :=
          Z.min (Z.of_nat (String.length content))
                (idx + Z.of_nat (String.length term) + 120) in
        ty <- metadata_type self name ;;
        hits <- search_items self term rest ;;
        Returns ({| Hit.document := name; Hit.type := ty;
                    Hit.snippet := PyStr.slice content start stop;
                    Hit.position := idx |} :: hits)
  end.

(** [search_documents(term)] *)
Definition search_documents (self : assistant) (term : string)
  : outcome (list Hit.t) :=
  search_items self term (document_contents self).

(* ------------------------------------------------------------------ *)
(** * Sequences of calls on one assistant *)
(* ------------------------------------------------------------------ *)

(** A call of a public method, with what the environment does during it. *)
Inductive call : Type :=
| LoadDocuments (bucket_name : string) (visits : list blob_visit)
| AskQuestion (generate : model) (question : string)
| GetSummary (generate : model)
| ListDocuments
| SearchDocuments (term : string).

Inductive reply : Type :=
| Loaded (total : nat)
| Answered (result : outcome Answer.t)
| Summarized (result : outcome Summary.t)
| Listed (infos : list Info.t)
| Found (hits : outcome (list Hit.t)).

(** The state after a call and what the caller gets. Only
    [load_documents_from_gcs] assigns to the stores. *)
Definition step (self : assistant) (c : call) : assistant * reply :=
  match c with
  | LoadDocuments bucket_name visits =>
      let (self', total) := load_documents_from_gcs bucket_name visits self in
      (self', Loaded total)
  | AskQuestion generate question => (self, Answered (ask_question self generate question))
  | GetSummary generate => (self, Summarized (get_document_summary self generate))
  | ListDocuments => (self, Listed (list_documents self))
  | SearchDocuments term => (self, Found (search_documents self term))
  end.

Definition run (calls : list call) (self : assistant) : assistant :=
  fold_left (fun s c => fst (step s c)) calls self.

(** The states an assistant can be in: those a sequence of calls leads to
    from the freshly constructed object. *)
Definition reachable (self : assistant) : Prop :=
  exists calls : list call, self = run calls init.

(* ------------------------------------------------------------------ *)
(** * Predicates on states *)
(* ------------------------------------------------------------------ *)

(** Every document has a metadata entry. *)
Definition covered (self : assistant) : bool :=
  forallb (fun k => dict_mem k (document_metadata self))
          (dict_keys (document_contents self)).

(** A document and its metadata entry agree. *)
Definition record_ok (doc : string * string) (meta : string * Meta.t) : Prop :=
  fst doc = fst meta
  /\ Meta.size_chars (snd meta) = String.length (snd doc)
  /\ PyStr.strip (snd doc) <> "".

(** The two stores hold the same keys in the same order, with agreeing
    entries, and no key twice. *)
Definition consistent (self : assistant) : Prop :=
  is_dict (document_contents self)
  /\ Forall2 record_ok (document_contents self) (document_metadata self).




(** [c] stands in [l] at an earlier position than [d]. *)
Definition before {A : Type} (c d : A) (l : list A) : Prop :=
  exists l1 l2 l3 : list A, l = l1 ++ c :: l2 ++ d :: l3.

(** The candidates of [l] whose score is [s], in the order of [l]. *)
Definition with_score (s : nat) (l : list Cand.t) : list Cand.t :=
  filter (fun d => Cand.score d =? s) l.

(** Scores never increase along the list. *)
Definition descending (l : list Cand.t) : Prop :=
  StronglySorted (fun d e => Cand.score e <= Cand.score d) l.

(** The name and text a candidate was made from. *)
Definition cand_item (d : Cand.t) : string * string :=
  (Cand.name d, Cand.content d).

(** The text the appending turns add to the context, in order. *)
Fixpoint entries (turns : list (Cand.t * Z)) : string :=
  match turns with
  | [] => ""
  | (doc, remaining) :: rest => entry doc remaining ++ entries rest
  end.

(** The documents the scoring loop keeps: those of positive score. *)
Definition scoring (terms : list string) (items : list (string * string))
  : list (string * string) :=
  filter (fun kv => 0 <? score_of terms (snd kv)) items.

(** A list of assignments [d[k] = v] applied in order. *)
Definition dict_update {V : Type} (d : dict V) (us : list (string * V)) : dict V :=
  fold_left (fun d kv => dict_set (fst kv) (snd kv) d) us d.


(** What a visit commits: the key with the text and the metadata stored
    under it; [None] when the visit leaves the stores as they are. *)
Definition record_of (bucket_name : string) (v : blob_visit)
  : option (string * (string * Meta.t)) :=
  match extract_step v with
  | Raises _ => None
  | Returns (text_content, content_type) =>
      if PyStr.truthy (PyStr.strip text_content)
      then Some (basename (blob_name v),
                 (text_content,
                  new_metadata bucket_name v text_content content_type))
      else None
  end.

(** The assignments a run makes to each store, in order. *)
Definition records (bucket_name : string) (visits : list blob_visit)
  : list (string * (string * Meta.t)) :=
  flat_map (fun v => match record_of bucket_name v with
                     | Some r => [r]
                     | None => []
                     end) visits.

Definition text_updates (bucket_name : string) (visits : list blob_visit)
  : list (string * string) :=
  map (fun r => (fst r, fst (snd r))) (records bucket_name visits).

Definition meta_updates (bucket_name : string) (visits : list blob_visit)
  : list (string * Meta.t) :=
  map (fun r => (fst r, snd (snd r))) (records bucket_name visits).

(** The texts an extractor of [DataExtractor] returns when its backend
    raises [detail]. *)
Definition on_backend_failure (detail : string) : list string :=
  [ DataExtractor.extract_from_audio (Raises detail);
    DataExtractor.extract_from_video (Raises detail);
    DataExtractor.extract_from_pdf (Raises detail);
    DataExtractor.extract_from_docx (Raises detail);
    DataExtractor.extract_from_pptx (Raises detail);
    DataExtractor.extract_from_txt (Raises detail) ].

(* ------------------------------------------------------------------ *)
(** * A small corpus *)
(* ------------------------------------------------------------------ *)

Definition demo_visits : list blob_visit :=
  [ {| blob_name := "extracted/a.txt";
       extraction := Returns "The quick brown fox";
       utcnow := "2025-01-01T10:00:00" |};
    {| blob_name := "extracted/b.txt";
       extraction := Returns "Lazy dogs sleep";
       utcnow := "2025-01-01T10:00:01" |} ].

(** The corpus of two plain-text documents, as ingestion builds it. *)
Definition demo : assistant :=
  fst (load_documents_from_gcs "bucket" demo_visits init).


(** A download that fails, a blank transcript and an unsupported file. *)
Definition failing_visit : blob_visit :=
  {| blob_name := "extracted/broken.pdf";
     extraction := Raises "404 Not Found";
     utcnow := "2025-01-01T10:00:02" |}.

Definition blank_visit : blob_visit :=
  {| blob_name := "extracted/silence.wav";
     extraction := Returns "   ";
     utcnow := "2025-01-01T10:00:03" |}.

Definition unsupported_visit : blob_visit :=
  {| blob_name := "extracted/photo.png";
     extraction := Returns "never read";
     utcnow := "2025-01-01T10:00:04" |}.

(** A model that answers, and one that fails. *)
Definition helpful_model : model := fun _ => Returns "  A fox.  ".
Definition failing_model : model := fun _ => Raises "503 Service Unavailable".

(* ------------------------------------------------------------------ *)
(** * Further notions used to state properties of the helpers *)
(* ------------------------------------------------------------------ *)

(** The documents whose lower-cased text holds the lower-cased term. *)
Definition matching (term : string) (items : list (string * string))
  : list (string * string) :=
  filter (fun kv => PyStr.contains (PyStr.lower term) (PyStr.lower (snd kv)))
         items.

(** [t] stands in [s] at offset [n]. *)
Definition occurs_at (t s : string) (n : nat) : Prop :=
  exists pre post : string,
    s = (pre ++ t ++ post)%string /\ String.length pre = n.

(** The extensions the ingestion handles, each with the content type it
    records. *)
Definition content_types : dict string :=
  [ ("wav", "Audio Transcript"); ("mp3", "Audio Transcript");
    ("flac", "Audio Transcript"); ("m4a", "Audio Transcript");
    ("mp4", "Video Transcript"); ("avi", "Video Transcript");
    ("mov", "Video Transcript"); ("mkv", "Video Transcript");
    ("pdf", "PDF Document"); ("docx", "Word Document");
    ("pptx", "PowerPoint Presentation"); ("txt", "Plain Text") ].

(** A metadata entry stored under [k] is what ingesting some object of
    some bucket writes: the object's base name is [k], its extension gives
    the type, the path names the bucket and the object, and the time stamp
    ends in [Z]. *)
Definition written_by_ingestion (k : string) (meta : Meta.t) : Prop :=
  exists bucket_name object_name now : string,
    basename object_name = k
    /\ dict_get (file_ext_of object_name) content_types = Some (Meta.type meta)
    /\ Meta.gcs_path meta = ("gs://" ++ bucket_name ++ "/" ++ object_name)%string
    /\ Meta.processed_at meta = (now ++ "Z")%string.

(* ------------------------------------------------------------------ *)
(** * DataExtractor: the download helper *)
(* ------------------------------------------------------------------ *)

(** [s.split(sep)] for a one-character separator: the pieces between the
    separators, empty ones included; never an empty list. *)
Fixpoint split_on (sep : ascii) (s : string) : list string :=
  match s with
  | EmptyString => [EmptyString]
  | String c s' =>
      if Ascii.eqb c sep then EmptyString :: split_on sep s'
      else match split_on sep s' with
           | w :: ws => String c w :: ws
           | [] => [String c EmptyString]
           end
  end.

(** [c in s] for a character. *)
Definition has_char (c : ascii) (s : string) : bool :=
  existsb (Ascii.eqb c) (list_ascii_of_string s).

(** [_download_to_temp(gcs_uri)]. [tempfile] is what creating the named
    temporary file does: it raises, or gives the file's name; [download] is
    what [blob.download_to_filename] does for a bucket, an object and a
    destination. The file is closed on every path ([finally]), which leaves
    no trace in the result. *)
Definition download_to_temp (tempfile : outcome string)
    (download : string -> string -> string -> outcome unit)
    (gcs_uri : string) : outcome string :=
  if negb (prefix "gs://" gcs_uri)
  then Raises ("Invalid GCS URI: " ++ gcs_uri)
  else
    match split_on "/" gcs_uri with
    | _ :: _ :: bucket_name :: object_parts =>
        let object_name := PyStr.join "/" object_parts in
        tmp_name <- tempfile ;;
        _ <- download bucket_name object_name tmp_name ;;
        Returns tmp_name
    | [_; _] => Raises "not enough values to unpack (expected at least 3, got 2)"
    | [_] => Raises "not enough values to unpack (expected at least 3, got 1)"
    | [] => Raises "not enough values to unpack (expected at least 3, got 0)"
    end.

(* ------------------------------------------------------------------ *)
(** * Further notions for the context assembly *)
(* ------------------------------------------------------------------ *)

(** The entry of a candidate with its whole text. *)
Definition whole_entry (doc : Cand.t) : string :=
  header doc ++ Cand.content doc ++ PyStr.nl ++ PyStr.nl.

(** The context that holds every candidate whole. *)
Fixpoint whole_entries (ranked : list Cand.t) : string :=
  match ranked with
  | [] => ""
  | doc :: rest => whole_entry doc ++ whole_entries rest
  end.

Definition whole_context (ranked : list Cand.t) : string :=
  context_start ++ whole_entries ranked.

(* ------------------------------------------------------------------ *)
(** * demo.py: the interactive loop *)
(* ------------------------------------------------------------------ *)





(* ------------------------------------------------------------------ *)
(** * app.py (written by the deployment part of DataExtractor.py):
      the knowledge-base search *)
(* ------------------------------------------------------------------ *)

(** A section of [sections_to_search], with the two renderings of its data
    that the loop uses: [str(section_data)] and
    [json.dumps(section_data, indent=2)]. *)
Record section : Type := {
  section_name : string;
  section_str : string;
  section_json : string
}.

Definition keywords : list string :=
  ["swarm"; "minds"; "ai"; "gemini"; "cloud"; "rag"; "project"; "features";
   "technical"].

(** The loop of [search_knowledge_base] over [sections_to_search]. *)
Fixpoint search_sections (query_lower : string) (sections : list section)
  : list string :=
  match sections with
  | [] => []
  | sec :: rest =>
      let section_text := PyStr.lower (section_str sec) in
      let found :=
        if existsb (fun keyword => PyStr.contains keyword query_lower) keywords
        then
          if existsb (fun keyword => PyStr.contains keyword section_text)
                     (PyStr.split query_lower)
          then [("**" ++ section_name sec ++ ":**" ++ PyStr.nl
                 ++ section_json sec)%string]
          else []
        else [] in
      found ++ search_sections query_lower rest
  end.

(** [search_knowledge_base(query, knowledge_base)], the knowledge base
    being given by its sections. *)
Definition search_knowledge_base (query : string) (sections : list section)
  : list string :=
  search_sections (PyStr.lower query) sections.

Definition no_project_information : string :=
  "No specific project information found.".

(** [generate_rag_response(model, query, knowledge_base)]: the prompt; the
    model argument is not used. *)
Definition generate_rag_response (query : string) (sections : list section)
  : string :=
  let relevant_info := search_knowledge_base query sections in
  let context :=
    match relevant_info with
    | [] => no_project_information
    | _ :: _ => PyStr.join (PyStr.nl ++ PyStr.nl) relevant_info
    end in
  "You are an AI assistant for the Swarm-Minds project. Use the following project information to answer the user's question accurately and helpfully." ++ PyStr.nl
  ++ PyStr.nl
  ++ "PROJECT CONTEXT:" ++ PyStr.nl
  ++ context ++ PyStr.nl
  ++ PyStr.nl
  ++ "USER QUESTION: " ++ query ++ PyStr.nl
  ++ PyStr.nl
  ++ "INSTRUCTIONS:" ++ PyStr.nl
  ++ "1. Answer based primarily on the project context provided" ++ PyStr.nl
  ++ "2. If the context doesn't contain relevant information, provide a general helpful response" ++ PyStr.nl
  ++ "3. Be specific about Swarm-Minds project details when available" ++ PyStr.nl
  ++ "4. Mention that you're answering based on the Swarm-Minds project knowledge" ++ PyStr.nl
  ++ "5. Be conversational and helpful" ++ PyStr.nl
  ++ PyStr.nl
  ++ "ANSWER:".

(** What a section contributes when it is reported. *)
Definition render_section (sec : section) : string :=
  "**" ++ section_name sec ++ ":**" ++ PyStr.nl ++ section_json sec.

(** The query names the project: one of the keywords occurs in it. *)
Definition names_project (query : string) : bool :=
  existsb (fun keyword => PyStr.contains keyword (PyStr.lower query)) keywords.

(** A word of the query occurs in the section's text. *)
Definition section_matches (query : string) (sec : section) : bool :=
  existsb (fun word => PyStr.contains word (PyStr.lower (section_str sec)))
          (PyStr.split (PyStr.lower query)).

(* ------------------------------------------------------------------ *)
(** * deploy_app.py: the chat session *)
(* ------------------------------------------------------------------ *)

Module Message.
Record t : Type := {
  role : string;
  content : string
}.
End Message.

(** The first message of a session. Its two apostrophes are the character
    U+2019, which stands here as its UTF-8 bytes. *)
Definition greeting : Message.t :=
  {| Message.role := "assistant";
     Message.content := "Hello! I’m your RAG assistant. I’ve loaded documents from the bucket. What would you like to know?" |}.

(** One run of [main], as far as the chat goes (Streamlit runs [main]
    again on every interaction and keeps [st.session_state] between the
    runs). [session_messages] is [None] when the session state has no
    [messages] yet; [chat_input] is what [st.chat_input] returns, [None]
    when nothing was submitted. The result is the messages of the session
    state after the run, and what the run shows under the answer: the
    sources and the context length, [None] standing for the text [N/A];
    or the exception that ends the run. *)
Definition main (assistant_ : assistant) (generate : model)
    (session_messages : option (list Message.t)) (chat_input : option string)
  : list Message.t * outcome (option (list string * option nat)) :=
  let messages :=
    match session_messages with
    | None => [greeting]
    | Some messages => messages
    end in
  match chat_input with
  | None => (messages, Returns None)
  | Some prompt =>
      if PyStr.truthy prompt then
        let messages :=
          messages ++ [{| Message.role := "user"; Message.content := prompt |}] in
        match ask_question assistant_ generate prompt with
        | Raises detail => (messages, Raises detail)
        | Returns answer =>
            (messages ++ [{| Message.role := "assistant";
                             Message.content := Answer.answer answer |}],
             Returns (Some (Answer.sources answer, Answer.context_length answer)))
        end
      else (messages, Returns None)
  end.

(** The session state after a sequence of runs, each with what was
    submitted and what the model does during it. *)
Fixpoint session (assistant_ : assistant)
    (session_messages : option (list Message.t))
    (runs : list (option string * model)) : option (list Message.t) :=
  match runs with
  | [] => session_messages
  | (chat_input, generate) :: rest =>
      session assistant_
        (Some (fst (main assistant_ generate session_messages chat_input)))
        rest
  end.

(** What a sequence of runs submits: the non-empty inputs, each with the
    model of its run. *)
Definition submitted (runs : list (option string * model))
  : list (string * model) :=
  flat_map (fun run => match fst run with
                       | Some prompt =>
                           if PyStr.truthy prompt then [(prompt, snd run)] else []
                       | None => []
                       end) runs.

(** The two messages a submitted prompt adds to the history. *)
Definition exchange (prompt reply : string) : list Message.t :=
  [ {| Message.role := "user"; Message.content := prompt |};
    {| Message.role := "assistant"; Message.content := reply |} ].

(** The loop passes an object over: its extension is not a listed one, or
    its extraction raises, or the text extracted is blank. *)
Definition passed_over (v : blob_visit) : Prop :=
  dict_get (file_ext_of (blob_name v)) content_types = None
  \/ (exists detail, extraction v = Raises detail)
  \/ (exists text, extraction v = Returns text /\ PyStr.strip text = "").

(** The answer on an empty corpus. *)
Definition empty_corpus_answer : Answer.t :=
  {| Answer.answer := "No documents are loaded. Please load documents first.";
     Answer.sources := [];
     Answer.confidence := "low";
     Answer.context_length := None;
     Answer.documents_used := None |}.




(* ------------------------------------------------------------------ *)
(** * Properties of the string operations *)
(* ------------------------------------------------------------------ *)

Example lower_mixed : PyStr.lower "The Quick FOX" = "the quick fox".
Proof. reflexivity. Qed.

Example split_runs :
  PyStr.split (String " " (String PyStr.nl_char "fox  Dog fox ")) = ["fox"; "Dog"; "fox"].
Proof. reflexivity. Qed.

Example strip_both : PyStr.strip "  a b  " = "a b".
Proof. reflexivity. Qed.

Example strip_blank : PyStr.strip (String " " PyStr.nl) = "".
Proof. reflexivity. Qed.

Example after_last_ext : PyStr.after_last "." "extracted/a.b/Deck.PPTX" = "PPTX".
Proof. reflexivity. Qed.

Example after_last_none : PyStr.after_last "." "extracted/readme" = "extracted/readme".
Proof. reflexivity. Qed.

Example after_last_base : PyStr.after_last "/" "extracted/sub/a.txt" = "a.txt".
Proof. reflexivity. Qed.

Example find_dog : PyStr.find "dog" "lazy dogs sleep" = 5%Z.
Proof. reflexivity. Qed.

Example find_none : PyStr.find "cat" "lazy dogs sleep" = (-1)%Z.
Proof. reflexivity. Qed.

Example slice_window : PyStr.slice "Lazy dogs sleep" 0 15 = "Lazy dogs sleep".
Proof. reflexivity. Qed.

Example slice_to_negative : PyStr.slice_to "abcdef" (-2) = "abcd".
Proof. reflexivity. Qed.

Section StringFacts.

Lemma length_append (s t : string) :
String.length (s ++ t) = String.length s + String.length t.
Proof. induction s as [|c s IH]; simpl; [reflexivity | now rewrite IH]. Qed.

Lemma append_assoc (s t u : string) : ((s ++ t) ++ u = s ++ (t ++ u))%string.
Proof. induction s as [|c s IH]; simpl; [reflexivity | now rewrite IH]. Qed.

Lemma append_empty_r (s : string) : (s ++ "")%string = s.
Proof. induction s as [|c s IH]; simpl; [reflexivity | now rewrite IH]. Qed.

Lemma length_take (n : nat) (s : string) :
String.length (PyStr.take n s) = Nat.min n (String.length s).
Proof.
revert s; induction n as [|n IH]; intros [|c s]; simpl; try reflexivity.
now rewrite IH.
Qed.

(** A prefix of positive size: as many characters as asked for, or the
  whole text when it is shorter. *)
Lemma length_slice_to (s : string) (stop : Z) :
(0 <= stop)%Z ->
String.length (PyStr.slice_to s stop)
= Nat.min (String.length s) (Z.to_nat stop).
Proof.
intros H. unfold PyStr.slice_to, PyStr.clamp.
destruct (Z.ltb_spec stop 0); [lia|].
rewrite length_take. lia.
Qed.

Lemma prefix_spec (t s : string) :
prefix t s = true <-> exists post : string, s = (t ++ post)%string.
Proof.
revert s; induction t as [|a t IH]; intros s.
- destruct s; simpl; split; trivial; intros _; eexists; reflexivity.
- destruct s as [|b s]; simpl.
  + split; [discriminate | intros [post H]; discriminate].
  + destruct (ascii_dec a b) as [->|Hab].
    * rewrite IH. split; intros [post H]; exists post.
      -- now rewrite H.
      -- now injection H.
    * split; [discriminate|]. intros [post H]. injection H as H1 _.
      now elim Hab.
Qed.

(** [t in s] decides the occurrence of [t] inside [s]. *)
Lemma contains_spec (t s : string) :
PyStr.contains t s = true <-> PyStr.Substring t s.
Proof.
induction s as [|c s IH].
- cbn [PyStr.contains]. rewrite orb_false_r, prefix_spec. split.
  + intros [post H]. exists "", post. exact H.
  + intros [[|a pre] [post H]]; [now exists post | discriminate].
- cbn [PyStr.contains]. rewrite orb_true_iff, IH, prefix_spec. split.
  + intros [[post H] | [pre [post H]]].
    * exists "", post. exact H.
    * exists (String c pre), post. simpl. now rewrite H.
  + intros [[|a pre] [post H]].
    * left. now exists post.
    * right. injection H as _ H. now exists pre, post.
Qed.

(** [split] yields words. *)
Lemma split_words (s : string) :
Forall (fun w => PyStr.is_word w = true) (PyStr.split s).
Proof.
unfold PyStr.split.
assert (H : let (w, ws) := PyStr.split_go s in
            forallb (fun c => negb (PyStr.isspace c)) (list_ascii_of_string w) = true
            /\ Forall (fun w => PyStr.is_word w = true) ws).
{ induction s as [|c s IH]; simpl; [split; [reflexivity | constructor]|].
  destruct (PyStr.split_go s) as [w ws]. destruct IH as [Hw Hws].
  destruct (PyStr.isspace c) eqn:E.
  - split; [reflexivity|]. destruct w; simpl; [assumption|].
    constructor; [|assumption]. unfold PyStr.is_word. now rewrite Hw.
  - split; [|assumption]. simpl. now rewrite E, Hw. }
destruct (PyStr.split_go s) as [w ws]. destruct H as [Hw Hws].
destruct w; simpl; [assumption|].
constructor; [|assumption]. unfold PyStr.is_word. now rewrite Hw.
Qed.

Lemma truthy_spec (s : string) : PyStr.truthy s = true <-> s <> "".
Proof. destruct s; simpl; split; congruence. Qed.

Lemma strip_empty : PyStr.strip "" = "".
Proof. reflexivity. Qed.

End StringFacts.

(* ------------------------------------------------------------------ *)
(** * The assembly loop *)
(* ------------------------------------------------------------------ *)

Section Assembly.

Variable max_context_len : Z.

Lemma length_entry (doc : Cand.t) (remaining : Z) :
String.length (entry doc remaining)
= String.length (header doc)
  + String.length (PyStr.slice_to (Cand.content doc) remaining) + 2.
Proof.
unfold entry. rewrite !length_append. simpl. lia.
Qed.

(** The context is what the loop started from followed by the entries of
  the appending turns. *)
Lemma assemble_entries (ranked : list Cand.t) (context : string) :
assemble max_context_len ranked context
= (context ++ entries (included max_context_len ranked context))%string.
Proof.
revert context; induction ranked as [|doc rest IH]; intros context; simpl.
- now rewrite append_empty_r.
- destruct (Z.leb_spec (remaining_for max_context_len context doc) 0).
  + now rewrite append_empty_r.
  + rewrite IH. simpl. now rewrite append_assoc.
Qed.

(** The appending turns take the candidates in order, from the first. *)
Lemma included_prefix (ranked : list Cand.t) (context : string) :
exists rest : list Cand.t,
  ranked = map fst (included max_context_len ranked context) ++ rest.
Proof.
revert context; induction ranked as [|doc tl IH]; intros context; simpl.
- now exists [].
- destruct (Z.leb_spec (remaining_for max_context_len context doc) 0).
  + now exists (doc :: tl).
  + destruct (IH (context ++ entry doc (remaining_for max_context_len context doc))%string)
      as [rest Hrest].
    exists rest. simpl. now rewrite <- Hrest.
Qed.

Lemma included_length (ranked : list Cand.t) (context : string) :
List.length (included max_context_len ranked context) <= List.length ranked.
Proof.
destruct (included_prefix ranked context) as [rest H].
rewrite H at 2. rewrite length_app, length_map. lia.
Qed.


(** The loop never lets the context grow beyond [max_context_len - 98]:
  the 100 reserved characters less the two newlines that close an entry. *)
Lemma assemble_bound (ranked : list Cand.t) (context : string) :
(Z.of_nat (String.length (assemble max_context_len ranked context))
 <= Z.max (Z.of_nat (String.length context)) (max_context_len - 98))%Z.
Proof.
revert context; induction ranked as [|doc tl IH]; intros context; simpl.
- lia.
- destruct (Z.leb_spec (remaining_for max_context_len context doc) 0) as [Hle|Hgt].
  + lia.
  + specialize (IH (context ++ entry doc (remaining_for max_context_len context doc))%string).
    rewrite length_append, length_entry, length_slice_to in IH by lia.
    unfold remaining_for in *. lia.
Qed.

End Assembly.

(* ------------------------------------------------------------------ *)
(** * Dictionaries *)
(* ------------------------------------------------------------------ *)

Lemma in_set_spec (x : string) (s : list string) :
  in_set x s = true <-> In x s.
Proof.
  unfold in_set. rewrite existsb_exists. split.
  - intros [y [Hy Heq]]. apply String.eqb_eq in Heq. now subst.
  - intros H. exists x. split; [assumption | apply String.eqb_refl].
Qed.

Lemma in_set_false (x : string) (s : list string) :
  in_set x s = false <-> ~ In x s.
Proof.
  rewrite <- in_set_spec. destruct (in_set x s); split; congruence.
Qed.

Lemma distinct_spec (ks : list string) : distinct ks = true <-> NoDup ks.
Proof.
  induction ks as [|k ks IH]; simpl.
  - split; [constructor | reflexivity].
  - rewrite andb_true_iff, negb_true_iff, in_set_false, IH, NoDup_cons_iff.
    reflexivity.
Qed.

Section DictFacts.
Context {V : Type}.
Implicit Types (d : dict V) (k : string) (v : V).

Lemma dict_get_set k k' v d :
  dict_get k (dict_set k' v d)
  = if String.eqb k' k then Some v else dict_get k d.
Proof.
  induction d as [|[k0 v0] d IH]; simpl.
  - reflexivity.
  - destruct (String.eqb_spec k0 k') as [->|Hne]; simpl.
    + now destruct (String.eqb_spec k' k).
    + rewrite IH. destruct (String.eqb_spec k0 k) as [->|Hne']; [|reflexivity].
      destruct (String.eqb_spec k' k); congruence.
Qed.

Lemma dict_keys_set k v d :
  dict_keys (dict_set k v d)
  = if dict_mem k d then dict_keys d else dict_keys d ++ [k].
Proof.
  unfold dict_mem, dict_keys.
  induction d as [|[k0 v0] d IH]; simpl.
  - reflexivity.
  - rewrite (String.eqb_sym k k0).
    destruct (String.eqb_spec k0 k) as [->|Hne]; simpl.
    + reflexivity.
    + rewrite IH. now destruct (in_set k (map fst d)).
Qed.

Lemma dict_mem_spec k d : dict_mem k d = true <-> In k (dict_keys d).
Proof. apply in_set_spec. Qed.

Lemma dict_get_none k d : dict_get k d = None <-> ~ In k (dict_keys d).
Proof.
  induction d as [|[k0 v0] d IH]; simpl.
  - tauto.
  - destruct (String.eqb_spec k0 k) as [->|Hne].
    + split; [discriminate | tauto].
    + rewrite IH. tauto.
Qed.

Lemma dict_get_some k d :
  In k (dict_keys d) <-> exists v, dict_get k d = Some v.
Proof.
  destruct (dict_get k d) as [v|] eqn:E.
  - split; [now exists v|]. intros _.
    destruct (in_dec string_dec k (dict_keys d)) as [Hin|Hnin]; [assumption|].
    apply dict_get_none in Hnin. congruence.
  - apply dict_get_none in E. split; [tauto | intros [v Hv]; discriminate].
Qed.

Lemma dict_get_in k v d : dict_get k d = Some v -> In (k, v) d.
Proof.
  induction d as [|[k0 v0] d IH]; simpl; [discriminate|].
  destruct (String.eqb_spec k0 k) as [->|Hne].
  - intros [= ->]. now left.
  - intros H. right. now apply IH.
Qed.

Lemma dict_in_get k v d : is_dict d -> In (k, v) d -> dict_get k d = Some v.
Proof.
  unfold is_dict. rewrite distinct_spec.
  induction d as [|[k0 v0] d IH]; simpl; [tauto|].
  intros Hnd [Heq|Hin].
  - injection Heq as -> ->. now rewrite String.eqb_refl.
  - apply NoDup_cons_iff in Hnd as [Hnin Hnd].
    destruct (String.eqb_spec k0 k) as [->|Hne].
    + elim Hnin. apply (in_map fst) in Hin. exact Hin.
    + now apply IH.
Qed.

Lemma is_dict_set k v d : is_dict d -> is_dict (dict_set k v d).
Proof.
  unfold is_dict. rewrite !distinct_spec, dict_keys_set.
  destruct (dict_mem k d) eqn:E; [trivial|].
  intros Hnd. apply NoDup_app; [assumption | repeat constructor; simpl; tauto |].
  intros x Hx [<-|[]].
  apply dict_mem_spec in Hx. congruence.
Qed.

Lemma dict_set_length k v d :
  List.length d <= List.length (dict_set k v d).
Proof.
  induction d as [|[k0 v0] d IH]; simpl; [lia|].
  destruct (String.eqb k0 k); simpl; lia.
Qed.


End DictFacts.



(* ------------------------------------------------------------------ *)
(** * The sort of the ranked candidates *)
(* ------------------------------------------------------------------ *)

Section Sorting.
Implicit Types (d e : Cand.t) (l : list Cand.t).

Lemma insert_by_score_perm d l : Permutation (d :: l) (insert_by_score d l).
Proof.
  induction l as [|e l IH]; simpl; [reflexivity|].
  destruct (Cand.score d <? Cand.score e); [|reflexivity].
  rewrite perm_swap. now constructor.
Qed.

Lemma sort_by_score_perm l : Permutation l (sort_by_score l).
Proof.
  induction l as [|d l IH]; simpl; [constructor|].
  rewrite <- insert_by_score_perm. now constructor.
Qed.

Lemma insert_by_score_descending d l :
  descending l -> descending (insert_by_score d l).
Proof.
  unfold descending.
  induction l as [|e l IH]; simpl; intros Hs.
  - repeat constructor.
  - apply StronglySorted_inv in Hs as [Hs He].
    destruct (Nat.ltb_spec (Cand.score d) (Cand.score e)) as [Hlt|Hge].
    + constructor; [now apply IH|].
      eapply Permutation_Forall; [apply insert_by_score_perm|].
      constructor; [lia | assumption].
    + constructor; [now constructor|].
      constructor; [assumption|].
      eapply Forall_impl; [|exact He]. simpl. intros; lia.
Qed.

(** The result runs by decreasing score. *)
Lemma sort_by_score_descending l : descending (sort_by_score l).
Proof.
  induction l as [|d l IH]; simpl;
    [constructor | now apply insert_by_score_descending].
Qed.

Lemma insert_by_score_stable s d l :
  with_score s (insert_by_score d l) = with_score s (d :: l).
Proof.
  unfold with_score.
  induction l as [|e l IH]; simpl; [reflexivity|].
  destruct (Nat.ltb_spec (Cand.score d) (Cand.score e)) as [Hlt|Hge];
    [|reflexivity].
  simpl. rewrite IH. simpl.
  destruct (Nat.eqb_spec (Cand.score d) s), (Nat.eqb_spec (Cand.score e) s);
    try reflexivity; lia.
Qed.

(** The sort is stable: the candidates of any one score stand in the
    order they had. *)
Lemma sort_by_score_stable s l :
  with_score s (sort_by_score l) = with_score s l.
Proof.
  induction l as [|d l IH]; simpl; [reflexivity|].
  rewrite insert_by_score_stable. unfold with_score in *. simpl.
  now rewrite IH.
Qed.

(** A list already in decreasing order is left as it is. *)
Lemma sort_by_score_descending_id l : descending l -> sort_by_score l = l.
Proof.
  unfold descending. induction 1 as [|d l Hs IH Hd]; simpl; [reflexivity|].
  rewrite IH. destruct l as [|e l]; simpl; [reflexivity|].
  apply Forall_inv in Hd.
  destruct (Nat.ltb_spec (Cand.score d) (Cand.score e)); [lia | reflexivity].
Qed.

(** In a list by decreasing score, a candidate of larger score stands
    before one of smaller score. *)
Lemma descending_before d1 d2 l :
  descending l -> In d1 l -> In d2 l -> Cand.score d1 < Cand.score d2 ->
  before d2 d1 l.
Proof.
  unfold descending, before.
  induction 1 as [|x l Hs IH Hx]; simpl; [tauto|].
  intros [->|H1] [->|H2] Hlt.
  - lia.
  - rewrite Forall_forall in Hx. specialize (Hx _ H2). lia.
  - apply in_split in H1 as [l2 [l3 ->]]. now exists [], l2, l3.
  - destruct (IH H1 H2 Hlt) as (l1 & l2 & l3 & ->).
    now exists (x :: l1), l2, l3.
Qed.

End Sorting.

(* ------------------------------------------------------------------ *)
(** * Scoring and ranking *)
(* ------------------------------------------------------------------ *)

Lemma score_of_filter (terms : list string) (content : string) :
  score_of terms content
  = List.length
      (filter (fun term => PyStr.contains term (PyStr.lower content)) terms).
Proof.
  unfold score_of.
  induction (filter _ terms) as [|t l IH]; simpl; [reflexivity | now rewrite IH].
Qed.

(** The score is the size of the set of terms that occur in the lower-cased
    text, however that set is listed. *)
Lemma score_of_counts (terms hits : list string) (content : string) :
  NoDup terms -> NoDup hits ->
  (forall t, In t hits <-> In t terms /\ PyStr.Substring t (PyStr.lower content)) ->
  score_of terms content = List.length hits.
Proof.
  intros Hterms Hhits Hiff. rewrite score_of_filter.
  apply Permutation_length, NoDup_Permutation.
  - now apply NoDup_filter.
  - assumption.
  - intros t. rewrite filter_In, contains_spec, Hiff. reflexivity.
Qed.

Lemma score_of_zero (terms : list string) (content : string) :
  score_of terms content = 0
  <-> forall t, In t terms -> ~ PyStr.Substring t (PyStr.lower content).
Proof.
  rewrite score_of_filter. split.
  - intros H t Ht Hsub. apply contains_spec in Hsub.
    apply length_zero_iff_nil in H.
    assert (Hin : In t (filter (fun term => PyStr.contains term (PyStr.lower content)) terms))
      by (apply filter_In; auto).
    rewrite H in Hin. exact Hin.
  - intros H. apply length_zero_iff_nil.
    destruct (filter _ terms) as [|t l] eqn:E; [reflexivity|].
    assert (Hin : In t (filter (fun term => PyStr.contains term (PyStr.lower content)) terms))
      by (rewrite E; now left).
    apply filter_In in Hin as [Hin Hc]. apply contains_spec in Hc.
    now elim (H t Hin).
Qed.

Lemma query_terms_NoDup (query : string) : NoDup (query_terms query).
Proof. apply NoDup_nodup. Qed.

Lemma query_terms_In (query t : string) :
  In t (query_terms query) <-> In t (PyStr.split (PyStr.lower query)).
Proof. apply nodup_In. Qed.

Section Ranking.
Variable self : assistant.
Hypothesis Hcov : covered self = true.

(** With every document covered, the metadata lookup finds the type. *)
Lemma metadata_type_covered (k : string) :
  In k (dict_keys (document_contents self)) ->
  exists meta,
    dict_get k (document_metadata self) = Some meta
    /\ metadata_type self k = Returns (Meta.type meta).
Proof.
  intros Hin. unfold covered in Hcov. rewrite forallb_forall in Hcov.
  specialize (Hcov k Hin). apply dict_mem_spec, dict_get_some in Hcov.
  destruct Hcov as [meta Hmeta]. exists meta. split; [assumption|].
  unfold metadata_type, dict_item. now rewrite Hmeta.
Qed.

Lemma score_documents_spec (terms : list string) (items : list (string * string)) :
  incl items (document_contents self) ->
  exists ranked,
    score_documents self terms items = Returns ranked
    /\ map cand_item ranked = scoring terms items
    /\ Forall (fun d => Cand.score d = score_of terms (Cand.content d)
                        /\ 0 < Cand.score d
                        /\ metadata_type self (Cand.name d) = Returns (Cand.type d))
              ranked.
Proof.
  induction items as [|[doc_name content] rest IH]; intros Hincl.
  - exists []. simpl. repeat split; constructor.
  - assert (Hrest : incl rest (document_contents self))
      by (intros x Hx; apply Hincl; now right).
    destruct (IH Hrest) as (ranked & Hrun & Hmap & Hall).
    unfold scoring in *. simpl.
    destruct (Nat.ltb_spec 0 (score_of terms content)) as [Hpos|Hzero].
    + assert (Hin : In doc_name (dict_keys (document_contents self))).
      { apply (in_map fst) with (x := (doc_name, content)). apply Hincl. now left. }
      destruct (metadata_type_covered _ Hin) as (meta & _ & Hty).
      rewrite Hty, Hrun. simpl. eexists. split; [reflexivity|]. split.
      * simpl. unfold cand_item at 1. simpl. now rewrite Hmap.
      * constructor; [simpl; auto | assumption].
    + exists ranked. auto.
Qed.

Lemma fallback_spec :
  exists ranked,
    fallback self = Returns ranked
    /\ map cand_item ranked = firstn 2 (document_contents self)
    /\ Forall (fun d => Cand.score d = 0
                        /\ metadata_type self (Cand.name d) = Returns (Cand.type d))
              ranked.
Proof.
  unfold fallback.
  assert (Hincl : incl (firstn 2 (document_contents self)) (document_contents self)).
  { intros x Hx. rewrite <- (firstn_skipn 2). apply in_or_app. now left. }
  induction (firstn 2 (document_contents self)) as [|[n c] rest IH].
  - exists []. simpl. repeat split; constructor.
  - destruct IH as (ranked & Hrun & Hmap & Hall).
    { intros x Hx. apply Hincl. now right. }
    assert (Hin : In n (dict_keys (document_contents self))).
    { apply (in_map fst) with (x := (n, c)). apply Hincl. now left. }
    destruct (metadata_type_covered _ Hin) as (meta & _ & Hty).
    simpl. rewrite Hty. simpl. rewrite Hrun. simpl.
    eexists. split; [reflexivity|]. split.
    + simpl. unfold cand_item at 1. simpl. now rewrite Hmap.
    + constructor; [simpl; auto | assumption].
Qed.

(** [ranked] is the sort of the documents of positive score, in corpus
    order, or, when there is none, of the first two documents with
    score 0. *)
Lemma rank_documents_spec (query : string) :
  exists cands,
    rank_documents self query = Returns (sort_by_score cands)
    /\ Forall (fun d => metadata_type self (Cand.name d) = Returns (Cand.type d)) cands
    /\ ((score_documents self (query_terms query) (document_contents self)
         = Returns cands
         /\ cands <> []
         /\ map cand_item cands
            = scoring (query_terms query) (document_contents self)
         /\ Forall (fun d => Cand.score d
                             = score_of (query_terms query) (Cand.content d)
                             /\ 0 < Cand.score d) cands)
        \/ (score_documents self (query_terms query) (document_contents self)
            = Returns []
            /\ scoring (query_terms query) (document_contents self) = []
            /\ map cand_item cands = firstn 2 (document_contents self)
            /\ Forall (fun d => Cand.score d = 0) cands)).
Proof.
  destruct (score_documents_spec (query_terms query) (document_contents self)
              (incl_refl _)) as (ranked & Hrun & Hmap & Hall).
  unfold rank_documents. rewrite Hrun. simpl.
  destruct ranked as [|d ranked].
  - destruct fallback_spec as (fb & Hfb & Hfbmap & Hfball).
    rewrite Hfb. simpl. exists fb. split; [reflexivity|]. split.
    + eapply Forall_impl; [|exact Hfball]. simpl. tauto.
    + right. repeat split; auto.
      eapply Forall_impl; [|exact Hfball]. simpl. tauto.
  - exists (d :: ranked). split; [reflexivity|]. split.
    + eapply Forall_impl; [|exact Hall]. simpl. tauto.
    + left. repeat split; auto; try discriminate.
      eapply Forall_impl; [|exact Hall]. simpl. tauto.
Qed.

(** With every document covered, the context assembly returns. *)
Lemma create_context_returns (query : string) (max_context_len : Z) :
  exists context,
    create_context_from_documents self query max_context_len = Returns context.
Proof.
  unfold create_context_from_documents.
  destruct (document_contents self); [now eexists|].
  destruct (rank_documents_spec query) as (cands & Hrun & _).
  rewrite Hrun. simpl. now eexists.
Qed.

End Ranking.

(* ------------------------------------------------------------------ *)
(** * The retriever: budget, scoring, fallback, ranking *)
(* ------------------------------------------------------------------ *)

Lemma context_start_length : String.length context_start = 20.
Proof. reflexivity. Qed.

Lemma create_context_empty (self : assistant) (query : string) (m : Z) :
  document_contents self = [] ->
  create_context_from_documents self query m = Returns no_documents.
Proof. unfold create_context_from_documents. now intros ->. Qed.

Lemma create_context_nonempty (self : assistant) (query : string) (m : Z) :
  document_contents self <> [] ->
  create_context_from_documents self query m
  = (ranked <- rank_documents self query ;;
     Returns (assemble m ranked context_start)).
Proof.
  unfold create_context_from_documents.
  destruct (document_contents self); congruence.
Qed.

Lemma empty_or_not {A : Type} (l : list A) : l = [] \/ l <> [].
Proof. destruct l; [now left | right; discriminate]. Qed.


(** What the ranking returns, when it returns, comes from the corpus:
    no assumption on the metadata is needed for that. *)
Lemma score_documents_sound (self : assistant) (terms : list string)
    (items : list (string * string)) (ranked : list Cand.t) :
  score_documents self terms items = Returns ranked ->
  map cand_item ranked = scoring terms items.
Proof.
  unfold scoring. revert ranked.
  induction items as [|[doc_name content] rest IH]; intros ranked; simpl.
  - now intros [= <-].
  - destruct (0 <? score_of terms content); [|apply IH].
    destruct (metadata_type self doc_name) as [e|ty]; simpl; [discriminate|].
    destruct (score_documents self terms rest) as [e|tl]; simpl; [discriminate|].
    intros [= <-]. simpl. unfold cand_item at 1. simpl. f_equal. now apply IH.
Qed.





(** The budget of C1 is a length. Handed the integer -81, which no caller
    passes, the loop appends nothing and the 20 characters of the opening
    line are returned. *)
Example opening_line_at_negative_budget :
  create_context_from_documents demo "fox" (-81) = Returns context_start
  /\ String.length context_start = 20.
Proof. split; reflexivity. Qed.

(** C2. On a non-empty corpus in which each document has its metadata, the
    query terms are the distinct whitespace-separated words of the
    lower-cased query;
    the score of a document is the number of those terms that occur in its
    lower-cased text; the scoring loop keeps, in corpus order, exactly the
    documents of positive score, each with its score; and when it keeps
    any, the ranked list is their sort and the context is assembled from
    it. *)
Theorem scoring_counts_distinct_terms (self : assistant) (query : string) :
  covered self = true ->
  document_contents self <> [] ->
  let terms := query_terms query in
  NoDup terms
  /\ (forall t, In t terms <-> In t (PyStr.split (PyStr.lower query)))
  /\ Forall (fun t => PyStr.is_word t = true) terms
  /\ (forall content hits,
        NoDup hits ->
        (forall t, In t hits
                   <-> In t terms /\ PyStr.Substring t (PyStr.lower content)) ->
        score_of terms content = List.length hits)
  /\ exists scored,
       score_documents self terms (document_contents self) = Returns scored
       /\ map cand_item scored
          = filter (fun kv => 0 <? score_of terms (snd kv)) (document_contents self)
       /\ Forall (fun d => Cand.score d = score_of terms (Cand.content d)) scored
       /\ (forall doc_name content,
             In (doc_name, content) (document_contents self) ->
             (In (doc_name, content) (map cand_item scored)
              <-> 0 < score_of terms content))
       /\ (scored <> [] ->
           rank_documents self query = Returns (sort_by_score scored)
           /\ Permutation scored (sort_by_score scored)
           /\ forall max_context_len,
                create_context_from_documents self query max_context_len
                = Returns (assemble max_context_len (sort_by_score scored)
                             context_start)).
Proof.
  intros Hcov Hdocs terms.
  split; [apply query_terms_NoDup|]. split; [apply query_terms_In|].
  split.
  { apply Forall_forall. intros t Ht. apply query_terms_In in Ht.
    pose proof (split_words (PyStr.lower query)) as Hw.
    rewrite Forall_forall in Hw. now apply Hw. }
  split.
  { intros content hits Hnd Hiff.
    apply score_of_counts; [apply query_terms_NoDup | assumption | assumption]. }
  destruct (score_documents_spec self Hcov terms (document_contents self)
              (incl_refl _)) as (scored & Hrun & Hmap & Hall).
  exists scored. split; [assumption|]. split; [assumption|]. split.
  { eapply Forall_impl; [|exact Hall]. simpl. tauto. }
  split.
  { intros doc_name content Hin. rewrite Hmap. unfold scoring.
    rewrite filter_In. simpl. rewrite Nat.ltb_lt. tauto. }
  intros Hne.
  assert (Hrank : rank_documents self query = Returns (sort_by_score scored)).
  { unfold rank_documents. fold terms. rewrite Hrun. simpl.
    destruct scored; [congruence | reflexivity]. }
  split; [exact Hrank|]. split; [apply sort_by_score_perm|].
  intros max_context_len.
  rewrite create_context_nonempty, Hrank by assumption. reflexivity.
Qed.

Lemma scoring_counts_distinct_terms_witness :
  covered demo = true
  /\ document_contents demo <> []
  /\ score_of (query_terms "Fox the  fox") "The quick brown fox" = 2
  /\ rank_documents demo "Fox the  fox"
     = Returns [ {| Cand.name := "a.txt"; Cand.content := "The quick brown fox";
                    Cand.score := 2; Cand.type := "Plain Text" |} ].
Proof.
  assert (Hcov : covered demo = true) by reflexivity.
  assert (Hdocs : document_contents demo <> []) by discriminate.
  split; [exact Hcov|]. split; [exact Hdocs|].
  destruct (scoring_counts_distinct_terms demo "Fox the  fox" Hcov Hdocs)
    as (_ & _ & _ & Hcount & _).
  split.
  - apply (Hcount "The quick brown fox" ["fox"; "the"]).
    + repeat constructor; simpl; intuition discriminate.
    + intros t. rewrite <- contains_spec. simpl. split.
      * intros [<-|[<-|[]]]; split; auto.
      * intros [[<-|[<-|[]]] _]; auto.
  - reflexivity.
Defined.

Lemma scoring_nil_of_no_match (terms : list string) (items : list (string * string)) :
  (forall t doc_name content,
     In t terms -> In (doc_name, content) items ->
     ~ PyStr.Substring t (PyStr.lower content)) ->
  scoring terms items = [].
Proof.
  intros H. unfold scoring.
  induction items as [|[n c] items IH]; simpl; [reflexivity|].
  assert (Hz : score_of terms c = 0).
  { apply score_of_zero. intros t Ht. apply (H t n c Ht). now left. }
  rewrite Hz. simpl. apply IH. intros t n' c' Ht Hin. apply (H t n' c' Ht).
  now right.
Qed.

Lemma all_zero_descending (l : list Cand.t) :
  Forall (fun d => Cand.score d = 0) l -> descending l.
Proof.
  unfold descending. induction 1 as [|d l Hd Hl IH]; constructor; [assumption|].
  eapply Forall_impl; [|exact Hl]. simpl. intros; lia.
Qed.

(** C3. On a non-empty corpus in which each document has its metadata, a
    query none of whose terms occurs in the lower-cased text of any
    document gets the first two documents at most, in insertion order and
    with score 0, as its ranked list; the call returns a context that is
    not the no-documents sentence and is assembled from at most two
    documents, taken from the front of that list. *)
Theorem fallback_on_no_match
    (self : assistant) (query : string) (max_context_len : Z) :
  covered self = true ->
  document_contents self <> [] ->
  (forall t doc_name content,
     In t (query_terms query) ->
     In (doc_name, content) (document_contents self) ->
     ~ PyStr.Substring t (PyStr.lower content)) ->
  exists ranked context,
    rank_documents self query = Returns ranked
    /\ map cand_item ranked = firstn 2 (document_contents self)
    /\ Forall (fun d => Cand.score d = 0) ranked
    /\ create_context_from_documents self query max_context_len = Returns context
    /\ context <> no_documents
    /\ context
       = (context_start
          ++ entries (included max_context_len ranked context_start))%string
    /\ List.length (included max_context_len ranked context_start) <= 2
    /\ exists rest,
         ranked = map fst (included max_context_len ranked context_start) ++ rest.
Proof.
  intros Hcov Hdocs Hnone.
  destruct (rank_documents_spec self Hcov query) as (cands & Hrun & _ & Hcases).
  pose proof (scoring_nil_of_no_match _ _ Hnone) as Hnil.
  destruct Hcases as [(_ & Hne & Hmap & _)|(_ & _ & Hmap & Hzero)].
  { rewrite Hnil in Hmap. destruct cands; [congruence | discriminate]. }
  rewrite (sort_by_score_descending_id cands) in Hrun
    by now apply all_zero_descending.
  exists cands, (assemble max_context_len cands context_start).
  split; [assumption|]. split; [assumption|]. split; [assumption|].
  split; [rewrite create_context_nonempty, Hrun by assumption; reflexivity|].
  split; [rewrite assemble_entries; discriminate|].
  split; [apply assemble_entries|].
  split; [|apply included_prefix].
  etransitivity; [apply included_length|].
  rewrite <- (length_map cand_item), Hmap. apply firstn_le_length.
Qed.

Lemma fallback_on_no_match_witness :
  exists ranked context,
    rank_documents demo "Zebra crossing" = Returns ranked
    /\ map cand_item ranked = firstn 2 (document_contents demo)
    /\ Forall (fun d => Cand.score d = 0) ranked
    /\ create_context_from_documents demo "Zebra crossing" 8000 = Returns context
    /\ context <> no_documents
    /\ context
       = (context_start ++ entries (included 8000 ranked context_start))%string
    /\ List.length (included 8000 ranked context_start) <= 2
    /\ exists rest, ranked = map fst (included 8000 ranked context_start) ++ rest.
Proof.
  apply (fallback_on_no_match demo "Zebra crossing" 8000).
  - reflexivity.
  - discriminate.
  - intros t doc_name content Ht Hin. rewrite <- contains_spec.
    simpl in Ht, Hin.
    destruct Ht as [<-|[<-|[]]];
      destruct Hin as [[= <- <-]|[[= <- <-]|[]]]; discriminate.
Defined.

(** Keeping some entries of a dictionary, or its first entries, keeps its
    keys distinct. *)
Lemma keys_filter_distinct {V : Type} (keep : string * V -> bool) (d : dict V) :
  NoDup (dict_keys d) -> NoDup (dict_keys (filter keep d)).
Proof.
  unfold dict_keys. induction d as [|[k v] d IH]; simpl; intros Hd; [constructor|].
  inversion Hd as [|k' ks Hfresh Hrest]; subst.
  destruct (keep (k, v)); simpl; auto.
  constructor; auto.
  contradict Hfresh. rewrite in_map_iff in *.
  destruct Hfresh as ([k1 v1] & Hk & Hin). rewrite filter_In in Hin.
  exists (k1, v1). tauto.
Qed.

Lemma keys_firstn_distinct {V : Type} (n : nat) (d : dict V) :
  NoDup (dict_keys d) -> NoDup (dict_keys (firstn n d)).
Proof.
  unfold dict_keys. intros Hd.
  rewrite <- (firstn_skipn n d), map_app in Hd.
  exact (NoDup_app_remove_r _ _ Hd).
Qed.

Lemma cand_names (l : list Cand.t) : map Cand.name l = map fst (map cand_item l).
Proof. rewrite map_map. reflexivity. Qed.

(** C4. On a dictionary corpus in which each document has its metadata, the
    ranked list is the sort of the candidates taken in corpus order: it
    runs by decreasing score, holds the same candidates, each document
    once, and the candidates of any one score stand in the order the corpus
    gave them. When the query terms are [a] and [b], a document whose
    lower-cased text holds [a] but not [b] scores 1, a document whose text
    holds both scores 2, and the second stands before the first in the
    ranked list. *)
Theorem ranking_stable_and_monotone (self : assistant) (query : string) :
  covered self = true ->
  is_dict (document_contents self) ->
  exists cands,
    rank_documents self query = Returns (sort_by_score cands)
    /\ (map cand_item cands
        = filter (fun kv => 0 <? score_of (query_terms query) (snd kv))
            (document_contents self)
        \/ map cand_item cands = firstn 2 (document_contents self))
    /\ descending (sort_by_score cands)
    /\ Permutation cands (sort_by_score cands)
    /\ NoDup (map Cand.name (sort_by_score cands))
    /\ (forall s, with_score s (sort_by_score cands) = with_score s cands)
    /\ (forall a b n1 t1 n2 t2,
          (forall t, In t (query_terms query) <-> t = a \/ t = b) ->
          dict_get n1 (document_contents self) = Some t1 ->
          dict_get n2 (document_contents self) = Some t2 ->
          PyStr.Substring a (PyStr.lower t1) ->
          ~ PyStr.Substring b (PyStr.lower t1) ->
          PyStr.Substring a (PyStr.lower t2) ->
          PyStr.Substring b (PyStr.lower t2) ->
          exists d1 d2,
            cand_item d1 = (n1, t1) /\ cand_item d2 = (n2, t2)
            /\ Cand.score d1 = 1 /\ Cand.score d2 = 2
            /\ Cand.score d1 <= Cand.score d2
            /\ before d2 d1 (sort_by_score cands)).
Proof.
  intros Hcov Hdict.
  destruct (rank_documents_spec self Hcov query) as (cands & Hrun & _ & Hcases).
  assert (Horder : map cand_item cands
                   = scoring (query_terms query) (document_contents self)
                   \/ map cand_item cands = firstn 2 (document_contents self)).
  { destruct Hcases as [(_ & _ & Hmap & _)|(_ & _ & Hmap & _)]; auto. }
  exists cands.
  split; [assumption|]. split; [assumption|].
  split; [apply sort_by_score_descending|].
  split; [apply sort_by_score_perm|].
  split.
  { eapply Permutation_NoDup; [apply Permutation_map, sort_by_score_perm|].
    rewrite cand_names. apply distinct_spec in Hdict.
    destruct Horder as [-> | ->].
    - unfold scoring. now apply keys_filter_distinct.
    - now apply keys_firstn_distinct. }
  split; [intros s; apply sort_by_score_stable|].
  intros a b n1 t1 n2 t2 Hterms Hget1 Hget2 Ha1 Hb1 Ha2 Hb2.
  assert (Hab : a <> b) by (intros ->; contradiction).
  assert (Hs1 : score_of (query_terms query) t1 = 1).
  { apply (score_of_counts _ [a]); [apply query_terms_NoDup | |].
    - repeat constructor. simpl. tauto.
    - intros t. rewrite Hterms. simpl. split.
      + intros [<-|[]]. auto.
      + intros [[->| ->] Hsub]; [now left | contradiction]. }
  assert (Hs2 : score_of (query_terms query) t2 = 2).
  { apply (score_of_counts _ [a; b]); [apply query_terms_NoDup | |].
    - repeat constructor; simpl; intuition congruence.
    - intros t. rewrite Hterms. simpl. split.
      + intros [<-|[<-|[]]]; auto.
      + intros [[->| ->] _]; auto. }
  destruct Hcases as [(_ & _ & Hmap & Hall)|(_ & Hnil & _ & _)].
  2:{ apply dict_get_in in Hget1.
      assert (Hin : In (n1, t1) (scoring (query_terms query) (document_contents self))).
      { unfold scoring. apply filter_In. split; [assumption|]. simpl.
        rewrite Hs1. reflexivity. }
      rewrite Hnil in Hin. destruct Hin. }
  assert (Hfind : forall n t s,
            dict_get n (document_contents self) = Some t ->
            score_of (query_terms query) t = S s ->
            exists d, In d cands /\ cand_item d = (n, t) /\ Cand.score d = S s).
  { intros n t s Hget Hs. apply dict_get_in in Hget.
    assert (Hin : In (n, t) (map cand_item cands)).
    { rewrite Hmap. unfold scoring. apply filter_In. split; [assumption|].
      simpl. rewrite Hs. reflexivity. }
    apply in_map_iff in Hin as (d & Hd & Hin). exists d.
    split; [assumption|]. split; [assumption|].
    rewrite Forall_forall in Hall. destruct (Hall d Hin) as [-> _].
    injection Hd as _ ->. assumption. }
  destruct (Hfind n1 t1 0 Hget1 Hs1) as (d1 & Hin1 & Hd1 & Hsc1).
  destruct (Hfind n2 t2 1 Hget2 Hs2) as (d2 & Hin2 & Hd2 & Hsc2).
  exists d1, d2. repeat split; try assumption; [lia|].
  apply descending_before.
  - apply sort_by_score_descending.
  - eapply Permutation_in; [apply sort_by_score_perm | assumption].
  - eapply Permutation_in; [apply sort_by_score_perm | assumption].
  - lia.
Qed.

Lemma ranking_stable_and_monotone_witness :
  exists d1 d2,
    cand_item d1 = ("a.txt", "The quick brown fox")
    /\ cand_item d2 = ("b.txt", "Lazy dogs sleep")
    /\ Cand.score d1 = 1 /\ Cand.score d2 = 2
    /\ Cand.score d1 <= Cand.score d2
    /\ exists cands,
         rank_documents demo "z  O" = Returns (sort_by_score cands)
         /\ before d2 d1 (sort_by_score cands).
Proof.
  destruct (ranking_stable_and_monotone demo "z  O") as
    (cands & Hrun & _ & _ & _ & _ & _ & Hmono);
    [reflexivity | reflexivity |].
  destruct (Hmono "o" "z" "a.txt" "The quick brown fox" "b.txt" "Lazy dogs sleep")
    as (d1 & d2 & H1 & H2 & H3 & H4 & H5 & H6).
  - intros t. simpl. intuition.
  - reflexivity.
  - reflexivity.
  - apply contains_spec. reflexivity.
  - rewrite <- contains_spec. discriminate.
  - apply contains_spec. reflexivity.
  - apply contains_spec. reflexivity.
  - exists d1, d2. do 5 (split; [assumption|]). exists cands. now split.
Defined.


(** The end-to-end scenarios of the retriever on the small corpus. *)
Example only_matching_document_is_ranked :
  rank_documents demo "fox"
  = Returns [ {| Cand.name := "a.txt"; Cand.content := "The quick brown fox";
                 Cand.score := 1; Cand.type := "Plain Text" |} ].
Proof. reflexivity. Qed.

Example later_document_ranks_first :
  option_map (map Cand.name)
    (match rank_documents demo "sleep dogs fox" with
     | Returns ranked => Some ranked
     | Raises _ => None
     end)
  = Some ["b.txt"; "a.txt"].
Proof. reflexivity. Qed.

Example snippet_is_cut_to_the_room_left :
  included 160 (sort_by_score
                  [ {| Cand.name := "a.txt"; Cand.content := "The quick brown fox";
                       Cand.score := 1; Cand.type := "Plain Text" |} ])
           context_start
  = [ ({| Cand.name := "a.txt"; Cand.content := "The quick brown fox";
          Cand.score := 1; Cand.type := "Plain Text" |}, 13%Z) ].
Proof. reflexivity. Qed.

Example search_finds_offset :
  search_documents demo "dog"
  = Returns [ {| Hit.document := "b.txt"; Hit.type := "Plain Text";
                 Hit.snippet := "Lazy dogs sleep"; Hit.position := 5 |} ].
Proof. reflexivity. Qed.

Example no_documents_answer :
  ask_question init helpful_model "anything"
  = Returns {| Answer.answer := "No documents are loaded. Please load documents first.";
               Answer.sources := [];
               Answer.confidence := "low";
               Answer.context_length := None;
               Answer.documents_used := None |}.
Proof. reflexivity. Qed.

(* ------------------------------------------------------------------ *)
(** * Ingestion *)
(* ------------------------------------------------------------------ *)

(** The extractors turn a failure of their backend into the empty string. *)
Example audio_backend_raises :
  DataExtractor.extract_from_audio (Raises "deadline exceeded") = "".
Proof. reflexivity. Qed.

Example audio_result_without_alternative :
  DataExtractor.extract_from_audio (Returns [["hello"]; []]) = "".
Proof. reflexivity. Qed.

Example audio_transcripts_joined :
  DataExtractor.extract_from_audio (Returns [["hello"; "hollow"]; ["world "]])
  = "hello world".
Proof. reflexivity. Qed.

(** Two objects with one base name: the later text stands, at the place of
    the earlier one. *)
Example same_base_name_overwrites :
  document_contents
    (fst (load_documents_from_gcs "bucket"
            [ {| blob_name := "extracted/x/a.txt"; extraction := Returns "first";
                 utcnow := "t1" |};
              {| blob_name := "extracted/b.TXT"; extraction := Returns "other";
                 utcnow := "t2" |};
              {| blob_name := "extracted/y/a.txt"; extraction := Returns "second";
                 utcnow := "t3" |} ] init))
  = [("a.txt", "second"); ("b.TXT", "other")].
Proof. reflexivity. Qed.

Example skipped_objects_do_not_count :
  load_documents_from_gcs "bucket"
    [failing_visit; blank_visit; unsupported_visit] demo
  = (demo, 2).
Proof. reflexivity. Qed.


Section Ingestion.
Variable bucket_name : string.
Implicit Types (self : assistant) (v : blob_visit) (visits : list blob_visit).

Lemma process_blob_record self v :
  process_blob bucket_name self v
  = match record_of bucket_name v with
    | Some (k, (text, meta)) =>
        {| document_contents := dict_set k text (document_contents self);
           document_metadata := dict_set k meta (document_metadata self) |}
    | None => self
    end.
Proof.
  unfold process_blob, record_of.
  destruct (extract_step v) as [e|[text ty]]; [reflexivity|].
  destruct (PyStr.truthy (PyStr.strip text)); reflexivity.
Qed.

(** A visit whose extraction raises is skipped, whatever its extension. *)
Lemma record_of_raises v detail :
  extraction v = Raises detail -> record_of bucket_name v = None.
Proof.
  intros H. unfold record_of, extract_step.
  destruct (content_type_of _); [now rewrite H | reflexivity].
Qed.

(** So is a visit whose extraction returns a blank text. *)
Lemma record_of_blank v text :
  extraction v = Returns text -> PyStr.strip text = "" ->
  record_of bucket_name v = None.
Proof.
  intros H Hblank. unfold record_of, extract_step.
  destruct (content_type_of _); [|reflexivity].
  rewrite H. simpl. now rewrite Hblank.
Qed.

Lemma load_contents visits self :
  document_contents (fold_left (process_blob bucket_name) visits self)
  = dict_update (document_contents self) (text_updates bucket_name visits).
Proof.
  unfold dict_update, text_updates, records.
  revert self; induction visits as [|v visits IH]; intros self; simpl;
    [reflexivity|].
  rewrite IH, process_blob_record.
  destruct (record_of bucket_name v) as [[k [text meta]]|]; reflexivity.
Qed.

Lemma load_metadata visits self :
  document_metadata (fold_left (process_blob bucket_name) visits self)
  = dict_update (document_metadata self) (meta_updates bucket_name visits).
Proof.
  unfold dict_update, meta_updates, records.
  revert self; induction visits as [|v visits IH]; intros self; simpl;
    [reflexivity|].
  rewrite IH, process_blob_record.
  destruct (record_of bucket_name v) as [[k [text meta]]|]; reflexivity.
Qed.

Lemma load_skips visits1 v visits2 self :
  record_of bucket_name v = None ->
  load_documents_from_gcs bucket_name (visits1 ++ v :: visits2) self
  = load_documents_from_gcs bucket_name (visits1 ++ visits2) self.
Proof.
  intros H. unfold load_documents_from_gcs.
  rewrite !fold_left_app. simpl. rewrite (process_blob_record _ v), H.
  reflexivity.
Qed.

End Ingestion.

Lemma in_keys_set {V : Type} (k k0 : string) (v : V) (d : dict V) :
  In k (dict_keys (dict_set k0 v d)) <-> k = k0 \/ In k (dict_keys d).
Proof.
  rewrite dict_keys_set. destruct (dict_mem k0 d) eqn:E.
  - apply dict_mem_spec in E. split; [tauto|]. intros [->|H]; assumption.
  - rewrite in_app_iff. simpl. intuition.
Qed.

Lemma in_keys_update {V : Type} (k : string) (us : list (string * V)) (d : dict V) :
  In k (dict_keys (dict_update d us)) <-> In k (dict_keys d) \/ In k (map fst us).
Proof.
  unfold dict_update. revert d; induction us as [|[k0 v0] us IH]; intros d; simpl.
  - tauto.
  - rewrite IH, in_keys_set. intuition.
Qed.

Lemma dict_update_length {V : Type} (us : list (string * V)) (d : dict V) :
  List.length d <= List.length (dict_update d us).
Proof.
  unfold dict_update. revert d; induction us as [|[k0 v0] us IH]; intros d; simpl.
  - lia.
  - etransitivity; [apply (dict_set_length k0 v0)|apply IH].
Qed.

Lemma in_records (bucket_name : string) (visits : list blob_visit)
    (r : string * (string * Meta.t)) :
  In r (records bucket_name visits)
  <-> exists v, In v visits /\ record_of bucket_name v = Some r.
Proof.
  unfold records. rewrite in_flat_map. split; intros [v [Hv H]]; exists v;
    (split; [assumption|]).
  - destruct (record_of bucket_name v); simpl in H; [|tauto].
    destruct H as [->|[]]. reflexivity.
  - rewrite H. now left.
Qed.

Lemma record_of_some (bucket_name : string) (v : blob_visit)
    (r : string * (string * Meta.t)) :
  record_of bucket_name v = Some r
  <-> exists text ty,
        extract_step v = Returns (text, ty)
        /\ PyStr.strip text <> ""
        /\ r = (basename (blob_name v),
                (text, new_metadata bucket_name v text ty)).
Proof.
  unfold record_of. destruct (extract_step v) as [e|[text ty]].
  - split; [discriminate | intros (? & ? & H & _); discriminate].
  - destruct (PyStr.truthy (PyStr.strip text)) eqn:E.
    + apply truthy_spec in E. split.
      * intros [= <-]. now exists text, ty.
      * intros (text' & ty' & [= <- <-] & _ & ->). reflexivity.
    + split; [discriminate|]. intros (text' & ty' & [= <- <-] & Hne & _).
      apply truthy_spec in Hne. congruence.
Qed.

(** C5. In one turn of the loop, an extracted text that is non-empty after
    trimming is stored, with its metadata, under the object's base name,
    and one that is empty after trimming leaves both stores as they were.
    After a run the documents are those present before together with the
    base names of the objects whose extracted text was non-empty after
    trimming, and the number returned is the number of all documents then
    present, those present before included. *)
Theorem load_commits_nonblank_and_counts
    (bucket_name : string) (visits : list blob_visit) (self : assistant) :
  let self' := fst (load_documents_from_gcs bucket_name visits self) in
  let total := snd (load_documents_from_gcs bucket_name visits self) in
  total = List.length (document_contents self')
  /\ List.length (document_contents self) <= total
  /\ (forall k,
        In k (dict_keys (document_contents self'))
        <-> In k (dict_keys (document_contents self))
            \/ exists v text ty,
                 In v visits
                 /\ extract_step v = Returns (text, ty)
                 /\ PyStr.strip text <> ""
                 /\ basename (blob_name v) = k)
  /\ (forall (s : assistant) (v : blob_visit) (text ty : string),
        extract_step v = Returns (text, ty) ->
        (PyStr.strip text <> "" ->
         let s' := process_blob bucket_name s v in
         s' = commit bucket_name v text ty s
         /\ dict_get (basename (blob_name v)) (document_contents s') = Some text
         /\ dict_get (basename (blob_name v)) (document_metadata s')
            = Some (new_metadata bucket_name v text ty))
        /\ (PyStr.strip text = "" -> process_blob bucket_name s v = s)).
Proof.
  simpl. split; [reflexivity|]. split.
  { rewrite load_contents. apply dict_update_length. }
  split.
  { intros k. rewrite load_contents, in_keys_update.
    unfold text_updates. rewrite map_map. simpl.
    apply or_iff_compat_l. rewrite in_map_iff. split.
    - intros (r & <- & Hr). apply in_records in Hr as (v & Hv & Hr).
      apply record_of_some in Hr as (text & ty & Hstep & Hne & ->).
      now exists v, text, ty.
    - intros (v & text & ty & Hv & Hstep & Hne & <-).
      exists (basename (blob_name v), (text, new_metadata bucket_name v text ty)).
      split; [reflexivity|]. apply in_records. exists v. split; [assumption|].
      apply record_of_some. now exists text, ty. }
  intros s v text ty Hstep. unfold process_blob. rewrite Hstep. split.
  - intros Hne. apply truthy_spec in Hne. rewrite Hne.
    split; [reflexivity|]. unfold commit. simpl.
    rewrite !dict_get_set, String.eqb_refl. split; reflexivity.
  - intros ->. reflexivity.
Qed.

Lemma load_commits_nonblank_and_counts_witness :
  snd (load_documents_from_gcs "bucket" [blank_visit; unsupported_visit] demo) = 2
  /\ process_blob "bucket" demo blank_visit = demo
  /\ dict_get "c.txt"
       (document_contents
          (process_blob "bucket" demo
             {| blob_name := "extracted/c.txt"; extraction := Returns " sea ";
                utcnow := "2025-01-01T10:00:05" |}))
     = Some " sea ".
Proof.
  destruct (load_commits_nonblank_and_counts "bucket"
              [blank_visit; unsupported_visit] demo) as (Htotal & _ & _ & Hturn).
  split; [exact Htotal|]. split.
  - apply (Hturn demo blank_visit "   " "Audio Transcript"); reflexivity.
  - apply (Hturn demo
             {| blob_name := "extracted/c.txt"; extraction := Returns " sea ";
                utcnow := "2025-01-01T10:00:05" |} " sea " "Plain Text");
      [reflexivity | discriminate].
Defined.

Lemma extractors_contain_failures (detail text : string) :
  In text (on_backend_failure detail) -> text = "".
Proof.
  simpl. intros [<-|[<-|[<-|[<-|[<-|[<-|[]]]]]]]; reflexivity.
Qed.

(** C6. An object whose processing raises inside the loop body, or whose
    extractor caught a failure of its backend and returned the empty
    string, is passed over: the run over all objects ends in the state and
    returns the count of the run over the other objects alone. *)
Theorem failure_is_contained
    (bucket_name : string) (visits1 visits2 : list blob_visit)
    (v : blob_visit) (self : assistant) (detail : string) :
  extraction v = Raises detail
  \/ (exists text,
        In text (on_backend_failure detail) /\ extraction v = Returns text) ->
  load_documents_from_gcs bucket_name (visits1 ++ v :: visits2) self
  = load_documents_from_gcs bucket_name (visits1 ++ visits2) self.
Proof.
  intros H. apply load_skips.
  destruct H as [H|(text & Hin & H)].
  - now apply record_of_raises with (detail := detail).
  - apply extractors_contain_failures in Hin. subst text.
    now apply record_of_blank with (text := "").
Qed.

Lemma failure_is_contained_witness :
  load_documents_from_gcs "bucket"
    ([List.hd failing_visit demo_visits] ++ failing_visit :: List.tl demo_visits) init
  = load_documents_from_gcs "bucket"
      ([List.hd failing_visit demo_visits] ++ List.tl demo_visits) init.
Proof.
  apply (failure_is_contained "bucket" _ _ failing_visit init "404 Not Found").
  left. reflexivity.
Defined.

(* ------------------------------------------------------------------ *)
(** * Running the ingestion again *)
(* ------------------------------------------------------------------ *)

Section Update.
Context {V : Type}.
Implicit Types (d : dict V) (us : list (string * V)) (k : string).





End Update.



Section Again.
Variable bucket_name : string.






End Again.




(* ------------------------------------------------------------------ *)
(** * The invariant of the two stores *)
(* ------------------------------------------------------------------ *)

Lemma record_ok_set (k text : string) (meta : Meta.t)
    (docs : dict string) (metas : dict Meta.t) :
  Forall2 record_ok docs metas ->
  record_ok (k, text) (k, meta) ->
  Forall2 record_ok (dict_set k text docs) (dict_set k meta metas).
Proof.
  intros H Hnew. induction H as [|[k1 t1] [k2 m2] docs metas Hok Hrest IH]; simpl.
  - constructor; [assumption | constructor].
  - pose proof Hok as (Hk & _). simpl in Hk. subst k2.
    destruct (String.eqb_spec k1 k) as [->|Hne].
    + constructor; assumption.
    + constructor; assumption.
Qed.

Lemma consistent_init : consistent init.
Proof. split; [reflexivity | constructor]. Qed.

Lemma consistent_process_blob (bucket_name : string) (self : assistant)
    (v : blob_visit) :
  consistent self -> consistent (process_blob bucket_name self v).
Proof.
  intros [Hdict Hall]. rewrite process_blob_record.
  destruct (record_of bucket_name v) as [[k [text meta]]|] eqn:E; [|now split].
  apply record_of_some in E as (text' & ty & _ & Hne & [= -> -> ->]).
  split; simpl.
  - now apply is_dict_set.
  - apply record_ok_set; [assumption|]. repeat split; assumption.
Qed.

Lemma consistent_load (bucket_name : string) (visits : list blob_visit)
    (self : assistant) :
  consistent self ->
  consistent (fst (load_documents_from_gcs bucket_name visits self)).
Proof.
  simpl. revert self; induction visits as [|v visits IH]; intros self H; simpl;
    [assumption|].
  apply IH. now apply consistent_process_blob.
Qed.

Lemma consistent_step (self : assistant) (c : call) :
  consistent self -> consistent (fst (step self c)).
Proof.
  destruct c; simpl; try tauto.
  apply (consistent_load bucket_name visits).
Qed.

(** Every state an assistant can be in is consistent. *)
Lemma reachable_consistent (self : assistant) : reachable self -> consistent self.
Proof.
  intros [calls ->]. unfold run.
  assert (H : forall s, consistent s ->
                        consistent (fold_left (fun s c => fst (step s c)) calls s)).
  { induction calls as [|c calls IH]; intros s Hs; simpl; [assumption|].
    apply IH. now apply consistent_step. }
  apply H, consistent_init.
Qed.

Lemma consistent_keys (self : assistant) :
  consistent self ->
  dict_keys (document_contents self) = dict_keys (document_metadata self).
Proof.
  intros [_ H]. unfold dict_keys.
  induction H as [|[k1 t1] [k2 m2] docs metas (Hk & _) _ IH]; simpl;
    [reflexivity|].
  simpl in Hk. now rewrite Hk, IH.
Qed.

Lemma consistent_lookup (self : assistant) (k text : string) :
  consistent self ->
  dict_get k (document_contents self) = Some text ->
  exists meta,
    dict_get k (document_metadata self) = Some meta
    /\ Meta.size_chars meta = String.length text
    /\ PyStr.strip text <> "".
Proof.
  intros [_ H].
  induction H as [|[k1 t1] [k2 m2] docs metas (Hk & Hsize & Hne) _ IH]; simpl;
    [discriminate|].
  simpl in Hk, Hsize, Hne. subst k2.
  destruct (String.eqb k1 k); [|exact IH].
  intros [= <-]. now exists m2.
Qed.

Lemma consistent_covered (self : assistant) :
  consistent self -> covered self = true.
Proof.
  intros H. unfold covered. apply forallb_forall. intros k Hk.
  apply dict_mem_spec. now rewrite <- consistent_keys.
Qed.

Lemma search_items_returns (self : assistant) (term : string)
    (items : list (string * string)) :
  covered self = true ->
  incl items (document_contents self) ->
  exists hits, search_items self term items = Returns hits.
Proof.
  intros Hcov. induction items as [|[name content] rest IH]; intros Hincl; simpl.
  - now eexists.
  - destruct IH as [hits Hhits]; [intros x Hx; apply Hincl; now right|].
    destruct (_ =? -1)%Z; [now exists hits|].
    assert (Hin : In name (dict_keys (document_contents self))).
    { apply (in_map fst) with (x := (name, content)). apply Hincl. now left. }
    destruct (metadata_type_covered self Hcov _ Hin) as (meta & _ & Hty).
    rewrite Hty, Hhits. simpl. now eexists.
Qed.

(** C10. In every state reached from the freshly constructed assistant by
    calls of its public methods, the two stores hold the same keys (in the
    same order, none twice), every stored text is non-empty after trimming
    and has its length recorded as [size_chars] in the metadata under the
    same key, and the metadata lookups of the context assembly, the search
    and the listing find their key: these calls return. *)
Theorem stores_stay_consistent (calls : list call) :
  let self := run calls init in
  dict_keys (document_contents self) = dict_keys (document_metadata self)
  /\ (forall k, In k (dict_keys (document_contents self))
                <-> In k (dict_keys (document_metadata self)))
  /\ NoDup (dict_keys (document_contents self))
  /\ (forall k text,
        dict_get k (document_contents self) = Some text ->
        exists meta,
          dict_get k (document_metadata self) = Some meta
          /\ Meta.size_chars meta = String.length text
          /\ PyStr.strip text <> "")
  /\ (forall query max_context_len,
        exists context,
          create_context_from_documents self query max_context_len
          = Returns context)
  /\ (forall term, exists hits, search_documents self term = Returns hits)
  /\ map Info.name (list_documents self) = dict_keys (document_contents self).
Proof.
  intros self.
  assert (H : consistent self) by (apply reachable_consistent; now exists calls).
  pose proof (consistent_keys self H) as Hkeys.
  pose proof (consistent_covered self H) as Hcov.
  split; [assumption|]. split; [intros k; now rewrite Hkeys|].
  split; [apply distinct_spec, H|].
  split; [intros k text; now apply consistent_lookup|].
  split; [intros query m; now apply create_context_returns|].
  split; [intros term; apply search_items_returns; [assumption | apply incl_refl]|].
  rewrite Hkeys. unfold list_documents, dict_keys. rewrite map_map.
  apply map_ext. now intros [name meta].
Qed.

Lemma stores_stay_consistent_witness :
  dict_keys (document_contents demo) = dict_keys (document_metadata demo)
  /\ exists context,
       create_context_from_documents
         (run [LoadDocuments "bucket" demo_visits; AskQuestion failing_model "fox";
               LoadDocuments "bucket" [failing_visit; blank_visit]; SearchDocuments "dog"] init)
         "fox" 8000
       = Returns context.
Proof.
  split.
  - apply (stores_stay_consistent [LoadDocuments "bucket" demo_visits]).
  - apply (stores_stay_consistent
             [LoadDocuments "bucket" demo_visits; AskQuestion failing_model "fox";
              LoadDocuments "bucket" [failing_visit; blank_visit]; SearchDocuments "dog"]).
Defined.

(* ------------------------------------------------------------------ *)
(** * The answer composer *)
(* ------------------------------------------------------------------ *)

Lemma ask_question_unfold (self : assistant) (generate : model)
    (question context : string) :
  document_contents self <> [] ->
  create_context_from_documents self question 8000 = Returns context ->
  ask_question self generate question
  = match generate (question_prompt question context) with
    | Returns text =>
        Returns {| Answer.answer := PyStr.strip text;
                   Answer.sources := dict_keys (document_contents self);
                   Answer.confidence := "high";
                   Answer.context_length := Some (String.length context);
                   Answer.documents_used :=
                     Some (List.length (dict_keys (document_contents self))) |}
    | Raises exc =>
        Returns {| Answer.answer := "Error generating response: " ++ exc;
                   Answer.sources := [];
                   Answer.confidence := "error";
                   Answer.context_length := None;
                   Answer.documents_used := None |}
    end.
Proof.
  intros Hdocs Hctx. unfold ask_question.
  destruct (document_contents self) eqn:E; [congruence|].
  rewrite Hctx. reflexivity.
Qed.

(** C7. On a non-empty corpus in which each document has its metadata, the
    context for the question is assembled under the budget 8000, and when
    the model returns a text for the prompt made of the question and that
    context, the answer carries that text trimmed, all the keys of the
    corpus as sources, whether or not the context holds them, their number
    as [documents_used], the confidence [high] and the length of the
    context. *)
Theorem answer_on_success
    (self : assistant) (generate : model) (question : string) :
  covered self = true ->
  document_contents self <> [] ->
  exists context,
    create_context_from_documents self question 8000 = Returns context
    /\ forall text,
         generate (question_prompt question context) = Returns text ->
         ask_question self generate question
         = Returns {| Answer.answer := PyStr.strip text;
                      Answer.sources := dict_keys (document_contents self);
                      Answer.confidence := "high";
                      Answer.context_length := Some (String.length context);
                      Answer.documents_used :=
                        Some (List.length (dict_keys (document_contents self))) |}.
Proof.
  intros Hcov Hdocs.
  destruct (create_context_returns self Hcov question 8000) as [context Hctx].
  exists context. split; [assumption|]. intros text Hgen.
  rewrite (ask_question_unfold self generate question context Hdocs Hctx), Hgen.
  reflexivity.
Qed.

Lemma answer_on_success_witness :
  exists context,
    create_context_from_documents demo "fox" 8000 = Returns context
    /\ PyStr.contains "b.txt" context = false
    /\ ask_question demo helpful_model "fox"
       = Returns {| Answer.answer := "A fox.";
                    Answer.sources := ["a.txt"; "b.txt"];
                    Answer.confidence := "high";
                    Answer.context_length := Some (String.length context);
                    Answer.documents_used := Some 2 |}.
Proof.
  destruct (answer_on_success demo helpful_model "fox") as (context & Hctx & Hask);
    [reflexivity | discriminate |].
  exists context. split; [assumption|]. split.
  - vm_compute in Hctx. injection Hctx as <-. reflexivity.
  - apply (Hask "  A fox.  "). reflexivity.
Defined.

(** C8. On a non-empty corpus in which each document has its metadata, when
    the model raises on the prompt made of the question and the assembled
    context, the call returns an answer whose text is the fixed prefix
    followed by the error detail, with no sources and the confidence
    [error]; the state after the call is the state before it. *)
Theorem answer_on_model_failure
    (self : assistant) (generate : model) (question : string) :
  covered self = true ->
  document_contents self <> [] ->
  exists context,
    create_context_from_documents self question 8000 = Returns context
    /\ fst (step self (AskQuestion generate question)) = self
    /\ forall exc,
         generate (question_prompt question context) = Raises exc ->
         ask_question self generate question
         = Returns {| Answer.answer := "Error generating response: " ++ exc;
                      Answer.sources := [];
                      Answer.confidence := "error";
                      Answer.context_length := None;
                      Answer.documents_used := None |}.
Proof.
  intros Hcov Hdocs.
  destruct (create_context_returns self Hcov question 8000) as [context Hctx].
  exists context. split; [assumption|]. split; [reflexivity|]. intros exc Hgen.
  rewrite (ask_question_unfold self generate question context Hdocs Hctx), Hgen.
  reflexivity.
Qed.

Lemma answer_on_model_failure_witness :
  fst (step demo (AskQuestion failing_model "fox")) = demo
  /\ ask_question demo failing_model "fox"
     = Returns {| Answer.answer := "Error generating response: 503 Service Unavailable";
                  Answer.sources := [];
                  Answer.confidence := "error";
                  Answer.context_length := None;
                  Answer.documents_used := None |}.
Proof.
  destruct (answer_on_model_failure demo failing_model "fox")
    as (context & _ & Hsame & Hask); [reflexivity | discriminate |].
  split; [exact Hsame|]. apply (Hask "503 Service Unavailable"). reflexivity.
Defined.

(* ------------------------------------------------------------------ *)
(** * More on the string operations *)
(* ------------------------------------------------------------------ *)

Lemma length_lower (s : string) : String.length (PyStr.lower s) = String.length s.
Proof. induction s as [|c s IH]; simpl; [reflexivity | now rewrite IH]. Qed.

Lemma lower_append (s t : string) :
  PyStr.lower (s ++ t) = (PyStr.lower s ++ PyStr.lower t)%string.
Proof. induction s as [|c s IH]; simpl; [reflexivity | now rewrite IH]. Qed.

Lemma lower_take (n : nat) (s : string) :
  PyStr.lower (PyStr.take n s) = PyStr.take n (PyStr.lower s).
Proof.
  revert s; induction n as [|n IH]; intros [|c s]; simpl; try reflexivity.
  now rewrite IH.
Qed.

Lemma lower_drop (n : nat) (s : string) :
  PyStr.lower (PyStr.drop n s) = PyStr.drop n (PyStr.lower s).
Proof.
  revert s; induction n as [|n IH]; intros [|c s]; simpl; try reflexivity.
  apply IH.
Qed.

Lemma lower_char_twice (c : ascii) :
  PyStr.lower_char (PyStr.lower_char c) = PyStr.lower_char c.
Proof. destruct c as [[] [] [] [] [] [] [] []]; reflexivity. Qed.

Lemma lower_twice (s : string) : PyStr.lower (PyStr.lower s) = PyStr.lower s.
Proof.
  induction s as [|c s IH]; simpl; [reflexivity|].
  now rewrite lower_char_twice, IH.
Qed.

Lemma drop_length_append (pre s : string) :
  PyStr.drop (String.length pre) (pre ++ s) = s.
Proof. induction pre as [|c pre IH]; simpl; [now destruct s | exact IH]. Qed.

Lemma take_drop (n : nat) (s : string) :
  (PyStr.take n s ++ PyStr.drop n s)%string = s.
Proof.
  revert s; induction n as [|n IH]; intros [|c s]; simpl; try reflexivity.
  now rewrite IH.
Qed.

Lemma length_drop (n : nat) (s : string) :
  String.length (PyStr.drop n s) = String.length s - n.
Proof.
  revert s; induction n as [|n IH]; intros [|c s]; simpl; try reflexivity.
  apply IH.
Qed.

Lemma take_length_append (pre s : string) :
  PyStr.take (String.length pre) (pre ++ s) = pre.
Proof. induction pre as [|c pre IH]; simpl; [now destruct s | now rewrite IH]. Qed.

Lemma take_all (n : nat) (s : string) :
  String.length s <= n -> PyStr.take n s = s.
Proof.
  revert s; induction n as [|n IH]; intros [|c s]; simpl; try reflexivity.
  - lia.
  - intros H. rewrite IH by lia. reflexivity.
Qed.

(** An occurrence at an offset, read on the text that starts there. *)
Lemma occurs_at_prefix (t s : string) (n : nat) :
  occurs_at t s n
  <-> n <= String.length s /\ prefix t (PyStr.drop n s) = true.
Proof.
  split.
  - intros (pre & post & -> & <-). split.
    + rewrite length_append. lia.
    + rewrite drop_length_append. apply prefix_spec. now exists post.
  - intros [Hn Hp]. apply prefix_spec in Hp as [post Hpost].
    exists (PyStr.take n s), post. split.
    + now rewrite <- Hpost, take_drop.
    + rewrite length_take. lia.
Qed.

Lemma find_nonneg_or_none (t s : string) :
  PyStr.find t s = (-1)%Z \/ (0 <= PyStr.find t s)%Z.
Proof.
  induction s as [|c s IH]; cbn [PyStr.find].
  - destruct (prefix t ""); [right; lia | now left].
  - destruct (prefix t (String c s)); [right; lia|].
    destruct (Z.ltb_spec (PyStr.find t s) 0); [now left | right; lia].
Qed.

(** [find] gives [-1] exactly when [in] says no. *)
Lemma find_none_iff (t s : string) :
  PyStr.find t s = (-1)%Z <-> PyStr.contains t s = false.
Proof.
  induction s as [|c s IH]; cbn [PyStr.find PyStr.contains].
  - destruct (prefix t ""); simpl; split; congruence.
  - destruct (prefix t (String c s)); simpl; [split; congruence|].
    rewrite <- IH.
    destruct (find_nonneg_or_none t s) as [H|H].
    + rewrite H. simpl. tauto.
    + destruct (Z.ltb_spec (PyStr.find t s) 0); [lia|]. split; lia.
Qed.

(** A result other than [-1] is the least offset at which the text
    occurs. *)
Lemma find_first (t s : string) (n : nat) :
  PyStr.find t s = Z.of_nat n ->
  occurs_at t s n /\ forall m, m < n -> ~ occurs_at t s m.
Proof.
  revert n; induction s as [|c s IH]; intros n; cbn [PyStr.find].
  - destruct (prefix t "") eqn:E; [|lia].
    intros H. assert (n = 0) by lia. subst n. split; [|lia].
    apply occurs_at_prefix. cbn [PyStr.drop]. split; [lia | exact E].
  - destruct (prefix t (String c s)) eqn:E.
    + intros H. assert (n = 0) by lia. subst n. split; [|lia].
      apply occurs_at_prefix. cbn [PyStr.drop]. split; [lia | exact E].
    + destruct (Z.ltb_spec (PyStr.find t s) 0) as [Hneg|Hpos]; [lia|].
      intros H. destruct n as [|n]; [lia|].
      destruct (IH n) as [Hocc Hleast]; [lia|]. split.
      * apply occurs_at_prefix. apply occurs_at_prefix in Hocc as [Hn Hp].
        cbn [PyStr.drop String.length]. split; [lia | exact Hp].
      * intros [|m] Hm Habs; apply occurs_at_prefix in Habs as [Hl Hp].
        -- cbn [PyStr.drop] in Hp. congruence.
        -- apply (Hleast m); [lia|]. apply occurs_at_prefix.
           cbn [PyStr.drop String.length] in *. split; [lia | exact Hp].
Qed.

Lemma find_empty (s : string) : PyStr.find "" s = 0%Z.
Proof. destruct s; reflexivity. Qed.

Lemma occurs_at_bound (t s : string) (n : nat) :
  occurs_at t s n -> n + String.length t <= String.length s.
Proof.
  intros (pre & post & -> & <-). rewrite !length_append. lia.
Qed.

Lemma drop_append_le (n : nat) (s t : string) :
  n <= String.length s ->
  PyStr.drop n (s ++ t) = (PyStr.drop n s ++ t)%string.
Proof.
  revert s; induction n as [|n IH]; intros [|c s]; simpl; intros H;
    try reflexivity; try lia.
  apply IH. lia.
Qed.

Lemma take_append_ge (n : nat) (s t : string) :
  String.length s <= n ->
  PyStr.take n (s ++ t) = (s ++ PyStr.take (n - String.length s) t)%string.
Proof.
  revert n; induction s as [|c s IH]; intros n H; simpl.
  - now rewrite Nat.sub_0_r.
  - destruct n as [|n]; simpl in *; [lia|]. rewrite IH by lia. reflexivity.
Qed.

Lemma slice_of_nat (s : string) (start stop : Z) :
  (0 <= start)%Z -> (0 <= stop)%Z ->
  PyStr.slice s start stop
  = PyStr.take (Nat.min (String.length s) (Z.to_nat stop)
                - Nat.min (String.length s) (Z.to_nat start))
               (PyStr.drop (Nat.min (String.length s) (Z.to_nat start)) s).
Proof.
  intros Ha Hb. unfold PyStr.slice, PyStr.clamp.
  destruct (Z.ltb_spec start 0), (Z.ltb_spec stop 0); try lia. reflexivity.
Qed.

(* ------------------------------------------------------------------ *)
(** * The substring search *)
(* ------------------------------------------------------------------ *)

(** The loop's test [idx != -1] says what [in] says. *)
Lemma matching_iff (term : string) (kv : string * string) :
  PyStr.contains (PyStr.lower term) (PyStr.lower (snd kv))
  = negb (PyStr.find (PyStr.lower term) (PyStr.lower (snd kv)) =? -1)%Z.
Proof.
  destruct (Z.eqb_spec (PyStr.find (PyStr.lower term) (PyStr.lower (snd kv))) (-1))
    as [H|H]; simpl.
  - now apply find_none_iff.
  - destruct (PyStr.contains _ _) eqn:E; [reflexivity|].
    apply find_none_iff in E. contradiction.
Qed.

Lemma Forall2_Forall_l {A B : Type} (R : A -> B -> Prop) (Q : B -> Prop)
    (P : A -> Prop) (l : list A) (l' : list B) :
  Forall2 R l l' -> Forall Q l' ->
  (forall a b, R a b -> Q b -> P a) ->
  Forall P l.
Proof.
  intros H2 HQ Himp. induction H2 as [|a b l l' Hab _ IH]; constructor.
  - apply (Himp a b Hab). now apply Forall_inv in HQ.
  - apply IH. now apply Forall_inv_tail in HQ.
Qed.

(** What the search loop returns, when it returns: one hit for each
    matching document, in corpus order, with the offset [find] gave and
    the window cut around it. *)
Lemma search_items_sound (self : assistant) (term : string)
    (items : list (string * string)) (hits : list Hit.t) :
  search_items self term items = Returns hits ->
  Forall2
    (fun h kv =>
       Hit.document h = fst kv
       /\ metadata_type self (fst kv) = Returns (Hit.type h)
       /\ Hit.position h = PyStr.find (PyStr.lower term) (PyStr.lower (snd kv))
       /\ Hit.snippet h
          = PyStr.slice (snd kv)
              (Z.max 0 (Hit.position h - 120))
              (Z.min (Z.of_nat (String.length (snd kv)))
                     (Hit.position h + Z.of_nat (String.length term) + 120)))
    hits (matching term items).
Proof.
  unfold matching. revert hits.
  induction items as [|[name content] rest IH]; intros hits;
    cbn [filter search_items snd].
  - intros [= <-]. constructor.
  - pose proof (matching_iff term (name, content)) as Hm. cbn [snd] in Hm.
    rewrite Hm. clear Hm.
    destruct (_ =? -1)%Z; cbn [negb]; [apply IH|].
    destruct (metadata_type self name) as [e|ty] eqn:Hty; simpl; [discriminate|].
    destruct (search_items self term rest) as [e|tl]; simpl; [discriminate|].
    intros [= <-]. constructor; [|now apply IH].
    simpl. repeat split; assumption.
Qed.

Lemma matching_position (term : string) (items : list (string * string))
    (kv : string * string) :
  In kv (matching term items) ->
  In kv items
  /\ exists n,
       PyStr.find (PyStr.lower term) (PyStr.lower (snd kv)) = Z.of_nat n
       /\ occurs_at (PyStr.lower term) (PyStr.lower (snd kv)) n
       /\ forall m, m < n ->
                    ~ occurs_at (PyStr.lower term) (PyStr.lower (snd kv)) m.
Proof.
  unfold matching. rewrite filter_In. intros [Hin Hc]. split; [assumption|].
  destruct (find_nonneg_or_none (PyStr.lower term) (PyStr.lower (snd kv)))
    as [H|H].
  - apply find_none_iff in H. congruence.
  - exists (Z.to_nat (PyStr.find (PyStr.lower term) (PyStr.lower (snd kv)))).
    assert (Hn : PyStr.find (PyStr.lower term) (PyStr.lower (snd kv))
                 = Z.of_nat (Z.to_nat (PyStr.find (PyStr.lower term)
                                         (PyStr.lower (snd kv))))) by lia.
    split; [exact Hn|]. now apply find_first.
Qed.

(** X1. When the search returns, it reports one hit for each document
    whose lower-cased text holds the lower-cased term, and for no other:
    the hits name those documents in corpus order, a document is named
    exactly when the term occurs in it, and in a dictionary corpus no
    document is named twice. *)
Theorem search_hits_matching_documents
    (self : assistant) (term : string) (hits : list Hit.t) :
  search_documents self term = Returns hits ->
  map Hit.document hits = dict_keys (matching term (document_contents self))
  /\ (forall k,
        In k (map Hit.document hits)
        <-> exists content,
              In (k, content) (document_contents self)
              /\ PyStr.Substring (PyStr.lower term) (PyStr.lower content))
  /\ (is_dict (document_contents self) -> NoDup (map Hit.document hits)).
Proof.
  intros Hrun. apply search_items_sound in Hrun.
  assert (Hdocs : map Hit.document hits
                  = dict_keys (matching term (document_contents self))).
  { unfold dict_keys.
    induction Hrun as [|h kv hits kvs (Hd & _) _ IH]; simpl;
      [reflexivity | now rewrite Hd, IH]. }
  split; [exact Hdocs|]. split.
  - intros k. rewrite Hdocs. unfold dict_keys, matching. rewrite in_map_iff.
    split.
    + intros ([k' content] & <- & Hin). apply filter_In in Hin as [Hin Hc].
      exists content. split; [assumption|]. now apply contains_spec.
    + intros (content & Hin & Hsub). exists (k, content). split; [reflexivity|].
      apply filter_In. split; [assumption|]. now apply contains_spec.
  - intros Hdict. rewrite Hdocs. apply keys_filter_distinct.
    now apply distinct_spec.
Qed.

Lemma search_hits_matching_documents_witness :
  map Hit.document
    [ {| Hit.document := "b.txt"; Hit.type := "Plain Text";
         Hit.snippet := "Lazy dogs sleep"; Hit.position := 5 |} ]
  = dict_keys (matching "DOG" (document_contents demo)).
Proof.
  apply (search_hits_matching_documents demo "DOG"). reflexivity.
Defined.

(** X2. The position of a hit is the offset of the first occurrence of
    the lower-cased term in the lower-cased text of the document the hit
    names: the term stands there, and at no smaller offset. *)
Theorem search_position_is_first_occurrence
    (self : assistant) (term : string) (hits : list Hit.t) :
  search_documents self term = Returns hits ->
  Forall
    (fun h =>
       exists content n,
         In (Hit.document h, content) (document_contents self)
         /\ Hit.position h = Z.of_nat n
         /\ occurs_at (PyStr.lower term) (PyStr.lower content) n
         /\ forall m, m < n ->
                      ~ occurs_at (PyStr.lower term) (PyStr.lower content) m)
    hits.
Proof.
  intros Hrun. apply search_items_sound in Hrun.
  eapply Forall2_Forall_l; [exact Hrun | apply Forall_forall; intros kv H; exact H|].
  intros h [k content] (Hd & _ & Hp & _) Hkv.
  apply matching_position in Hkv as (Hin & n & Hfind & Hocc & Hleast).
  simpl in *. exists content, n. rewrite Hd, Hp. repeat split; assumption.
Qed.

Lemma search_position_is_first_occurrence_witness :
  Forall
    (fun h =>
       exists content n,
         In (Hit.document h, content) (document_contents demo)
         /\ Hit.position h = Z.of_nat n
         /\ occurs_at (PyStr.lower "S") (PyStr.lower content) n
         /\ forall m, m < n ->
                      ~ occurs_at (PyStr.lower "S") (PyStr.lower content) m)
    [ {| Hit.document := "b.txt"; Hit.type := "Plain Text";
         Hit.snippet := "Lazy dogs sleep"; Hit.position := 8 |} ].
Proof.
  apply (search_position_is_first_occurrence demo "S"). reflexivity.
Defined.

(** The window cut around an occurrence holds the occurrence. *)
Lemma window_shows_match (content term : string) (n : nat) :
  occurs_at (PyStr.lower term) (PyStr.lower content) n ->
  let window :=
    PyStr.slice content
      (Z.max 0 (Z.of_nat n - 120))
      (Z.min (Z.of_nat (String.length content))
             (Z.of_nat n + Z.of_nat (String.length term) + 120)) in
  String.length window <= String.length term + 240
  /\ occurs_at (PyStr.lower term) (PyStr.lower window) (Nat.min n 120).
Proof.
  intros Hocc. pose proof (occurs_at_bound _ _ _ Hocc) as Hbound.
  rewrite !length_lower in Hbound.
  destruct Hocc as (pre & post & Hsplit & Hpre).
  cbv zeta. rewrite slice_of_nat by lia.
  set (len := String.length content) in *.
  set (a := Nat.min len (Z.to_nat (Z.max 0 (Z.of_nat n - 120)))).
  set (b := Nat.min len (Z.to_nat (Z.min (Z.of_nat len)
                                     (Z.of_nat n + Z.of_nat (String.length term) + 120)))).
  assert (Ha : a = n - 120) by (unfold a; lia).
  assert (Hb : b = Nat.min len (n + String.length term + 120)) by (unfold b; lia).
  split.
  - rewrite length_take, length_drop. fold len. lia.
  - rewrite lower_take, lower_drop, Hsplit.
    rewrite drop_append_le by lia.
    rewrite take_append_ge by (rewrite length_drop; lia).
    rewrite take_append_ge
      by (rewrite length_drop, length_lower; lia).
    exists (PyStr.drop a pre). eexists. split; [reflexivity|].
    rewrite length_drop. lia.
Qed.

(** X3. The snippet of a hit is at most 240 characters longer than the
    term, and it shows the match: the lower-cased term occurs in the
    lower-cased snippet, 120 characters in, or at the offset of the match
    when that is smaller. *)
Theorem search_snippet_shows_match
    (self : assistant) (term : string) (hits : list Hit.t) :
  search_documents self term = Returns hits ->
  Forall
    (fun h =>
       String.length (Hit.snippet h) <= String.length term + 240
       /\ occurs_at (PyStr.lower term) (PyStr.lower (Hit.snippet h))
                    (Nat.min (Z.to_nat (Hit.position h)) 120))
    hits.
Proof.
  intros Hrun. apply search_items_sound in Hrun.
  eapply Forall2_Forall_l; [exact Hrun | apply Forall_forall; intros kv H; exact H|].
  intros h [k content] (_ & _ & Hp & Hs) Hkv.
  apply matching_position in Hkv as (_ & n & Hfind & Hocc & _).
  simpl in *. rewrite Hfind in Hp. rewrite Hs, Hp, Nat2Z.id.
  now apply window_shows_match.
Qed.

Lemma search_snippet_shows_match_witness :
  Forall
    (fun h =>
       String.length (Hit.snippet h) <= String.length "Dogs" + 240
       /\ occurs_at (PyStr.lower "Dogs") (PyStr.lower (Hit.snippet h))
                    (Nat.min (Z.to_nat (Hit.position h)) 120))
    [ {| Hit.document := "b.txt"; Hit.type := "Plain Text";
         Hit.snippet := "Lazy dogs sleep"; Hit.position := 5 |} ].
Proof.
  apply (search_snippet_shows_match demo "Dogs"). reflexivity.
Defined.

(** X4. The empty term matches every document: when the search for it
    returns, there is one hit for each document of the corpus, in corpus
    order, at position 0, with the first 120 characters of the text as its
    snippet. *)
Theorem search_empty_term_hits_everything
    (self : assistant) (hits : list Hit.t) :
  search_documents self "" = Returns hits ->
  Forall2
    (fun h kv =>
       Hit.document h = fst kv
       /\ Hit.position h = 0%Z
       /\ Hit.snippet h = PyStr.take 120 (snd kv))
    hits (document_contents self).
Proof.
  intros Hrun. apply search_items_sound in Hrun.
  assert (Hall : matching "" (document_contents self) = document_contents self).
  { unfold matching. apply forallb_filter_id, forallb_forall.
    intros kv _. simpl. now destruct (PyStr.lower (snd kv)). }
  rewrite Hall in Hrun.
  eapply Forall2_impl; [|exact Hrun].
  intros h [k content] (Hd & _ & Hp & Hs). cbn [fst snd] in *.
  change (PyStr.lower "") with "" in Hp. rewrite find_empty in Hp.
  split; [assumption|]. split; [assumption|].
  rewrite Hs, Hp. cbn [String.length]. rewrite slice_of_nat by lia.
  set (len := String.length content).
  replace (Nat.min len (Z.to_nat (Z.max 0 (0 - 120)))) with 0 by lia.
  replace (Nat.min len (Z.to_nat (Z.min (Z.of_nat len) (0 + Z.of_nat 0 + 120))))
    with (Nat.min len 120) by lia.
  cbn [PyStr.drop]. rewrite Nat.sub_0_r.
  destruct (Nat.le_ge_cases len 120) as [Hle|Hge].
  - rewrite !take_all by (fold len; lia). reflexivity.
  - f_equal. lia.
Qed.

Lemma search_empty_term_hits_everything_witness :
  Forall2
    (fun h kv =>
       Hit.document h = fst kv
       /\ Hit.position h = 0%Z
       /\ Hit.snippet h = PyStr.take 120 (snd kv))
    [ {| Hit.document := "a.txt"; Hit.type := "Plain Text";
         Hit.snippet := "The quick brown fox"; Hit.position := 0 |};
      {| Hit.document := "b.txt"; Hit.type := "Plain Text";
         Hit.snippet := "Lazy dogs sleep"; Hit.position := 0 |} ]
    (document_contents demo).
Proof.
  apply (search_empty_term_hits_everything demo). reflexivity.
Defined.

(* ------------------------------------------------------------------ *)
(** * More on the ingestion *)
(* ------------------------------------------------------------------ *)

(** The [if / elif] chain on the extension is a table lookup: its inner
    chain never falls through. *)
Lemma content_type_of_table (file_ext : string) :
  content_type_of file_ext = dict_get file_ext content_types.
Proof.
  unfold content_type_of, in_set, content_types.
  cbn [existsb dict_get].
  repeat match goal with
         | |- context [String.eqb ?a ?b] =>
             destruct (String.eqb_spec a b);
             [subst; first [reflexivity | congruence]|]
         end.
  reflexivity.
Qed.

(** X5. Only the twelve extensions of the table are ingested, whatever
    their letter case: an object whose lower-cased last extension is not
    one of them leaves both stores as they were, whatever an extractor
    would have returned for it; an object with a listed extension and a
    text that is not blank is stored with the content type of the table. *)
Theorem unlisted_extension_is_skipped
    (bucket_name : string) (self : assistant) (v : blob_visit) :
  (dict_get (file_ext_of (blob_name v)) content_types = None ->
   process_blob bucket_name self v = self)
  /\ (forall content_type text,
        dict_get (file_ext_of (blob_name v)) content_types = Some content_type ->
        extraction v = Returns text ->
        PyStr.strip text <> "" ->
        process_blob bucket_name self v
        = commit bucket_name v text content_type self).
Proof.
  unfold process_blob, extract_step. rewrite content_type_of_table. split.
  - intros ->. reflexivity.
  - intros content_type text -> -> Hne. simpl.
    apply truthy_spec in Hne. now rewrite Hne.
Qed.

Lemma unlisted_extension_is_skipped_witness :
  process_blob "bucket" demo unsupported_visit = demo
  /\ process_blob "bucket" init
       {| blob_name := "extracted/Report.final.PDF";
          extraction := Returns "Q3 numbers"; utcnow := "2025-01-01T10:00:00" |}
     = commit "bucket"
         {| blob_name := "extracted/Report.final.PDF";
            extraction := Returns "Q3 numbers"; utcnow := "2025-01-01T10:00:00" |}
         "Q3 numbers" "PDF Document" init.
Proof.
  split.
  - apply (unlisted_extension_is_skipped "bucket" demo unsupported_visit).
    reflexivity.
  - apply (unlisted_extension_is_skipped "bucket" init
             {| blob_name := "extracted/Report.final.PDF";
                extraction := Returns "Q3 numbers"; utcnow := "2025-01-01T10:00:00" |});
      [reflexivity | reflexivity | discriminate].
Defined.

(** X6. The last object with a given base name wins: when an object is
    ingested with a text that is not blank, and every object visited after
    it has another base name or is passed over, then after the run its base
    name holds that text and the metadata written for it, whatever was
    stored under that name before. *)
Theorem last_object_with_a_name_wins
    (bucket_name : string) (visits1 visits2 : list blob_visit)
    (v : blob_visit) (text content_type : string) (self : assistant) :
  extract_step v = Returns (text, content_type) ->
  PyStr.strip text <> "" ->
  (forall v', In v' visits2 ->
              basename (blob_name v') <> basename (blob_name v)
              \/ forall s, process_blob bucket_name s v' = s) ->
  let self' :=
    fst (load_documents_from_gcs bucket_name (visits1 ++ v :: visits2) self) in
  dict_get (basename (blob_name v)) (document_contents self') = Some text
  /\ dict_get (basename (blob_name v)) (document_metadata self')
     = Some (new_metadata bucket_name v text content_type).
Proof.
  intros Hstep Hne Hlater. cbn zeta.
  unfold load_documents_from_gcs. cbn [fst].
  rewrite fold_left_app. cbn [fold_left].
  set (s1 := process_blob bucket_name (fold_left (process_blob bucket_name) visits1 self) v).
  assert (H1 : dict_get (basename (blob_name v)) (document_contents s1) = Some text
               /\ dict_get (basename (blob_name v)) (document_metadata s1)
                  = Some (new_metadata bucket_name v text content_type)).
  { unfold s1, process_blob. rewrite Hstep.
    apply truthy_spec in Hne. rewrite Hne. unfold commit. cbn.
    rewrite !dict_get_set, String.eqb_refl. now split. }
  clearbody s1. revert s1 H1.
  induction visits2 as [|v' visits2 IH]; intros s1 H1; cbn [fold_left];
    [exact H1|].
  apply IH.
  - intros w Hw. apply Hlater. now right.
  - destruct (Hlater v' (or_introl eq_refl)) as [Hname|Hskip];
      [|now rewrite Hskip].
    rewrite process_blob_record.
    destruct (record_of bucket_name v') as [[k [t m]]|] eqn:E; [|exact H1].
    apply record_of_some in E as (t' & ty' & _ & _ & [= -> -> ->]).
    cbn. rewrite !dict_get_set.
    destruct (String.eqb_spec (basename (blob_name v')) (basename (blob_name v)));
      [contradiction | exact H1].
Qed.

Lemma last_object_with_a_name_wins_witness :
  dict_get "a.txt"
    (document_contents
       (fst (load_documents_from_gcs "bucket"
               (demo_visits
                ++ {| blob_name := "extracted/new/a.txt";
                      extraction := Returns "A slow red fox";
                      utcnow := "2025-01-02T09:00:00" |}
                   :: [failing_visit; blank_visit]) init)))
  = Some "A slow red fox".
Proof.
  apply (last_object_with_a_name_wins "bucket" demo_visits
           [failing_visit; blank_visit]
           {| blob_name := "extracted/new/a.txt";
              extraction := Returns "A slow red fox";
              utcnow := "2025-01-02T09:00:00" |}
           "A slow red fox" "Plain Text" init).
  - reflexivity.
  - discriminate.
  - intros v' [<-|[<-|[]]]; left; discriminate.
Defined.

Lemma dict_keys_set_app {V : Type} (k : string) (v : V) (d : dict V) :
  exists added, dict_keys (dict_set k v d) = dict_keys d ++ added.
Proof.
  rewrite dict_keys_set. destruct (dict_mem k d).
  - exists []. now rewrite app_nil_r.
  - now exists [k].
Qed.

(** X7. A run never drops a document and never moves one: the keys of
    each store after the run are its keys before, in the same order,
    followed by the new ones. A name that no visited object has as its base
    name, or only objects that are passed over, keeps the text and the
    metadata it had. *)
Theorem run_keeps_earlier_documents
    (bucket_name : string) (visits : list blob_visit) (self : assistant) :
  let self' := fst (load_documents_from_gcs bucket_name visits self) in
  (exists added,
     dict_keys (document_contents self')
     = dict_keys (document_contents self) ++ added)
  /\ (exists added,
        dict_keys (document_metadata self')
        = dict_keys (document_metadata self) ++ added)
  /\ forall k,
       (forall v, In v visits ->
                  basename (blob_name v) <> k
                  \/ forall s, process_blob bucket_name s v = s) ->
       dict_get k (document_contents self') = dict_get k (document_contents self)
       /\ dict_get k (document_metadata self') = dict_get k (document_metadata self).
Proof.
  cbn zeta. unfold load_documents_from_gcs. cbn [fst].
  revert self; induction visits as [|v visits IH]; intros self; cbn [fold_left].
  - split; [exists []; now rewrite app_nil_r|].
    split; [exists []; now rewrite app_nil_r|]. auto.
  - destruct (IH (process_blob bucket_name self v)) as ([a1 H1] & [a2 H2] & H3).
    assert (Hstep :
      (exists added,
         dict_keys (document_contents (process_blob bucket_name self v))
         = dict_keys (document_contents self) ++ added)
      /\ (exists added,
            dict_keys (document_metadata (process_blob bucket_name self v))
            = dict_keys (document_metadata self) ++ added)).
    { rewrite process_blob_record.
      destruct (record_of bucket_name v) as [[k [t m]]|]; cbn.
      - split; apply dict_keys_set_app.
      - split; exists []; now rewrite app_nil_r. }
    destruct Hstep as ([b1 Hb1] & [b2 Hb2]).
    split; [exists (b1 ++ a1); now rewrite H1, Hb1, app_assoc|].
    split; [exists (b2 ++ a2); now rewrite H2, Hb2, app_assoc|].
    intros k Hk.
    destruct (H3 k) as [H4 H5]; [intros w Hw; apply Hk; now right|].
    rewrite H4, H5.
    destruct (Hk v (or_introl eq_refl)) as [Hname|Hskip]; [|now rewrite Hskip].
    rewrite process_blob_record.
    destruct (record_of bucket_name v) as [[k' [t m]]|] eqn:E; [|now split].
    apply record_of_some in E as (t' & ty' & _ & _ & [= -> -> ->]).
    cbn. rewrite !dict_get_set.
    destruct (String.eqb_spec (basename (blob_name v)) k);
      [contradiction | now split].
Qed.

Lemma run_keeps_earlier_documents_witness :
  dict_get "a.txt"
    (document_contents
       (fst (load_documents_from_gcs "other-bucket"
               [ {| blob_name := "extracted/c.txt"; extraction := Returns "Sea";
                    utcnow := "2025-01-03T08:00:00" |}; failing_visit ] demo)))
  = dict_get "a.txt" (document_contents demo).
Proof.
  apply (run_keeps_earlier_documents "other-bucket"
           [ {| blob_name := "extracted/c.txt"; extraction := Returns "Sea";
                utcnow := "2025-01-03T08:00:00" |}; failing_visit ] demo).
  intros v [<-|[<-|[]]]; left; discriminate.
Defined.

Lemma Forall_dict_set {V : Type} (P : string * V -> Prop) (k : string) (v : V)
    (d : dict V) :
  Forall P d -> P (k, v) -> Forall P (dict_set k v d).
Proof.
  intros Hd Hnew. induction Hd as [|[k0 v0] d H0 Hd IH]; simpl.
  - now constructor.
  - destruct (String.eqb_spec k0 k) as [->|Hne]; constructor; assumption.
Qed.

Lemma written_process_blob (bucket_name : string) (self : assistant)
    (v : blob_visit) :
  Forall (fun km => written_by_ingestion (fst km) (snd km))
         (document_metadata self) ->
  Forall (fun km => written_by_ingestion (fst km) (snd km))
         (document_metadata (process_blob bucket_name self v)).
Proof.
  intros H. rewrite process_blob_record.
  destruct (record_of bucket_name v) as [[k [text meta]]|] eqn:E; [|assumption].
  apply record_of_some in E as (text' & ty & Hstep & Hne & [= -> -> ->]).
  cbn. apply Forall_dict_set; [assumption|]. cbn.
  exists bucket_name, (blob_name v), (utcnow v).
  split; [reflexivity|]. split; [|now split].
  unfold extract_step in Hstep. rewrite content_type_of_table in Hstep.
  destruct (dict_get (file_ext_of (blob_name v)) content_types) as [ty0|].
  - destruct (extraction v); simpl in Hstep; [discriminate|].
    injection Hstep as _ <-. reflexivity.
  - injection Hstep as <- _. now elim Hne.
Qed.

(** X8. In every state reached by calls of the public methods, each
    metadata entry is one that ingesting an object writes: its key is the
    base name of an object, its path is [gs://], the bucket, a slash and
    the object's name, its type is the one the table gives for the
    object's lower-cased extension, hence one of the six content types and
    never [Unknown], and its time stamp ends in [Z]. *)
Theorem metadata_written_by_ingestion (calls : list call) :
  let self := run calls init in
  forall k meta,
    dict_get k (document_metadata self) = Some meta ->
    written_by_ingestion k meta
    /\ In (Meta.type meta)
          [ "Audio Transcript"; "Video Transcript"; "PDF Document";
            "Word Document"; "PowerPoint Presentation"; "Plain Text" ].
Proof.
  cbn zeta.
  assert (Hinv : Forall (fun km => written_by_ingestion (fst km) (snd km))
                        (document_metadata (run calls init))).
  { unfold run.
    assert (Hgen : forall s,
              Forall (fun km => written_by_ingestion (fst km) (snd km))
                     (document_metadata s) ->
              Forall (fun km => written_by_ingestion (fst km) (snd km))
                     (document_metadata
                        (fold_left (fun s c => fst (step s c)) calls s))).
    { induction calls as [|c calls IH]; intros s Hs; cbn [fold_left];
        [assumption|].
      apply IH. destruct c; cbn; try assumption.
      clear IH. revert s Hs.
      induction visits as [|v visits IHv]; intros s Hs; cbn [fold_left];
        [assumption|].
      apply IHv. now apply written_process_blob. }
    apply Hgen. constructor. }
  intros k meta Hget. apply dict_get_in in Hget.
  rewrite Forall_forall in Hinv. specialize (Hinv _ Hget). cbn in Hinv.
  split; [exact Hinv|].
  destruct Hinv as (b & o & t & _ & Hty & _).
  apply dict_get_in in Hty. revert Hty. generalize (file_ext_of o).
  intros ext. cbn.
  intros H;
    repeat (destruct H as [H|H]; [injection H as _ <-; tauto|]); destruct H.
Qed.

Lemma metadata_written_by_ingestion_witness :
  written_by_ingestion "b.txt"
    {| Meta.type := "Plain Text"; Meta.size_chars := 15;
       Meta.gcs_path := "gs://bucket/extracted/b.txt";
       Meta.processed_at := "2025-01-01T10:00:01Z" |}.
Proof.
  apply (metadata_written_by_ingestion
           [LoadDocuments "bucket" demo_visits; ListDocuments]).
  reflexivity.
Defined.

(* ------------------------------------------------------------------ *)
(** * The helpers in reachable states *)
(* ------------------------------------------------------------------ *)

Lemma context_length_bound (self : assistant) (query context : string)
    (max_context_len : Z) :
  create_context_from_documents self query max_context_len = Returns context ->
  (Z.of_nat (String.length context) <= Z.max 20 (max_context_len - 98))%Z.
Proof.
  destruct (empty_or_not (document_contents self)) as [Hdocs|Hdocs].
  - rewrite create_context_empty by assumption. intros [= <-]. simpl. lia.
  - rewrite create_context_nonempty by assumption.
    destruct (rank_documents self query) as [e|ranked]; simpl; [discriminate|].
    intros [= <-].
    pose proof (assemble_bound max_context_len ranked context_start) as H.
    now rewrite context_start_length in H.
Qed.

Lemma run_consistent (calls : list call) : consistent (run calls init).
Proof. apply reachable_consistent. now exists calls. Qed.

(** X9. In every reachable state the listing has one entry for each
    document, in corpus order, and the [size_chars] it reports is the
    length of the text stored under that name. *)
Theorem listing_reports_true_sizes (calls : list call) :
  let self := run calls init in
  Forall2
    (fun info doc =>
       Info.name info = fst doc
       /\ Info.size_chars info = String.length (snd doc))
    (list_documents self) (document_contents self).
Proof.
  cbn zeta. destruct (run_consistent calls) as [_ H]. unfold list_documents.
  induction H as [|[k text] [k' meta] docs metas (Hk & Hsize & _) _ IH];
    simpl; constructor; [|exact IH].
  simpl in *. now split.
Qed.

Lemma listing_reports_true_sizes_witness :
  Forall2
    (fun info doc =>
       Info.name info = fst doc
       /\ Info.size_chars info = String.length (snd doc))
    (list_documents demo) (document_contents demo).
Proof.
  apply (listing_reports_true_sizes [LoadDocuments "bucket" demo_visits]).
Defined.

Lemma consistent_total_chars (self : assistant) :
  consistent self ->
  list_sum (map String.length (dict_values (document_contents self)))
  = list_sum (map Info.size_chars (list_documents self)).
Proof.
  intros [_ H]. unfold list_documents, dict_values.
  induction H as [|[k text] [k' meta] docs metas (_ & Hsize & _) _ IH];
    simpl; [reflexivity|].
  simpl in Hsize. now rewrite IH, Hsize.
Qed.

Lemma consistent_count (self : assistant) :
  consistent self ->
  List.length (document_contents self) = List.length (list_documents self).
Proof.
  intros H. pose proof (consistent_keys self H) as Hk.
  apply (f_equal (@List.length string)) in Hk. unfold dict_keys in Hk.
  rewrite !length_map in Hk. unfold list_documents. now rewrite length_map.
Qed.

(** X10. In every reachable state the summary call returns. On an empty
    corpus it gives the fixed sentence and nothing else. Otherwise the
    context it assembles has at most 11902 characters; when the model
    returns a text, the result carries that text trimmed, the number of
    listed documents, the sum of their [size_chars], and their types
    without repetition; when the model raises, the result carries only the
    error sentence with the detail. *)
Theorem summary_outcomes (calls : list call) (generate : model) :
  let self := run calls init in
  exists result,
    get_document_summary self generate = Returns result
    /\ (document_contents self = [] ->
        result = {| Summary.summary := "No documents loaded";
                    Summary.document_count := None;
                    Summary.total_chars := None;
                    Summary.document_types := None |})
    /\ (document_contents self <> [] ->
        exists context,
          create_context_from_documents self "summary overview" 12000
          = Returns context
          /\ (Z.of_nat (String.length context) <= 11902)%Z
          /\ (forall text,
                generate (summary_prompt context) = Returns text ->
                Summary.summary result = PyStr.strip text
                /\ Summary.document_count result
                   = Some (List.length (list_documents self))
                /\ Summary.total_chars result
                   = Some (list_sum (map Info.size_chars (list_documents self)))
                /\ exists types,
                     Summary.document_types result = Some types
                     /\ NoDup types
                     /\ forall ty, In ty types
                                   <-> In ty (map Info.type (list_documents self)))
          /\ (forall exc,
                generate (summary_prompt context) = Raises exc ->
                result = {| Summary.summary := "Error generating summary: " ++ exc;
                            Summary.document_count := None;
                            Summary.total_chars := None;
                            Summary.document_types := None |})).
Proof.
  cbn zeta. set (self := run calls init).
  pose proof (run_consistent calls) as Hcons. fold self in Hcons.
  pose proof (consistent_covered self Hcons) as Hcov.
  destruct (create_context_returns self Hcov "summary overview" 12000)
    as [context Hctx].
  pose proof (context_length_bound _ _ _ _ Hctx) as Hbound.
  unfold get_document_summary. rewrite Hctx. cbn [bind].
  destruct (document_contents self) as [|doc docs] eqn:Hdocs.
  - eexists. split; [reflexivity|]. split; [reflexivity | congruence].
  - rewrite <- Hdocs.
    destruct (generate (summary_prompt context)) as [exc|text] eqn:Hgen.
    + eexists. split; [reflexivity|]. split; [rewrite Hdocs; discriminate|].
      intros _. exists context. split; [reflexivity|]. split; [lia|].
      rewrite Hgen. split; [discriminate|]. now intros exc' [= <-].
    + eexists. split; [reflexivity|]. split; [rewrite Hdocs; discriminate|].
      intros _. exists context. split; [reflexivity|]. split; [lia|].
      rewrite Hgen. split; [|discriminate]. intros text' [= <-]. cbn.
      split; [reflexivity|].
      split; [now rewrite consistent_count|].
      split; [now rewrite consistent_total_chars|].
      eexists. split; [reflexivity|]. split; [apply NoDup_nodup|].
      intros ty. rewrite nodup_In. unfold list_documents, dict_values.
      rewrite !map_map.
      replace (map (fun x : string * Meta.t => Meta.type (snd x))
                   (document_metadata self))
        with (map (fun x : string * Meta.t =>
                     Info.type
                       (let '(name, meta) := x in
                        {| Info.name := name;
                           Info.type := Meta.type meta;
                           Info.size_chars := Meta.size_chars meta;
                           Info.processed_at := Meta.processed_at meta;
                           Info.gcs_path := Meta.gcs_path meta |}))
                  (document_metadata self))
        by (apply map_ext; now intros [n m]).
      reflexivity.
Qed.

Lemma summary_outcomes_witness :
  exists result,
    get_document_summary demo helpful_model = Returns result
    /\ Summary.total_chars result = Some 34
    /\ Summary.document_count result = Some 2.
Proof.
  destruct (summary_outcomes [LoadDocuments "bucket" demo_visits] helpful_model)
    as (result & Hrun & _ & Hfull).
  destruct Hfull as (context & _ & _ & Hok & _); [discriminate|].
  destruct (Hok "  A fox.  " eq_refl) as (_ & Hcount & Htotal & _).
  exists result. split; [exact Hrun|]. split; [exact Htotal | exact Hcount].
Defined.

(** X11. In every reachable state a question gets an answer: the call
    returns. The confidence is [low], [high] or [error]: [low] exactly on
    an empty corpus; with [high] the sources are all the keys of the
    corpus, at least one, [documents_used] is their number and the context
    length is at most 7902; otherwise there are no sources and no
    diagnostics. On a non-empty corpus the model is asked with a prompt of
    at most 8149 characters more than the question, and its text, trimmed,
    or the detail of its failure, is what the answer carries. *)
Theorem ask_question_outcomes
    (calls : list call) (generate : model) (question : string) :
  let self := run calls init in
  exists a,
    ask_question self generate question = Returns a
    /\ In (Answer.confidence a) ["low"; "high"; "error"]
    /\ (Answer.confidence a = "low" <-> document_contents self = [])
    /\ (Answer.confidence a = "high" ->
        Answer.sources a = dict_keys (document_contents self)
        /\ Answer.sources a <> []
        /\ Answer.documents_used a = Some (List.length (Answer.sources a))
        /\ exists n, Answer.context_length a = Some n /\ (Z.of_nat n <= 7902)%Z)
    /\ (Answer.confidence a <> "high" ->
        Answer.sources a = []
        /\ Answer.context_length a = None
        /\ Answer.documents_used a = None)
    /\ (document_contents self <> [] ->
        exists prompt,
          (Z.of_nat (String.length prompt)
           <= Z.of_nat (String.length question) + 8149)%Z
          /\ (forall text,
                generate prompt = Returns text ->
                Answer.answer a = PyStr.strip text
                /\ Answer.confidence a = "high")
          /\ (forall exc,
                generate prompt = Raises exc ->
                Answer.answer a = ("Error generating response: " ++ exc)%string
                /\ Answer.confidence a = "error")).
Proof.
  cbn zeta. set (self := run calls init).
  pose proof (run_consistent calls) as Hcons. fold self in Hcons.
  pose proof (consistent_covered self Hcons) as Hcov.
  destruct (empty_or_not (document_contents self)) as [Hdocs|Hdocs].
  - unfold ask_question. rewrite Hdocs. eexists. split; [reflexivity|]. cbn.
    split; [now left|]. split; [tauto|]. split; [discriminate|].
    split; [auto | congruence].
  - destruct (create_context_returns self Hcov question 8000) as [context Hctx].
    pose proof (context_length_bound _ _ _ _ Hctx) as Hbound.
    rewrite (ask_question_unfold self generate question context Hdocs Hctx).
    assert (Hprompt : (Z.of_nat (String.length (question_prompt question context))
                       <= Z.of_nat (String.length question) + 8149)%Z).
    { unfold question_prompt. rewrite !length_append.
      cbn [String.length PyStr.nl]. lia. }
    assert (Hkeys : dict_keys (document_contents self) <> []).
    { unfold dict_keys. destruct (document_contents self); [congruence|].
      discriminate. }
    destruct (generate (question_prompt question context)) as [exc|text] eqn:Hgen;
      eexists; (split; [reflexivity|]); cbn.
    + split; [tauto|]. split; [split; [discriminate | contradiction]|].
      split; [discriminate|]. split; [auto|]. intros _.
      exists (question_prompt question context).
      split; [exact Hprompt|]. rewrite Hgen.
      split; [discriminate | now intros exc' [= <-]].
    + split; [tauto|]. split; [split; [discriminate | contradiction]|].
      split.
      { intros _. repeat split; try assumption.
        exists (String.length context). split; [reflexivity | lia]. }
      split; [congruence|]. intros _.
      exists (question_prompt question context).
      split; [exact Hprompt|]. rewrite Hgen.
      split; [now intros text' [= <-] | discriminate].
Qed.

Lemma ask_question_outcomes_witness :
  exists a,
    ask_question demo failing_model "fox" = Returns a
    /\ In (Answer.confidence a) ["low"; "high"; "error"]
    /\ (Answer.confidence a = "low" <-> document_contents demo = []).
Proof.
  destruct (ask_question_outcomes [LoadDocuments "bucket" demo_visits]
              failing_model "fox") as (a & H1 & H2 & H3 & _).
  exists a. split; [exact H1|]. split; [exact H2 | exact H3].
Defined.

(* ------------------------------------------------------------------ *)
(** * The extraction adapter *)
(* ------------------------------------------------------------------ *)

Lemma rstrip_cons (c : ascii) (s : string) :
  PyStr.rstrip s <> "" ->
  PyStr.rstrip (String c s) = String c (PyStr.rstrip s).
Proof.
  intros H. cbn [PyStr.rstrip]. destruct (PyStr.rstrip s); congruence.
Qed.

Lemma rstrip_twice (s : string) : PyStr.rstrip (PyStr.rstrip s) = PyStr.rstrip s.
Proof.
  induction s as [|c s IH]; [reflexivity|].
  destruct (PyStr.rstrip s) as [|d r] eqn:E.
  - cbn [PyStr.rstrip]. rewrite E.
    destruct (PyStr.isspace c) eqn:Hc; [reflexivity|].
    cbn [PyStr.rstrip]. now rewrite Hc.
  - rewrite (rstrip_cons c s) by (rewrite E; discriminate).
    rewrite E. rewrite rstrip_cons by (rewrite IH; discriminate).
    now rewrite IH.
Qed.

Lemma lstrip_head (s : string) :
  match PyStr.lstrip s with
  | EmptyString => True
  | String c _ => PyStr.isspace c = false
  end.
Proof.
  induction s as [|c s IH]; simpl; [exact I|].
  destruct (PyStr.isspace c) eqn:E; [exact IH | exact E].
Qed.

Lemma rstrip_head (c : ascii) (s : string) :
  PyStr.isspace c = false ->
  exists r, PyStr.rstrip (String c s) = String c r.
Proof.
  intros Hc. cbn [PyStr.rstrip].
  destruct (PyStr.rstrip s); [rewrite Hc|]; eexists; reflexivity.
Qed.

(** Trimming a trimmed text changes nothing. *)
Lemma strip_twice (s : string) : PyStr.strip (PyStr.strip s) = PyStr.strip s.
Proof.
  unfold PyStr.strip.
  assert (H : PyStr.lstrip (PyStr.rstrip (PyStr.lstrip s))
              = PyStr.rstrip (PyStr.lstrip s)).
  { pose proof (lstrip_head s) as Hh.
    destruct (PyStr.lstrip s) as [|c t]; [reflexivity|].
    destruct (rstrip_head c t Hh) as [r ->]. simpl. now rewrite Hh. }
  rewrite H. apply rstrip_twice.
Qed.

Lemma or_empty_trimmed {A : Type} (body : outcome A) (text_of : A -> string) :
  PyStr.strip
    (DataExtractor.or_empty (a <- body ;; Returns (PyStr.strip (text_of a))))
  = DataExtractor.or_empty (a <- body ;; Returns (PyStr.strip (text_of a))).
Proof.
  destruct body as [e|a]; simpl; [reflexivity | apply strip_twice].
Qed.

(** X12. Whatever its backend does, each of the six extractors returns a
    text without whitespace at either end: trimming the result gives the
    result. So a text an extractor returns is stored exactly when it is
    not empty. *)
Theorem extractors_return_trimmed_text :
  (forall recognize,
     PyStr.strip (DataExtractor.extract_from_audio recognize)
     = DataExtractor.extract_from_audio recognize)
  /\ (forall annotate,
        PyStr.strip (DataExtractor.extract_from_video annotate)
        = DataExtractor.extract_from_video annotate)
  /\ (forall pdf_extract_text,
        PyStr.strip (DataExtractor.extract_from_pdf pdf_extract_text)
        = DataExtractor.extract_from_pdf pdf_extract_text)
  /\ (forall document,
        PyStr.strip (DataExtractor.extract_from_docx document)
        = DataExtractor.extract_from_docx document)
  /\ (forall presentation,
        PyStr.strip (DataExtractor.extract_from_pptx presentation)
        = DataExtractor.extract_from_pptx presentation)
  /\ (forall read,
        PyStr.strip (DataExtractor.extract_from_txt read)
        = DataExtractor.extract_from_txt read).
Proof.
  repeat split.
  - intros [e|results]; [reflexivity|].
    unfold DataExtractor.extract_from_audio. cbn [bind].
    apply (or_empty_trimmed (map_outcome DataExtractor.first results)
             (PyStr.join " ")).
  - intros [e|results]; [reflexivity|].
    unfold DataExtractor.extract_from_video. cbn [bind].
    apply (or_empty_trimmed
             (map_outcome DataExtractor.first (List.concat results))
             (PyStr.join " ")).
  - intros r. apply (or_empty_trimmed r (fun text => text)).
  - intros [e|ps]; [reflexivity|]. simpl. apply strip_twice.
  - intros [e|slides]; [reflexivity|]. simpl. apply strip_twice.
  - intros r. apply (or_empty_trimmed r (fun text => text)).
Qed.

Lemma extractors_return_trimmed_text_witness :
  PyStr.strip (DataExtractor.extract_from_docx
                 (Returns ["  Title "; "   "; " body text  "]))
  = DataExtractor.extract_from_docx (Returns ["  Title "; "   "; " body text  "]).
Proof.
  apply extractors_return_trimmed_text.
Defined.

Lemma map_first_all {A : Type} (results : list (list A)) (d : A) :
  Forall (fun alternatives => alternatives <> []) results ->
  map_outcome DataExtractor.first results
  = Returns (map (fun alternatives => List.hd d alternatives) results).
Proof.
  induction 1 as [|alts results Hne _ IH]; simpl; [reflexivity|].
  destruct alts as [|x alts]; [congruence|]. simpl. now rewrite IH.
Qed.

Lemma map_first_missing {A : Type} (results : list (list A)) :
  In [] results ->
  exists detail, map_outcome DataExtractor.first results = Raises detail.
Proof.
  induction results as [|alts results IH]; simpl; [tauto|].
  intros [->|Hin]; [now eexists|].
  destruct alts as [|x alts]; simpl; [now eexists|].
  destruct (IH Hin) as [detail ->]. now eexists.
Qed.

(** X13. The transcript of an audio or video object is the first
    alternative of every result, joined by single spaces and trimmed; but
    one result without any alternative loses the whole transcript: the
    extractor then returns the empty string, whatever the other results
    hold. *)
Theorem missing_alternative_loses_transcript :
  (forall results,
     (Forall (fun alternatives => alternatives <> []) results ->
      DataExtractor.extract_from_audio (Returns results)
      = PyStr.strip (PyStr.join " " (map (List.hd "") results)))
     /\ (In [] results ->
         DataExtractor.extract_from_audio (Returns results) = ""))
  /\ (forall annotation_results,
        (Forall (fun alternatives => alternatives <> [])
                (List.concat annotation_results) ->
         DataExtractor.extract_from_video (Returns annotation_results)
         = PyStr.strip
             (PyStr.join " " (map (List.hd "") (List.concat annotation_results))))
        /\ (In [] (List.concat annotation_results) ->
            DataExtractor.extract_from_video (Returns annotation_results) = "")).
Proof.
  split; intros results; split; intros H;
    unfold DataExtractor.extract_from_audio, DataExtractor.extract_from_video;
    cbn [bind].
  - now rewrite (map_first_all results "" H).
  - destruct (map_first_missing results H) as [detail ->]. reflexivity.
  - now rewrite (map_first_all (List.concat results) "" H).
  - destruct (map_first_missing (List.concat results) H) as [detail ->].
    reflexivity.
Qed.

Lemma missing_alternative_loses_transcript_witness :
  DataExtractor.extract_from_audio
    (Returns [["good morning"; "good mourning"]; []; ["everyone"]]) = ""
  /\ DataExtractor.extract_from_video
       (Returns [[["good morning"]; ["everyone "]]; [["thanks"; "tanks"]]])
     = "good morning everyone  thanks".
Proof.
  split.
  - apply missing_alternative_loses_transcript. simpl. tauto.
  - apply (proj2 missing_alternative_loses_transcript
             [[["good morning"]; ["everyone "]]; [["thanks"; "tanks"]]]).
    repeat constructor; discriminate.
Defined.

(* ------------------------------------------------------------------ *)
(** * The download helper *)
(* ------------------------------------------------------------------ *)

Lemma split_on_cons (sep : ascii) (s : string) :
  exists w ws, split_on sep s = w :: ws.
Proof.
  induction s as [|c s (w & ws & IH)]; simpl; [now eexists; eexists|].
  destruct (Ascii.eqb c sep); [now eexists; eexists|].
  rewrite IH. now eexists; eexists.
Qed.

(** Joining the pieces with the separator gives the text back. *)
Lemma join_split_on (sep : ascii) (s : string) :
  PyStr.join (String sep "") (split_on sep s) = s.
Proof.
  unfold PyStr.join.
  induction s as [|c s IH]; [reflexivity|].
  cbn [split_on].
  destruct (split_on_cons sep s) as (w & ws & Hs). rewrite Hs in IH |- *.
  destruct (Ascii.eqb_spec c sep) as [->|Hne].
  - change (String.concat (String sep "") ("" :: w :: ws))
      with (String sep (String.concat (String sep "") (w :: ws))).
    now rewrite IH.
  - destruct ws as [|w' ws].
    + cbn [String.concat] in IH |- *. now rewrite IH.
    + change (String.concat (String sep "") (String c w :: w' :: ws))
        with (String c (String.concat (String sep "") (w :: w' :: ws))).
      now rewrite IH.
Qed.

Lemma split_on_piece (sep : ascii) (b rest : string) :
  has_char sep b = false ->
  split_on sep (b ++ String sep rest) = b :: split_on sep rest.
Proof.
  unfold has_char. induction b as [|c b IH]; simpl.
  - intros _. now rewrite Ascii.eqb_refl.
  - rewrite orb_false_iff, (Ascii.eqb_sym sep c). intros [-> Hb].
    now rewrite IH.
Qed.

Lemma split_on_first_piece (sep : ascii) (s : string) :
  match split_on sep s with
  | w :: _ => has_char sep w = false
  | [] => False
  end.
Proof.
  unfold has_char. induction s as [|c s IH]; simpl; [reflexivity|].
  destruct (Ascii.eqb_spec c sep) as [->|Hne]; [reflexivity|].
  destruct (split_on sep s) as [|w ws]; [contradiction|]. simpl.
  rewrite IH, orb_false_r. apply Ascii.eqb_neq. congruence.
Qed.

(** X14. The download helper refuses a URI that does not start with
    [gs://], with a [ValueError] that names it, and asks for no file
    then. For any other URI the unpacking of the pieces never fails: the
    bucket is the text up to the first slash after [gs://], the object is
    all that follows that slash, and the download is asked for exactly
    them. In particular the URI the ingestion writes for an object,
    [gs://], the bucket, a slash and the object's name, is read back as
    that bucket and that object. *)
Theorem download_reads_bucket_and_object
    (tempfile : outcome string)
    (download : string -> string -> string -> outcome unit)
    (gcs_uri : string) :
  (prefix "gs://" gcs_uri = false ->
   download_to_temp tempfile download gcs_uri
   = Raises ("Invalid GCS URI: " ++ gcs_uri))
  /\ (prefix "gs://" gcs_uri = true ->
      exists bucket_name object_parts,
        gcs_uri = ("gs://" ++ PyStr.join "/" (bucket_name :: object_parts))%string
        /\ has_char "/" bucket_name = false
        /\ download_to_temp tempfile download gcs_uri
           = (tmp_name <- tempfile ;;
              _ <- download bucket_name (PyStr.join "/" object_parts) tmp_name ;;
              Returns tmp_name))
  /\ (forall bucket_name object_name,
        has_char "/" bucket_name = false ->
        gcs_uri = ("gs://" ++ bucket_name ++ "/" ++ object_name)%string ->
        download_to_temp tempfile download gcs_uri
        = (tmp_name <- tempfile ;;
           _ <- download bucket_name object_name tmp_name ;;
           Returns tmp_name)).
Proof.
  unfold download_to_temp. split; [now intros ->|]. split.
  - intros Hp. rewrite Hp. cbn [negb].
    apply prefix_spec in Hp as [rest ->].
    change ("gs://" ++ rest)%string
      with ("gs:" ++ String "/" ("" ++ String "/" rest))%string.
    rewrite !split_on_piece by reflexivity.
    pose proof (split_on_first_piece "/" rest) as Hfirst.
    pose proof (join_split_on "/" rest) as Hjoin.
    destruct (split_on "/" rest) as [|bucket_name object_parts];
      [contradiction|].
    exists bucket_name, object_parts. split; [|now split].
    cbn [append]. now rewrite Hjoin.
  - intros bucket_name object_name Hb ->.
    assert (Hp : prefix "gs://" ("gs://" ++ bucket_name ++ "/" ++ object_name)
                 = true) by (apply prefix_spec; eexists; reflexivity).
    rewrite Hp. cbn [negb].
    change ("gs://" ++ bucket_name ++ "/" ++ object_name)%string
      with ("gs:" ++ String "/" ("" ++ String "/"
                                   (bucket_name ++ String "/" object_name)))%string.
    rewrite !split_on_piece by (reflexivity || assumption).
    destruct (split_on_cons "/" object_name) as (w & ws & Hs).
    pose proof (join_split_on "/" object_name) as Hjoin.
    rewrite Hs in *. now rewrite Hjoin.
Qed.

Lemma download_reads_bucket_and_object_witness :
  download_to_temp (Returns "/tmp/tmpab12")
    (fun bucket_name object_name _ =>
       if String.eqb bucket_name "bucket"
          && String.eqb object_name "extracted/talks/a.mp3"
       then Returns tt else Raises "404 Not Found")
    "gs://bucket/extracted/talks/a.mp3"
  = Returns "/tmp/tmpab12"
  /\ download_to_temp (Returns "/tmp/tmpab12") (fun _ _ _ => Returns tt)
       "https://bucket/extracted/a.mp3"
     = Raises "Invalid GCS URI: https://bucket/extracted/a.mp3".
Proof.
  split.
  - rewrite (proj2 (proj2 (download_reads_bucket_and_object _ _ _))
               "bucket" "extracted/talks/a.mp3"); reflexivity.
  - apply download_reads_bucket_and_object. reflexivity.
Defined.

(** [split(sep)[-1]], as the ingestion uses it, is the last piece of
    [split_on]. *)
Lemma split_on_single (sep : ascii) (s : string) :
  has_char sep s = false -> split_on sep s = [s].
Proof.
  unfold has_char. induction s as [|c s IH]; simpl; [reflexivity|].
  rewrite orb_false_iff, (Ascii.eqb_sym sep c). intros [-> Hs].
  now rewrite IH.
Qed.

Lemma split_on_several (sep : ascii) (s : string) :
  has_char sep s = true -> exists w w' ws, split_on sep s = w :: w' :: ws.
Proof.
  unfold has_char. induction s as [|c s IH]; simpl; [discriminate|].
  rewrite (Ascii.eqb_sym sep c).
  destruct (Ascii.eqb c sep); simpl.
  - intros _. destruct (split_on_cons sep s) as (w & ws & ->).
    now exists "", w, ws.
  - intros H. destruct (IH H) as (w & w' & ws & ->).
    now exists (String c w), w', ws.
Qed.

Lemma after_last_is_last_piece (sep : ascii) (s : string) :
  PyStr.after_last sep s = List.last (split_on sep s) "".
Proof.
  induction s as [|c s IH]; [reflexivity|].
  cbn [PyStr.after_last split_on].
  destruct (Ascii.eqb c sep).
  - rewrite IH. destruct (split_on_cons sep s) as (w & ws & ->). reflexivity.
  - change (existsb (Ascii.eqb sep) (list_ascii_of_string s))
      with (has_char sep s).
    destruct (has_char sep s) eqn:E.
    + rewrite IH. destruct (split_on_several sep s E) as (w & w' & ws & ->).
      reflexivity.
    + now rewrite (split_on_single sep s E).
Qed.

(* ------------------------------------------------------------------ *)
(** * More on the context assembly *)
(* ------------------------------------------------------------------ *)

Lemma score_of_same_terms (terms1 terms2 : list string) (content : string) :
  NoDup terms1 -> NoDup terms2 ->
  (forall t, In t terms1 <-> In t terms2) ->
  score_of terms1 content = score_of terms2 content.
Proof.
  intros H1 H2 Hsame. rewrite !score_of_filter.
  apply Permutation_length, NoDup_Permutation; try now apply NoDup_filter.
  intros t. rewrite !filter_In, Hsame. reflexivity.
Qed.

Lemma score_documents_same_scores (self : assistant) (terms1 terms2 : list string)
    (items : list (string * string)) :
  (forall content, score_of terms1 content = score_of terms2 content) ->
  score_documents self terms1 items = score_documents self terms2 items.
Proof.
  intros H. induction items as [|[n c] rest IH]; simpl; [reflexivity|].
  now rewrite H, IH.
Qed.

(** X15. The context depends on the query only through the set of its
    lower-cased words: two queries with the same words, in whatever
    order, letter case and number of repetitions, get the same ranked
    list and the same context (or the same exception). In particular a
    query and its lower-cased form do. *)
Theorem context_depends_on_term_set
    (self : assistant) (query1 query2 : string) (max_context_len : Z) :
  (forall t, In t (query_terms query1) <-> In t (query_terms query2)) ->
  rank_documents self query1 = rank_documents self query2
  /\ create_context_from_documents self query1 max_context_len
     = create_context_from_documents self query2 max_context_len
  /\ create_context_from_documents self (PyStr.lower query1) max_context_len
     = create_context_from_documents self query1 max_context_len.
Proof.
  intros Hsame.
  assert (Hrank : rank_documents self query1 = rank_documents self query2).
  { unfold rank_documents.
    rewrite (score_documents_same_scores self (query_terms query1)
               (query_terms query2)); [reflexivity|].
    intros content. apply score_of_same_terms;
      [apply query_terms_NoDup | apply query_terms_NoDup | exact Hsame]. }
  split; [exact Hrank|]. split.
  - unfold create_context_from_documents. now rewrite Hrank.
  - unfold create_context_from_documents, rank_documents, query_terms.
    now rewrite lower_twice.
Qed.

Lemma context_depends_on_term_set_witness :
  create_context_from_documents demo "Dogs FOX  dogs" 8000
  = create_context_from_documents demo "fox dogs" 8000.
Proof.
  apply (context_depends_on_term_set demo "Dogs FOX  dogs" "fox dogs" 8000).
  intros t. simpl. tauto.
Defined.

Lemma length_whole_entry (doc : Cand.t) :
  String.length (whole_entry doc)
  = String.length (header doc) + String.length (Cand.content doc) + 2.
Proof. unfold whole_entry. rewrite !length_append. simpl. lia. Qed.

Lemma assemble_whole (max_context_len : Z) (ranked : list Cand.t)
    (context : string) :
  (Z.of_nat (String.length context)
   + Z.of_nat (String.length (whole_entries ranked)) + 99
   <= max_context_len)%Z ->
  assemble max_context_len ranked context
  = (context ++ whole_entries ranked)%string.
Proof.
  revert context; induction ranked as [|doc rest IH]; intros context H;
    cbn [assemble whole_entries] in *.
  - now rewrite append_empty_r.
  - rewrite length_append, length_whole_entry in H.
    unfold remaining_for.
    destruct (Z.leb_spec
                (max_context_len - Z.of_nat (String.length context)
                 - Z.of_nat (String.length (header doc)) - 100) 0); [lia|].
    assert (Hentry : entry doc
                       (max_context_len - Z.of_nat (String.length context)
                        - Z.of_nat (String.length (header doc)) - 100)
                     = whole_entry doc).
    { unfold entry, whole_entry, PyStr.slice_to, PyStr.clamp.
      destruct (Z.ltb_spec
                  (max_context_len - Z.of_nat (String.length context)
                   - Z.of_nat (String.length (header doc)) - 100) 0); [lia|].
      rewrite take_all by lia. reflexivity. }
    rewrite Hentry, IH.
    + now rewrite append_assoc.
    + rewrite length_append, length_whole_entry. lia.
Qed.

(** X16. A budget that exceeds the length of the untruncated context by
    99 or more truncates nothing: when the ranking returns and the opening
    line with every ranked document's header, whole text and two newlines
    fits in [max_context_len - 99] characters, the context is exactly
    that. *)
Theorem ample_budget_keeps_whole_texts
    (self : assistant) (query : string) (max_context_len : Z)
    (ranked : list Cand.t) :
  document_contents self <> [] ->
  rank_documents self query = Returns ranked ->
  (Z.of_nat (String.length (whole_context ranked)) + 99 <= max_context_len)%Z ->
  create_context_from_documents self query max_context_len
  = Returns (whole_context ranked).
Proof.
  intros Hdocs Hrank Hfit.
  rewrite create_context_nonempty, Hrank by assumption. cbn [bind].
  unfold whole_context in *. rewrite length_append in Hfit.
  rewrite assemble_whole by lia. reflexivity.
Qed.

Lemma ample_budget_keeps_whole_texts_witness :
  create_context_from_documents demo "fox dogs" 211
  = Returns
      (whole_context
         [ {| Cand.name := "a.txt"; Cand.content := "The quick brown fox";
              Cand.score := 1; Cand.type := "Plain Text" |};
           {| Cand.name := "b.txt"; Cand.content := "Lazy dogs sleep";
              Cand.score := 1; Cand.type := "Plain Text" |} ]).
Proof.
  apply (ample_budget_keeps_whole_texts demo "fox dogs" 211);
    [discriminate | reflexivity | vm_compute; discriminate].
Defined.

Lemma assemble_extends (max_context_len : Z) (ranked : list Cand.t)
    (context : string) :
  String.length context
  <= String.length (assemble max_context_len ranked context).
Proof. rewrite assemble_entries, length_append. lia. Qed.

Lemma assemble_monotone (m m' : Z) (ranked : list Cand.t) (context context' : string) :
  (0 <= Z.of_nat (String.length context') - Z.of_nat (String.length context)
   <= m' - m)%Z ->
  (exists more,
     map fst (included m' ranked context')
     = map fst (included m ranked context) ++ more)
  /\ String.length (assemble m ranked context)
     <= String.length (assemble m' ranked context').
Proof.
  revert context context'.
  induction ranked as [|doc rest IH]; intros context context' H;
    cbn [assemble included].
  - split; [now exists [] | lia].
  - unfold remaining_for.
    set (h := Z.of_nat (String.length (header doc))).
    set (r := (m - Z.of_nat (String.length context) - h - 100)%Z).
    set (r' := (m' - Z.of_nat (String.length context') - h - 100)%Z).
    destruct (Z.leb_spec r 0) as [Hr|Hr].
    + split; [eexists; reflexivity|].
      destruct (Z.leb_spec r' 0) as [Hr'|Hr']; [lia|].
      etransitivity; [|apply assemble_extends]. rewrite length_append. lia.
    + destruct (Z.leb_spec r' 0) as [Hr'|Hr']; [unfold r, r' in *; lia|].
      destruct (IH (context ++ entry doc r)%string (context' ++ entry doc r')%string)
        as [[more Hmore] Hlen].
      { rewrite !length_append, !length_entry, !length_slice_to by lia.
        unfold r, r', h in *. lia. }
      split; [|exact Hlen].
      exists more. cbn [map fst app]. now rewrite Hmore.
Qed.

(** X17. A larger budget never gives less: when the call returns a context
    under a budget, it returns one under any larger budget, at least as
    long, and the documents it holds under the smaller budget are the
    first ones it holds under the larger. *)
Theorem larger_budget_never_shrinks_context
    (self : assistant) (query context : string) (m m' : Z) :
  (m <= m')%Z ->
  create_context_from_documents self query m = Returns context ->
  exists context',
    create_context_from_documents self query m' = Returns context'
    /\ String.length context <= String.length context'
    /\ forall ranked,
         rank_documents self query = Returns ranked ->
         exists more,
           map fst (included m' ranked context_start)
           = map fst (included m ranked context_start) ++ more.
Proof.
  intros Hle Hrun.
  assert (Hmono : forall ranked,
            (exists more,
               map fst (included m' ranked context_start)
               = map fst (included m ranked context_start) ++ more)
            /\ String.length (assemble m ranked context_start)
               <= String.length (assemble m' ranked context_start))
    by (intros ranked; apply assemble_monotone; lia).
  destruct (empty_or_not (document_contents self)) as [Hdocs|Hdocs].
  - rewrite create_context_empty in Hrun |- * by assumption.
    injection Hrun as <-. eexists. split; [reflexivity|]. split; [lia|].
    intros ranked _. apply Hmono.
  - rewrite create_context_nonempty in Hrun |- * by assumption.
    destruct (rank_documents self query) as [e|ranked]; [discriminate|].
    cbn [bind] in *. injection Hrun as <-.
    eexists. split; [reflexivity|]. split; [apply Hmono|].
    intros ranked' _. apply Hmono.
Qed.

Lemma larger_budget_never_shrinks_context_witness :
  exists context',
    create_context_from_documents demo "fox dogs" 8000 = Returns context'
    /\ String.length
         (context_start ++ "=== a.txt (Plain Text) ===" ++ PyStr.nl
          ++ "The quick bro" ++ PyStr.nl ++ PyStr.nl)
       <= String.length context'.
Proof.
  destruct (larger_budget_never_shrinks_context demo "fox dogs"
              (context_start ++ "=== a.txt (Plain Text) ===" ++ PyStr.nl
               ++ "The quick bro" ++ PyStr.nl ++ PyStr.nl) 160 8000)
    as (context' & H1 & H2 & _); [lia | reflexivity |].
  exists context'. now split.
Defined.

(* ------------------------------------------------------------------ *)
(** * The interactive demo *)
(* ------------------------------------------------------------------ *)

Lemma covered_ask_returns (self : assistant) (generate : model) (question : string) :
  covered self = true ->
  exists a,
    ask_question self generate question = Returns a
    /\ (Answer.sources a = [] \/ Answer.sources a = dict_keys (document_contents self)).
Proof.
  intros Hcov.
  destruct (empty_or_not (document_contents self)) as [Hdocs|Hdocs].
  - unfold ask_question. rewrite Hdocs. eexists. split; [reflexivity|]. now left.
  - destruct (create_context_returns self Hcov question 8000) as [context Hctx].
    rewrite (ask_question_unfold self generate question context Hdocs Hctx).
    destruct (generate _); eexists; (split; [reflexivity|]); cbn; auto.
Qed.




(* ------------------------------------------------------------------ *)
(** * The knowledge-base search of the deployed app *)
(* ------------------------------------------------------------------ *)

Lemma search_sections_filter (query : string) (sections : list section) :
  search_sections (PyStr.lower query) sections
  = if names_project query
    then map render_section (filter (section_matches query) sections)
    else [].
Proof.
  unfold names_project.
  induction sections as [|sec rest IH]; cbn [search_sections map filter].
  - now destruct (existsb _ keywords).
  - rewrite IH.
    change (existsb
              (fun keyword => PyStr.contains keyword (PyStr.lower (section_str sec)))
              (PyStr.split (PyStr.lower query)))
      with (section_matches query sec).
    destruct (existsb _ keywords); [|reflexivity].
    destruct (section_matches query sec); reflexivity.
Qed.

(** X19. The knowledge-base search reports nothing unless one of the nine
    keywords occurs in the lower-cased query; when one does, it reports,
    in order, each section in whose lower-cased text some word of the
    lower-cased query occurs, as the section's name between asterisks
    followed by its JSON text. So it never reports more entries than
    there are sections, and a query without keyword, or without any word,
    gets the prompt an empty knowledge base gives. *)
Theorem knowledge_search_needs_keyword (query : string) (sections : list section) :
  search_knowledge_base query sections
  = (if names_project query
     then map render_section (filter (section_matches query) sections)
     else [])
  /\ List.length (search_knowledge_base query sections) <= List.length sections
  /\ (names_project query = false \/ PyStr.split (PyStr.lower query) = [] ->
      search_knowledge_base query sections = []
      /\ generate_rag_response query sections = generate_rag_response query []).
Proof.
  unfold search_knowledge_base.
  pose proof (search_sections_filter query sections) as Hfilter.
  split; [exact Hfilter|]. split.
  - rewrite Hfilter. destruct (names_project query); simpl; [|lia].
    rewrite length_map. apply filter_length_le.
  - intros H.
    assert (Hnil : search_sections (PyStr.lower query) sections = []).
    { rewrite Hfilter. destruct H as [-> | H]; [reflexivity|].
      destruct (names_project query); [|reflexivity].
      replace (filter (section_matches query) sections) with (@nil section);
        [reflexivity|].
      symmetry. clear Hfilter.
      induction sections as [|sec rest IH]; [reflexivity|].
      cbn [filter]. unfold section_matches at 1. rewrite H. exact IH. }
    split; [exact Hnil|].
    unfold generate_rag_response, search_knowledge_base. now rewrite Hnil.
Qed.

Lemma knowledge_search_needs_keyword_witness :
  search_knowledge_base "How is it deployed?"
    [ {| section_name := "Technical Details";
         section_str := "{'deployment': 'Cloud Run'}";
         section_json := "{}" |} ]
  = []
  /\ search_knowledge_base "Explain the deployment"
       [ {| section_name := "Technical Details";
            section_str := "{'deployment': 'Cloud Run'}";
            section_json := "{}" |} ]
     = [ "**Technical Details:**" ++ PyStr.nl ++ "{}" ]%string.
Proof.
  split.
  - apply knowledge_search_needs_keyword. left. reflexivity.
  - rewrite (proj1 (knowledge_search_needs_keyword _ _)). reflexivity.
Defined.

(* ------------------------------------------------------------------ *)
(** * The chat session of the deployed app *)
(* ------------------------------------------------------------------ *)

Lemma main_first_run (a : assistant) (generate : model) (chat_input : option string) :
  main a generate None chat_input = main a generate (Some [greeting]) chat_input.
Proof. reflexivity. Qed.

Lemma session_history (a : assistant) (runs : list (option string * model))
    (messages : list Message.t) :
  covered a = true ->
  exists replies,
    Forall2
      (fun turn reply =>
         exists answer,
           ask_question a (snd turn) (fst turn) = Returns answer
           /\ reply = Answer.answer answer)
      (submitted runs) replies
    /\ session a (Some messages) runs
       = Some (messages
               ++ flat_map (fun pair => exchange (fst (fst pair)) (snd pair))
                    (combine (submitted runs) replies)).
Proof.
  intros Hcov. revert messages.
  induction runs as [|[chat_input generate] rest IH]; intros messages.
  - exists []. split; [constructor|]. simpl. now rewrite app_nil_r.
  - cbn [session]. unfold submitted. cbn [flat_map fst snd]. fold (submitted rest).
    unfold main.
    destruct chat_input as [prompt|]; [destruct (PyStr.truthy prompt)|].
    + destruct (covered_ask_returns a generate prompt Hcov) as (answer & Ha & _).
      rewrite Ha. cbn [fst].
      destruct (IH ((messages ++ [{| Message.role := "user";
                                     Message.content := prompt |}])
                    ++ [{| Message.role := "assistant";
                           Message.content := Answer.answer answer |}]))
        as (replies & Hall & ->).
      exists (Answer.answer answer :: replies). split.
      * constructor; [|exact Hall]. exists answer. now split.
      * cbn [app combine flat_map fst snd exchange].
        now rewrite <- !app_assoc.
    + cbn [fst app]. apply IH.
    + cbn [fst app]. apply IH.
Qed.

Lemma exchange_length (turns : list (string * model)) (replies : list string) :
  List.length turns = List.length replies ->
  List.length (flat_map (fun pair => exchange (fst (fst pair)) (snd pair))
                 (combine turns replies))
  = 2 * List.length turns.
Proof.
  revert replies; induction turns as [|t turns IH]; intros [|r replies] Hlen;
    try discriminate; [reflexivity|].
  injection Hlen as Hlen. specialize (IH replies Hlen).
  cbn [combine flat_map exchange app List.length] in *. lia.
Qed.

(** X20. With an assistant in which each document has its metadata, the
    chat history after any number of runs of [main] on a fresh session is
    the greeting followed, for each non-empty prompt submitted, in order,
    by the prompt as a user message and the answer text of that prompt, as
    submitted, as an assistant message: roles alternate, every prompt has
    its reply, and the history has one message more than twice the number
    of prompts. *)
Theorem chat_history_alternates
    (a : assistant) (run : option string * model)
    (rest : list (option string * model)) :
  covered a = true ->
  exists replies,
    Forall2
      (fun turn reply =>
         exists answer,
           ask_question a (snd turn) (fst turn) = Returns answer
           /\ reply = Answer.answer answer)
      (submitted (run :: rest)) replies
    /\ session a None (run :: rest)
       = Some (greeting
               :: flat_map (fun pair => exchange (fst (fst pair)) (snd pair))
                    (combine (submitted (run :: rest)) replies))
    /\ forall messages,
         session a None (run :: rest) = Some messages ->
         List.length messages = 1 + 2 * List.length (submitted (run :: rest)).
Proof.
  intros Hcov.
  destruct (session_history a (run :: rest) [greeting] Hcov)
    as (replies & Hall & Hrun).
  assert (Hfirst : session a None (run :: rest)
                   = session a (Some [greeting]) (run :: rest)).
  { destruct run as [chat_input generate]. cbn [session].
    now rewrite main_first_run. }
  exists replies. split; [exact Hall|]. rewrite Hfirst, Hrun.
  split; [reflexivity|].
  intros messages Heq. injection Heq as Hm. rewrite <- Hm.
  apply Forall2_length in Hall.
  change (S (List.length
               (flat_map (fun pair : string * model * string =>
                            exchange (fst (fst pair)) (snd pair))
                  (combine (submitted (run :: rest)) replies)))
          = 1 + 2 * List.length (submitted (run :: rest))).
  rewrite exchange_length by exact Hall. lia.
Qed.

Lemma chat_history_alternates_witness :
  exists messages,
    session demo None
      [ (None, helpful_model); (Some "fox", helpful_model);
        (Some "", failing_model); (Some "dogs?", failing_model) ]
    = Some messages
    /\ map Message.role messages
       = ["assistant"; "user"; "assistant"; "user"; "assistant"].
Proof.
  destruct (chat_history_alternates demo (None, helpful_model)
              [ (Some "fox", helpful_model); (Some "", failing_model);
                (Some "dogs?", failing_model) ])
    as (replies & Hall & Hrun & _); [reflexivity|].
  eexists. split; [exact Hrun|].
  apply Forall2_length in Hall.
  destruct replies as [|r1 [|r2 [|r3 replies]]]; try discriminate.
  reflexivity.
Defined.

(* ------------------------------------------------------------------ *)
(** * Truncation, the empty corpus and the unmatched query *)
(* ------------------------------------------------------------------ *)

Lemma included_cut_is_last (m : Z) (ranked : list Cand.t) (context : string)
    (turn : Cand.t * Z) (later : list (Cand.t * Z)) :
  included m ranked context = turn :: later ->
  (snd turn <= Z.of_nat (String.length (Cand.content (fst turn))))%Z ->
  later = [].
Proof.
  destruct ranked as [|doc rest]; cbn [included]; [discriminate|].
  destruct (Z.leb_spec (remaining_for m context doc) 0) as [Hle|Hgt];
    [discriminate|].
  intros [= <- <-]. cbn [fst snd]. intros Hcut.
  destruct rest as [|next rest]; [reflexivity|]. cbn [included].
  destruct (Z.leb_spec
              (remaining_for m (context ++ entry doc (remaining_for m context doc))
                 next) 0) as [Hle'|Hgt']; [reflexivity|].
  exfalso. unfold remaining_for in Hgt'.
  rewrite length_append, length_entry, length_slice_to in Hgt' by lia.
  unfold remaining_for in *. lia.
Qed.

Lemma included_suffix (m : Z) (ranked : list Cand.t) (context : string)
    (earlier : list (Cand.t * Z)) (turn : Cand.t * Z)
    (later : list (Cand.t * Z)) :
  included m ranked context = earlier ++ turn :: later ->
  exists ranked' context', included m ranked' context' = turn :: later.
Proof.
  revert ranked context.
  induction earlier as [|e earlier IH]; intros ranked context H.
  - now exists ranked, context.
  - destruct ranked as [|doc rest]; cbn [included] in H; [discriminate|].
    destruct (Z.leb_spec (remaining_for m context doc) 0); [discriminate|].
    injection H as _ H. now apply IH in H.
Qed.

(** X21. Only the last entry of a context can be cut: whatever the ranked
    list and the budget, every document the assembly loop includes before
    another one is there with its whole text, its [remaining] having been
    larger than the length of the text. *)
Theorem only_last_entry_is_cut
    (max_context_len : Z) (ranked : list Cand.t)
    (earlier later : list (Cand.t * Z)) (turn : Cand.t * Z) :
  included max_context_len ranked context_start = earlier ++ turn :: later ->
  later <> [] ->
  (Z.of_nat (String.length (Cand.content (fst turn))) < snd turn)%Z
  /\ entry (fst turn) (snd turn) = whole_entry (fst turn).
Proof.
  intros Hsplit Hlater.
  destruct (included_suffix _ _ _ _ _ _ Hsplit) as (ranked' & context' & Hturn).
  assert (Hlong : (Z.of_nat (String.length (Cand.content (fst turn))) < snd turn)%Z).
  { destruct (Z.lt_ge_cases (Z.of_nat (String.length (Cand.content (fst turn))))
                (snd turn)) as [H|H]; [exact H|].
    elim Hlater. apply (included_cut_is_last _ _ _ _ _ Hturn). lia. }
  split; [exact Hlong|].
  unfold entry, whole_entry, PyStr.slice_to, PyStr.clamp.
  destruct (Z.ltb_spec (snd turn) 0); [lia|].
  rewrite take_all by lia. reflexivity.
Qed.

Lemma only_last_entry_is_cut_witness :
  entry {| Cand.name := "a.txt"; Cand.content := "The quick brown fox";
           Cand.score := 1; Cand.type := "Plain Text" |} 53
  = whole_entry {| Cand.name := "a.txt"; Cand.content := "The quick brown fox";
                   Cand.score := 1; Cand.type := "Plain Text" |}.
Proof.
  apply (only_last_entry_is_cut 200
           [ {| Cand.name := "a.txt"; Cand.content := "The quick brown fox";
                Cand.score := 1; Cand.type := "Plain Text" |};
             {| Cand.name := "b.txt"; Cand.content := "Lazy dogs sleep";
                Cand.score := 1; Cand.type := "Plain Text" |} ]
           []
           [ ({| Cand.name := "b.txt"; Cand.content := "Lazy dogs sleep";
                 Cand.score := 1; Cand.type := "Plain Text" |}, 5%Z) ]
           ({| Cand.name := "a.txt"; Cand.content := "The quick brown fox";
               Cand.score := 1; Cand.type := "Plain Text" |}, 53%Z));
    [reflexivity | discriminate].
Defined.

(** X22. Queries that match nothing all get the same context: on a state
    in which each document has its metadata, when no term of either of two
    queries occurs in any document, the two contexts are the same, made
    from the first two documents at most. *)
Theorem unmatched_queries_get_same_context
    (self : assistant) (query1 query2 : string) (max_context_len : Z) :
  covered self = true ->
  (forall doc_name content,
     In (doc_name, content) (document_contents self) ->
     score_of (query_terms query1) content = 0
     /\ score_of (query_terms query2) content = 0) ->
  create_context_from_documents self query1 max_context_len
  = create_context_from_documents self query2 max_context_len.
Proof.
  intros Hcov Hzero.
  assert (Hnone : forall query,
            (forall doc_name content,
               In (doc_name, content) (document_contents self) ->
               score_of (query_terms query) content = 0) ->
            rank_documents self query
            = (ranked <- fallback self ;; Returns (sort_by_score ranked))).
  { intros query Hq. unfold rank_documents.
    assert (Hscored : score_documents self (query_terms query)
                        (document_contents self) = Returns []).
    { assert (Hincl : incl (document_contents self) (document_contents self))
        by apply incl_refl.
      revert Hincl. generalize (document_contents self) at 1 3.
      intros items. induction items as [|[n c] items IH]; intros Hincl; simpl;
        [reflexivity|].
      rewrite (Hq n c) by (apply Hincl; now left). simpl.
      apply IH. intros x Hx. apply Hincl. now right. }
    rewrite Hscored. reflexivity. }
  unfold create_context_from_documents.
  rewrite (Hnone query1), (Hnone query2); [reflexivity | |];
    intros n c Hin; now apply (Hzero n c).
Qed.

Lemma unmatched_queries_get_same_context_witness :
  create_context_from_documents demo "zebra" 8000
  = create_context_from_documents demo "Unicorn  PARADE" 8000.
Proof.
  apply (unmatched_queries_get_same_context demo "zebra" "Unicorn  PARADE" 8000).
  - reflexivity.
  - intros doc_name content [[= <- <-]|[[= <- <-]|[]]]; split; reflexivity.
Defined.

Lemma record_of_none_iff (bucket_name : string) (v : blob_visit) :
  record_of bucket_name v = None <-> passed_over v.
Proof.
  unfold record_of, extract_step, passed_over.
  rewrite content_type_of_table.
  destruct (dict_get (file_ext_of (blob_name v)) content_types) as [ty|].
  - destruct (extraction v) as [detail|text]; simpl.
    + split; [intros _; right; left; now eexists | reflexivity].
    + destruct (PyStr.truthy (PyStr.strip text)) eqn:E.
      * apply truthy_spec in E. split; [discriminate|].
        intros [H|[[d H]|(t & [= <-] & H)]]; congruence.
      * split; [|reflexivity]. intros _. right. right. exists text.
        split; [reflexivity|]. destruct (PyStr.strip text); [reflexivity|].
        discriminate.
  - split; [now left | reflexivity].
Qed.

Lemma records_nil_iff (bucket_name : string) (visits : list blob_visit) :
  records bucket_name visits = [] <-> Forall passed_over visits.
Proof.
  unfold records. induction visits as [|v visits IH]; simpl.
  - split; [constructor | reflexivity].
  - rewrite Forall_cons_iff, <- IH, <- (record_of_none_iff bucket_name).
    destruct (record_of bucket_name v); simpl; split;
      try discriminate; try tauto.
    intros [H _]. discriminate.
Qed.

(** X23. A fresh assistant has no documents after a run exactly when
    every object of the run was passed over (unlisted extension, failed
    extraction or blank text): then the run returns 0 and leaves the
    assistant as it was constructed, every question gets the
    no-documents answer and the context is the no-documents sentence; and
    when some object was not passed over the run returns a positive
    number and no question gets that answer. *)
Theorem no_documents_iff_all_passed_over
    (bucket_name : string) (visits : list blob_visit) :
  let self := fst (load_documents_from_gcs bucket_name visits init) in
  let total := snd (load_documents_from_gcs bucket_name visits init) in
  (total = 0 <-> Forall passed_over visits)
  /\ (total = 0 -> self = init)
  /\ forall generate question,
       (ask_question self generate question = Returns empty_corpus_answer
        <-> total = 0)
       /\ (create_context_from_documents self question 8000 = Returns no_documents
           <-> total = 0).
Proof.
  cbn zeta. unfold load_documents_from_gcs. cbn [fst snd].
  set (self := fold_left (process_blob bucket_name) visits init).
  assert (Hcons : consistent self)
    by apply (consistent_load bucket_name visits init consistent_init).
  assert (Hlen : List.length (document_contents self) = 0
                 <-> records bucket_name visits = []).
  { unfold self. rewrite load_contents. unfold text_updates.
    destruct (records bucket_name visits) as [|r rs] eqn:E.
    - split; reflexivity.
    - split; [|discriminate]. intros H. apply length_zero_iff_nil in H.
      assert (Hin : In (fst r)
                       (dict_keys (dict_update (document_contents init)
                                     (map (fun r => (fst r, fst (snd r))) (r :: rs)))))
        by (apply in_keys_update; right; simpl; now left).
      rewrite H in Hin. destruct Hin. }
  split; [now rewrite Hlen, records_nil_iff|]. split.
  - intros H. apply Hlen in H.
    assert (Hc : document_contents self = []).
    { unfold self. rewrite load_contents. unfold text_updates. now rewrite H. }
    assert (Hm : document_metadata self = []).
    { unfold self. rewrite load_metadata. unfold meta_updates. now rewrite H. }
    destruct self as [c m]. simpl in *. now subst.
  - intros generate question.
    pose proof (consistent_covered self Hcons) as Hcov.
    destruct (empty_or_not (document_contents self)) as [Hdocs|Hdocs].
    + assert (H0 : List.length (document_contents self) = 0) by now rewrite Hdocs.
      split; (split; [intros _; exact H0|intros _]).
      * unfold ask_question. now rewrite Hdocs.
      * now apply create_context_empty.
    + assert (H0 : List.length (document_contents self) <> 0).
      { intros H. apply length_zero_iff_nil in H. contradiction. }
      split; (split; [|intros H; contradiction]).
      * destruct (create_context_returns self Hcov question 8000) as [context Hctx].
        rewrite (ask_question_unfold self generate question context Hdocs Hctx).
        destruct (generate _); discriminate.
      * rewrite create_context_nonempty by assumption.
        destruct (rank_documents self question) as [e|ranked]; [discriminate|].
        cbn [bind]. rewrite assemble_entries. discriminate.
Qed.

Lemma no_documents_iff_all_passed_over_witness :
  snd (load_documents_from_gcs "bucket"
         [failing_visit; blank_visit; unsupported_visit] init) = 0.
Proof.
  apply (no_documents_iff_all_passed_over "bucket"
           [failing_visit; blank_visit; unsupported_visit]).
  apply Forall_cons; [right; left; now eexists|].
  apply Forall_cons; [right; right; now eexists|].
  apply Forall_cons; [left; reflexivity | apply Forall_nil].
Defined.

(* ------------------------------------------------------------------ *)
(** * Which documents the summary and a one-word question see *)
(* ------------------------------------------------------------------ *)




Lemma isspace_lower_char (c : ascii) :
  PyStr.isspace (PyStr.lower_char c) = PyStr.isspace c.
Proof. destruct c as [[] [] [] [] [] [] [] []]; reflexivity. Qed.

Lemma split_go_word (w : string) :
  forallb (fun c => negb (PyStr.isspace c)) (list_ascii_of_string w) = true ->
  PyStr.split_go w = (w, []).
Proof.
  induction w as [|c w IH]; simpl; [reflexivity|].
  rewrite andb_true_iff, negb_true_iff. intros [Hc Hw].
  now rewrite (IH Hw), Hc.
Qed.

Lemma split_lower_word (w : string) :
  PyStr.is_word w = true -> PyStr.split (PyStr.lower w) = [PyStr.lower w].
Proof.
  unfold PyStr.is_word, PyStr.split. rewrite andb_true_iff. intros [Hne Hw].
  rewrite split_go_word.
  - destruct w; [discriminate | reflexivity].
  - clear Hne. induction w as [|c w IH]; simpl in *; [reflexivity|].
    rewrite andb_true_iff in Hw |- *. destruct Hw as [Hc Hw].
    split; [now rewrite isspace_lower_char | now apply IH].
Qed.

(** X25. A question of one word ranks the documents that the search for
    that word hits: for a term that is one word, the documents the scoring
    loop keeps are, in corpus order, those the search reports. *)
Theorem one_word_question_ranks_search_hits
    (self : assistant) (term : string) (hits : list Hit.t) (scored : list Cand.t) :
  PyStr.is_word term = true ->
  search_documents self term = Returns hits ->
  score_documents self (query_terms term) (document_contents self)
  = Returns scored ->
  map Cand.name scored = map Hit.document hits
  /\ Forall (fun d => Cand.score d = 1) scored.
Proof.
  intros Hword Hsearch Hscore.
  assert (Hterms : query_terms term = [PyStr.lower term]).
  { unfold query_terms. now rewrite (split_lower_word term Hword). }
  assert (Hone : forall content,
            score_of [PyStr.lower term] content
            = if PyStr.contains (PyStr.lower term) (PyStr.lower content)
              then 1 else 0).
  { intros content. unfold score_of. cbn [filter].
    now destruct (PyStr.contains _ _). }
  rewrite Hterms in Hscore. split.
  - apply score_documents_sound in Hscore.
    apply search_items_sound in Hsearch.
    assert (Hhits : map Hit.document hits
                    = dict_keys (matching term (document_contents self))).
    { unfold dict_keys.
      induction Hsearch as [|h kv hs kvs (Hd & _) _ IH]; simpl;
        [reflexivity | now rewrite Hd, IH]. }
    rewrite Hhits, cand_names, Hscore. unfold scoring, matching, dict_keys.
    f_equal. apply filter_ext. intros kv. rewrite Hone.
    now destruct (PyStr.contains _ _).
  - clear Hsearch. revert scored Hscore.
    induction (document_contents self) as [|[n c] items IH]; intros scored;
      cbn [score_documents].
    + intros [= <-]. constructor.
    + rewrite Hone.
      destruct (PyStr.contains (PyStr.lower term) (PyStr.lower c)); cbn.
      * destruct (metadata_type self n); cbn; [discriminate|].
        destruct (score_documents self [PyStr.lower term] items) as [e|tl];
          cbn; [discriminate|].
        intros [= <-]. constructor; [reflexivity | now apply IH].
      * apply IH.
Qed.

Lemma one_word_question_ranks_search_hits_witness :
  map Cand.name
    [ {| Cand.name := "b.txt"; Cand.content := "Lazy dogs sleep";
         Cand.score := 1; Cand.type := "Plain Text" |} ]
  = map Hit.document
      [ {| Hit.document := "b.txt"; Hit.type := "Plain Text";
           Hit.snippet := "Lazy dogs sleep"; Hit.position := 5 |} ].
Proof.
  apply (one_word_question_ranks_search_hits demo "Dogs"); reflexivity.
Defined.
